(** * LinkShellExtension: link creation and link classification

    A shallow embedding of [link_shell.py]: the three link creators
    ([create_hardlink], [create_symlink], [create_junction]), the classifier
    ([is_link]), the target resolver ([get_link_target]), the elevation
    helpers ([is_admin], [run_as_admin]) and the front ends that reach
    them: the form [LinkShellApp] with its handlers and its event loop, and
    [main] with its headless branch.

    The program is a thin layer over operating-system calls, so it is
    embedded in a monad of state, exceptions and a call log, parametric in an
    interface [OS] for the host.  The theorems about the code hold for every
    host; a small NTFS-like host ([Ntfs]) and a host that answers from a
    table ([Canned]) give concrete runs. *)

From Stdlib Require Import List String Ascii NArith ZArith Bool Lia.
Import ListNotations.
Local Open Scope N_scope.

(** ** Python strings *)

(** A Python [str] is a sequence of Unicode code points. *)
Definition str := list N.

Module Utf8.

(** Source literals are written in this file as UTF-8 byte strings and
    decoded to code points, so that the Chinese literals of the source can
    be read next to the code. *)
Definition cont (b : N) : N := N.land b 63.

Fixpoint decode (bs : list N) : str :=
  match bs with
  | [] => []
  | b0 :: r0 =>
    if b0 <? 128 then b0 :: decode r0
    else if b0 <? 224 then
      match r0 with
      | b1 :: r1 => (N.land b0 31 * 64 + cont b1) :: decode r1
      | _ => [b0]
      end
    else if b0 <? 240 then
      match r0 with
      | b1 :: b2 :: r2 =>
        (N.land b0 15 * 4096 + cont b1 * 64 + cont b2) :: decode r2
      | _ => [b0]
      end
    else
      match r0 with
      | b1 :: b2 :: b3 :: r3 =>
        (N.land b0 7 * 262144 + cont b1 * 4096 + cont b2 * 64 + cont b3)
          :: decode r3
      | _ => [b0]
      end
  end.

End Utf8.

(** [u "..."] is the Python string literal ["..."]. *)
Definition u (s : string) : str :=
  Utf8.decode (map N_of_ascii (list_ascii_of_string s)).

Module Py.

Definition eqb (a b : str) : bool :=
  if list_eq_dec N.eq_dec a b then true else false.

(** [s.startswith(p)] *)
Fixpoint startswith (s p : str) : bool :=
  match p, s with
  | [], _ => true
  | _ :: _, [] => false
  | a :: p', b :: s' => (a =? b) && startswith s' p'
  end.

(** [sub in s] *)
Fixpoint contains (sub s : str) : bool :=
  startswith s sub ||
  match s with
  | [] => false
  | _ :: s' => contains sub s'
  end.

(** [s.split(sep)] for a one-character separator: never an empty list. *)
Fixpoint split (sep : N) (s : str) : list str :=
  match s with
  | [] => [[]]
  | c :: s' =>
    if c =? sep then [] :: split sep s'
    else match split sep s' with
         | [] => [[c]]
         | h :: t => (c :: h) :: t
         end
  end.

(** [str.isspace] on one code point: the characters [str.strip()] removes. *)
Definition isspace (c : N) : bool :=
  ((9 <=? c) && (c <=? 13)) || ((28 <=? c) && (c <=? 32)) ||
  (c =? 133) || (c =? 160) || (c =? 5760) ||
  ((8192 <=? c) && (c <=? 8202)) || (c =? 8232) || (c =? 8233) ||
  (c =? 8239) || (c =? 8287) || (c =? 12288).

Fixpoint lstrip (s : str) : str :=
  match s with
  | [] => []
  | c :: s' => if isspace c then lstrip s' else s
  end.

Definition rstrip (s : str) : str := rev (lstrip (rev s)).

(** [s.strip()] *)
Definition strip (s : str) : str := rstrip (lstrip s).

(** [s[n:]] *)
Definition slice_from (n : nat) (s : str) : str := skipn n s.

(** [sep.join(l)] *)
Fixpoint join (sep : str) (l : list str) : str :=
  match l with
  | [] => []
  | [x] => x
  | x :: r => x ++ sep ++ join sep r
  end.

(** Truthiness of a string: [if s:]. *)
Definition truthy (s : str) : bool :=
  match s with [] => false | _ => true end.

End Py.

Definition colon : N := 58.
Definition newline : N := 10.
Definition dquote : N := 34.

(** ** Exceptions, outcomes and the host interface *)

(** The exceptions the program can meet.  [Exception msg] stands for any
    instance of [Exception] (an [OSError] from a failed call, a decoding
    error, ...), with [str(e) = msg]; the other two derive from
    [BaseException] only, so [except Exception] lets them through and a bare
    [except:] catches them. *)
Inductive exn :=
| Exception (msg : str)
| SystemExit (code : Z)
| KeyboardInterrupt.

Definition is_Exception (e : exn) : bool :=
  match e with Exception _ => true | _ => false end.

Definition any_exn (e : exn) : bool := true.

(** [str(e)] *)
Definition str_of (e : exn) : str :=
  match e with
  | Exception msg => msg
  | SystemExit _ => []
  | KeyboardInterrupt => []
  end.

Inductive outcome (A : Type) :=
| Returned (a : A)
| Raised (e : exn).
Arguments Returned {A} a.
Arguments Raised {A} e.

(** [subprocess.CompletedProcess] with [capture_output=True, text=True]. *)
Record CompletedProcess := {
  returncode : Z;
  stdout : str;
  stderr : str
}.

(** What the program asks of its host.  [W] is the state of the host (file
    system, privileges, process parameters).  The [os.path] predicates
    answer [False] instead of raising on a [str] argument; every other call
    may raise. *)
Class OS (W : Type) := {
  os_path_isfile : str -> W -> bool;
  os_path_isdir : str -> W -> bool;
  os_path_islink : str -> W -> bool;
  os_readlink : str -> W -> outcome str;
  (* os.symlink(src, dst, target_is_directory) *)
  os_symlink : str -> str -> bool -> W -> outcome unit * W;
  (* kernel32.CreateHardLinkW(lpFileName, lpExistingFileName, NULL) *)
  CreateHardLinkW : str -> str -> W -> outcome Z * W;
  (* subprocess.run(args, capture_output=True, text=True, shell=...) *)
  subprocess_run : list str -> bool -> W -> outcome CompletedProcess * W;
  (* shell32.IsUserAnAdmin() *)
  IsUserAnAdmin : W -> outcome Z;
  (* shell32.ShellExecuteW(NULL, verb, file, params, NULL, nShow) *)
  ShellExecuteW : str -> str -> str -> Z -> W -> outcome Z * W;
  sys_executable : W -> str;
  sys_argv : W -> list str
}.

(** Every call to the host and every output to the user is logged, in
    order.  Dialogs, prints and widget updates are outputs: they are logged
    and return. *)
Inductive event :=
| Call_isfile (path : str)
| Call_isdir (path : str)
| Call_islink (path : str)
| Call_readlink (path : str)
| Call_symlink (src dst : str) (target_is_directory : bool)
| Call_CreateHardLinkW (lpFileName lpExistingFileName : str)
| Call_subprocess_run (args : list str) (shell : bool)
| Call_IsUserAnAdmin
| Call_ShellExecuteW (verb file params : str) (nShow : Z)
| Out_showerror (title message : str)
| Out_showinfo (title message : str)
| Out_print (line : str)
| Out_status (text : str)
| Out_gui (source_prefill : option str).

Section Program.

Context {W : Type} `{HostOS : OS W}.

Record state := { world : W; log : list event }.

Definition M (A : Type) : Type := state -> outcome A * state.

Definition ret {A} (a : A) : M A := fun s => (Returned a, s).

Definition raise {A} (e : exn) : M A := fun s => (Raised e, s).

Definition bind {A B} (m : M A) (k : A -> M B) : M B :=
  fun s =>
    match m s with
    | (Returned a, s') => k a s'
    | (Raised e, s') => (Raised e, s')
    end.

(** [try: body  except <class>: handler] *)
Definition try_except {A} (body : M A) (catches : exn -> bool)
           (handler : exn -> M A) : M A :=
  fun s =>
    match body s with
    | (Returned a, s') => (Returned a, s')
    | (Raised e, s') => if catches e then handler e s' else (Raised e, s')
    end.

Definition emit (e : event) : M unit :=
  fun s => (Returned tt, {| world := world s; log := log s ++ [e] |}).

(** A host query: logged, the host state unchanged. *)
Definition query {A} (e : event) (f : W -> A) : M A :=
  fun s => (Returned (f (world s)),
            {| world := world s; log := log s ++ [e] |}).

Definition query_exn {A} (e : event) (f : W -> outcome A) : M A :=
  fun s => (f (world s), {| world := world s; log := log s ++ [e] |}).

(** A host call that may change the host state. *)
Definition call {A} (e : event) (f : W -> outcome A * W) : M A :=
  fun s =>
    let '(r, w') := f (world s) in
    (r, {| world := w'; log := log s ++ [e] |}).

Definition read {A} (f : W -> A) : M A :=
  fun s => (Returned (f (world s)), s).

End Program.

Arguments state W : clear implicits.
Arguments M W A : clear implicits.

Declare Scope py_scope.
Delimit Scope py_scope with py.
Notation "x <- c1 ;; c2" := (bind c1 (fun x => c2))
  (at level 61, c1 at next level, right associativity) : py_scope.
Notation "c1 ;; c2" := (bind c1 (fun _ => c2))
  (at level 61, right associativity) : py_scope.
Local Open Scope py_scope.

(** ** String constants of the source *)

Module Text.
Definition error_title : str := u "错误".
Definition success_title : str := u "成功".
Definition hardlink_files_only : str := u "硬链接只能用于文件，不能用于目录".
Definition hardlink_failed : str := u "创建硬链接失败: ".
Definition symlink_failed : str := u "创建符号链接失败: ".
Definition junction_dirs_only : str := u "目录联接只能用于目录，不能用于文件".
Definition junction_failed : str := u "创建目录联接失败: ".
Definition need_paths : str := u "请指定源路径和目标路径".
Definition create_failed : str := u "创建链接失败".
Definition link_created : str := u "成功创建链接: ".
Definition hardlink_created : str := u "成功创建硬链接: ".
Definition hardlink_not_created : str := u "创建硬链接失败".
Definition symlink_created : str := u "成功创建符号链接: ".
Definition symlink_not_created : str := u "创建符号链接失败".
Definition junction_created : str := u "成功创建目录联接: ".
Definition junction_not_created : str := u "创建目录联接失败".
End Text.

(** The values [is_link] returns: the localized names of the link kinds. *)
Definition SymLink : str := u "符号链接".
Definition Junction : str := u "目录联接".
Definition HardLink : str := u "硬链接".

Definition hardlink : str := u "hardlink".
Definition symlink : str := u "symlink".
Definition junction : str := u "junction".

(** ** The program *)

(** [argparse.Namespace] as [parse_arguments] returns it. *)
Record Namespace := {
  arg_type : option str;
  arg_source : option str;
  arg_target : option str;
  arg_files : list str
}.

(** The three variables of the form that [create_link] reads. *)
Record LinkShellApp := {
  link_type : str;
  source_path : str;
  target_path : str
}.

Section Source.

Context {W : Type} `{HostOS : OS W}.

(** *** Host calls, logged *)

Definition isfile (path : str) : M W bool :=
  query (Call_isfile path) (os_path_isfile path).
Definition isdir (path : str) : M W bool :=
  query (Call_isdir path) (os_path_isdir path).
Definition islink (path : str) : M W bool :=
  query (Call_islink path) (os_path_islink path).
Definition readlink (path : str) : M W str :=
  query_exn (Call_readlink path) (os_readlink path).
Definition symlink_call (src dst : str) (target_is_directory : bool) : M W unit :=
  call (Call_symlink src dst target_is_directory)
       (os_symlink src dst target_is_directory).
Definition hardlink_call (lpFileName lpExistingFileName : str) : M W Z :=
  call (Call_CreateHardLinkW lpFileName lpExistingFileName)
       (CreateHardLinkW lpFileName lpExistingFileName).
Definition run (args : list str) (shell : bool) : M W CompletedProcess :=
  call (Call_subprocess_run args shell) (subprocess_run args shell).
Definition showerror (title message : str) : M W unit :=
  emit (Out_showerror title message).
Definition showinfo (title message : str) : M W unit :=
  emit (Out_showinfo title message).
Definition print (line : str) : M W unit := emit (Out_print line).
Definition status_set (text : str) : M W unit := emit (Out_status text).

(** [l[-1]]: [IndexError] on an empty list. *)
Definition index_last (l : list str) : M W str :=
  match l with
  | [] => raise (Exception (u "list index out of range"))
  | _ :: _ => ret (last l [])
  end.

(** *** Elevation *)

(** [is_admin]: the integer [IsUserAnAdmin] returns, [False] (that is 0)
    when the call raises. *)
Definition is_admin : M W Z :=
  try_except
    (query_exn Call_IsUserAnAdmin IsUserAnAdmin)
    any_exn
    (fun _ => ret 0%Z).

Definition sys_exit {A} (code : Z) : M W A := raise (SystemExit code).

Definition run_as_admin : M W unit :=
  admin <- is_admin ;;
  if (admin =? 0)%Z then
    executable <- read sys_executable ;;
    argv <- read sys_argv ;;
    _ <- call (Call_ShellExecuteW (u "runas") executable
                                  (Py.join (u " ") argv) 1)
              (ShellExecuteW (u "runas") executable
                             (Py.join (u " ") argv) 1) ;;
    sys_exit 0
  else ret tt.

(** *** Link creation *)

Definition create_hardlink (source target : str) : M W bool :=
  try_except
    (is_file <- isfile source ;;
     if is_file then
       result <- hardlink_call target source ;;
       ret (negb (result =? 0)%Z)
     else
       showerror Text.error_title Text.hardlink_files_only ;;
       ret false)
    is_Exception
    (fun e =>
       showerror Text.error_title (Text.hardlink_failed ++ str_of e) ;;
       ret false).

Definition create_symlink (source target : str) (is_directory : bool)
  : M W bool :=
  try_except
    ((if is_directory then symlink_call source target true
      else symlink_call source target false) ;;
     ret true)
    is_Exception
    (fun e =>
       showerror Text.error_title (Text.symlink_failed ++ str_of e) ;;
       ret false).

(** The command line [f"mklink /J \"{target}\" \"{source}\""]. *)
Definition mklink_command (target source : str) : str :=
  u "mklink /J " ++ [dquote] ++ target ++ [dquote] ++ u " " ++
  [dquote] ++ source ++ [dquote].

Definition create_junction (source target : str) : M W bool :=
  try_except
    (is_dir <- isdir source ;;
     if is_dir then
       result <- run [u "cmd"; u "/c"; mklink_command target source] true ;;
       ret (returncode result =? 0)%Z
     else
       showerror Text.error_title Text.junction_dirs_only ;;
       ret false)
    is_Exception
    (fun e =>
       showerror Text.error_title (Text.junction_failed ++ str_of e) ;;
       ret false).

(** *** Classification *)

(** The body of [is_link], inside its [try]. *)
Definition is_link_body (path : str) : M W (option str) :=
  sym <- islink path ;;
  if sym then ret (Some SymLink) else
  is_dir <- isdir path ;;
  reparse <-
    (if is_dir then
       result <- run [u "fsutil"; u "reparsepoint"; u "query"; path] false ;;
       ret (Py.contains (u "重解析点") (stdout result) ||
            Py.contains (u "Reparse") (stdout result))
     else ret false) ;;
  if reparse then ret (Some Junction) else
  is_file <- isfile path ;;
  linked <-
    (if is_file then
       result <- run [u "fsutil"; u "hardlink"; u "list"; path] false ;;
       ret (2 <? List.length (Py.split newline (Py.strip (stdout result))))%nat
     else ret false) ;;
  if linked then ret (Some HardLink) else
  ret None.

Definition is_link (path : str) : M W (option str) :=
  try_except (is_link_body path) any_exn (fun _ => ret None).

(** The [for line in ...] loop of [get_link_target]: [Some target] when
    the loop returns [target] from the function, [None] when it runs out. *)
Fixpoint substitute_name_loop (lines : list str) : M W (option str) :=
  match lines with
  | [] => ret None
  | line :: rest =>
    if Py.contains (u "Substitute Name") line ||
       Py.contains (u "替代名称") line
    then
      field <- index_last (Py.split colon line) ;;
      let target := Py.strip field in
      let target :=
        if Py.startswith target (u "\??\") then Py.slice_from 4 target
        else target in
      ret (Some target)
    else substitute_name_loop rest
  end.

Definition get_link_target_body (path : str) : M W (option str) :=
  sym <- islink path ;;
  if sym then
    target <- readlink path ;;
    ret (Some target)
  else
  is_dir <- isdir path ;;
  found <-
    (if is_dir then
       result <- run [u "fsutil"; u "reparsepoint"; u "query"; path] false ;;
       substitute_name_loop (Py.split newline (stdout result))
     else ret None) ;;
  match found with
  | Some target => ret (Some target)
  | None => ret None
  end.

Definition get_link_target (path : str) : M W (option str) :=
  try_except (get_link_target_body path) any_exn (fun _ => ret None).

(** *** Front ends *)

(** [LinkShellApp.create_link]: the handler of the form's create button. *)
Definition create_link (self : LinkShellApp) : M W unit :=
  let source := source_path self in
  let target := target_path self in
  if negb (Py.truthy source) || negb (Py.truthy target) then
    showerror Text.error_title Text.need_paths
  else
  let link_type := link_type self in
  needs_elevation <-
    (if Py.eqb link_type symlink || Py.eqb link_type junction then
       admin <- is_admin ;;
       ret (admin =? 0)%Z
     else ret false) ;;
  if needs_elevation then
    run_as_admin
  else
  success <-
    (if Py.eqb link_type hardlink then
       create_hardlink source target
     else if Py.eqb link_type symlink then
       is_dir <- isdir source ;;
       create_symlink source target is_dir
     else if Py.eqb link_type junction then
       create_junction source target
     else ret false) ;;
  if success then
    status_set (u "成功创建" ++ link_type ++ u "链接") ;;
    showinfo Text.success_title (Text.link_created ++ target)
  else
    status_set Text.create_failed.

(** The headless branch of [main]: all of [--type], [--source] and
    [--target] given. *)
Definition headless (type source target : str) : M W unit :=
  if Py.eqb type hardlink then
    ok <- create_hardlink source target ;;
    if ok then print (Text.hardlink_created ++ target)
    else print Text.hardlink_not_created
  else if Py.eqb type symlink then
    is_dir <- isdir source ;;
    ok <- create_symlink source target is_dir ;;
    if ok then print (Text.symlink_created ++ target)
    else print Text.symlink_not_created
  else if Py.eqb type junction then
    ok <- create_junction source target ;;
    if ok then print (Text.junction_created ++ target)
    else print Text.junction_not_created
  else ret tt.

(** Truthiness of an optional argument: [None] and [""] are false. *)
Definition given (o : option str) : option str :=
  match o with
  | Some s => if Py.truthy s then Some s else None
  | None => None
  end.

End Source.

(** ** A reference host

    An NTFS-like host, for concrete runs: a table from paths to directory
    entries, the calls of [OS] over it, and what [fsutil] and [mklink]
    print.  Paths are compared as written.  It is not part of the program;
    it fixes one host the program can run on. *)

Module Ntfs.

Inductive node :=
| File (id : N)                            (* one name of file record [id] *)
| Dir
| SymlinkTo (target : str) (is_dir : bool) (* tag 0xA000000C *)
| MountPoint (substitute print : str)      (* junction, tag 0xA0000003 *)
| Reparse (tag : N) (is_dir : bool).       (* any other reparse point *)

Record host := {
  entries : list (str * node);
  elevated : bool;
  tools : bool;              (* fsutil and cmd can be started *)
  executable : str;
  argv : list str
}.

Definition IO_REPARSE_TAG_MOUNT_POINT : N := 2684354563. (* 0xA0000003 *)
Definition IO_REPARSE_TAG_SYMLINK : N := 2684354572.     (* 0xA000000C *)
Definition IO_REPARSE_TAG_CLOUD_6 : N := 2415943706.     (* 0x9000601A *)

Fixpoint lookup (l : list (str * node)) (p : str) : option node :=
  match l with
  | [] => None
  | (q, n) :: r => if Py.eqb q p then Some n else lookup r p
  end.

Definition add (p : str) (n : node) (h : host) : host :=
  {| entries := entries h ++ [(p, n)];
     elevated := elevated h;
     tools := tools h;
     executable := executable h;
     argv := argv h |}.

(** What a path leads to once symbolic links and junctions are followed. *)
Fixpoint follow (fuel : nat) (l : list (str * node)) (p : str) : option node :=
  match lookup l p with
  | Some (SymlinkTo t _) =>
    match fuel with O => None | S f => follow f l t end
  | Some (MountPoint _ t) =>
    match fuel with O => None | S f => follow f l t end
  | other => other
  end.

Definition isfile (p : str) (h : host) : bool :=
  match follow 31 (entries h) p with
  | Some (File _) => true
  | Some (Reparse _ false) => true
  | _ => false
  end.

Definition isdir (p : str) (h : host) : bool :=
  match follow 31 (entries h) p with
  | Some Dir => true
  | Some (Reparse _ true) => true
  | _ => false
  end.

Definition islink (p : str) (h : host) : bool :=
  match lookup (entries h) p with
  | Some (SymlinkTo _ _) => true
  | _ => false
  end.

Definition exists_ (p : str) (h : host) : bool :=
  match follow 31 (entries h) p with Some _ => true | None => false end.

Definition readlink (p : str) (h : host) : outcome str :=
  match lookup (entries h) p with
  | Some (SymlinkTo t _) => Returned t
  | _ => Raised (Exception (u "[WinError 4390] The file or directory is not a reparse point"))
  end.

Definition symlink (src dst : str) (target_is_directory : bool) (h : host)
  : outcome unit * host :=
  if negb (elevated h) then
    (Raised (Exception (u "[WinError 1314] A required privilege is not held by the client")), h)
  else
    match lookup (entries h) dst with
    | Some _ =>
      (Raised (Exception (u "[WinError 183] Cannot create a file when that file already exists")), h)
    | None => (Returned tt, add dst (SymlinkTo src target_is_directory) h)
    end.

Definition hard_link (lpFileName lpExistingFileName : str) (h : host)
  : outcome Z * host :=
  match lookup (entries h) lpExistingFileName, lookup (entries h) lpFileName with
  | Some (File id), None => (Returned 1%Z, add lpFileName (File id) h)
  | _, _ => (Returned 0%Z, h)
  end.

(** *** What the tools print *)

Definition hex_digit (d : N) : N :=
  if d <? 10 then 48 + d else 87 + d.

(** [%08x] *)
Definition hex8 (n : N) : str :=
  map (fun i => hex_digit (N.land (N.shiftr n (4 * i)) 15))
      [7; 6; 5; 4; 3; 2; 1; 0].

Definition lines (l : list str) : str :=
  flat_map (fun s => s ++ [newline]) l.

(** [fsutil reparsepoint query]: the header and the name lines; the hex
    dump of the buffer that follows them is left out. *)
Definition reparse_report (n : node) : option str :=
  match n with
  | MountPoint substitute print =>
    Some (lines
      [ u "Reparse Tag Value : 0x" ++ hex8 IO_REPARSE_TAG_MOUNT_POINT;
        u "Tag value: Microsoft";
        u "Tag value: Name Surrogate";
        u "Tag value: Mount Point";
        u "Substitute Name:       " ++ substitute;
        u "Print Name:            " ++ print ])
  | SymlinkTo target _ =>
    Some (lines
      [ u "Reparse Tag Value : 0x" ++ hex8 IO_REPARSE_TAG_SYMLINK;
        u "Tag value: Microsoft";
        u "Tag value: Name Surrogate";
        u "Tag value: Symbolic Link";
        u "Substitute Name:       " ++ u "\??\" ++ target;
        u "Print Name:            " ++ target ])
  | Reparse tag _ =>
    Some (lines
      [ u "Reparse Tag Value : 0x" ++ hex8 tag;
        u "Tag value: Microsoft" ])
  | File _ => None
  | Dir => None
  end.

Definition fsutil_reparsepoint_query (p : str) (h : host) : CompletedProcess :=
  match option_map reparse_report (lookup (entries h) p) with
  | Some (Some report) =>
    {| returncode := 0; stdout := report; stderr := [] |}
  | Some None =>
    {| returncode := 1;
       stdout := lines [u "Error:  The file or directory is not a reparse point."];
       stderr := [] |}
  | None =>
    {| returncode := 1;
       stdout := lines [u "Error:  The system cannot find the file specified."];
       stderr := [] |}
  end.

(** A path without its drive: [C:\a\b] is printed [\a\b]. *)
Definition without_drive (p : str) : str :=
  match p with
  | _ :: c :: r => if c =? colon then r else p
  | _ => p
  end.

Definition names_of (id : N) (l : list (str * node)) : list str :=
  flat_map (fun e => match snd e with
                     | File i => if i =? id then [without_drive (fst e)] else []
                     | _ => []
                     end) l.

(** [fsutil hardlink list]: one line for each name of the file. *)
Definition fsutil_hardlink_list (p : str) (h : host) : CompletedProcess :=
  match follow 31 (entries h) p with
  | Some (File id) =>
    {| returncode := 0; stdout := lines (names_of id (entries h)); stderr := [] |}
  | _ =>
    {| returncode := 1;
       stdout := lines [u "Error:  The system cannot find the file specified."];
       stderr := [] |}
  end.

(** The two quoted arguments of [mklink /J "link" "target"]. *)
Definition parse_mklink (command : str) : option (str * str) :=
  match Py.split dquote command with
  | [verb; link; gap; target; []] =>
    if Py.eqb verb (u "mklink /J ") && Py.eqb gap (u " ")
    then Some (link, target) else None
  | _ => None
  end.

(** [mklink /J link target]: the junction stores the target in its NT
    form, behind [\??\]. *)
Definition mklink_J (link target : str) (h : host) : CompletedProcess * host :=
  match lookup (entries h) link with
  | Some _ =>
    ({| returncode := 1; stdout := [];
        stderr := lines [u "Cannot create a file when that file already exists."] |},
     h)
  | None =>
    ({| returncode := 0;
        stdout := lines [u "Junction created for " ++ link ++ u " <<===>> " ++ target];
        stderr := [] |},
     add link (MountPoint (u "\??\" ++ target) target) h)
  end.

Definition run (args : list str) (shell : bool) (h : host)
  : outcome CompletedProcess * host :=
  if negb (tools h) then
    (Raised (Exception (u "[WinError 2] The system cannot find the file specified")), h)
  else
  match args with
  | [a; b; c; p] =>
    if Py.eqb a (u "fsutil") && Py.eqb b (u "reparsepoint") && Py.eqb c (u "query")
    then (Returned (fsutil_reparsepoint_query p h), h)
    else if Py.eqb a (u "fsutil") && Py.eqb b (u "hardlink") && Py.eqb c (u "list")
    then (Returned (fsutil_hardlink_list p h), h)
    else (Raised (Exception (u "[WinError 2] The system cannot find the file specified")), h)
  | [a; b; command] =>
    if Py.eqb a (u "cmd") && Py.eqb b (u "/c") && shell then
      match parse_mklink command with
      | Some (link, target) =>
        let '(r, h') := mklink_J link target h in (Returned r, h')
      | None =>
        (Returned {| returncode := 1; stdout := [];
                     stderr := lines [u "The syntax of the command is incorrect."] |},
         h)
      end
    else (Raised (Exception (u "[WinError 2] The system cannot find the file specified")), h)
  | _ => (Raised (Exception (u "[WinError 2] The system cannot find the file specified")), h)
  end.

Definition is_user_an_admin (h : host) : outcome Z :=
  Returned (if elevated h then 1%Z else 0%Z).

(** [ShellExecuteW] starts another process; a value above 32 is success. *)
Definition shell_execute (verb file params : str) (nShow : Z) (h : host)
  : outcome Z * host :=
  (Returned 42%Z, h).

#[global] Instance ntfs_os : OS host := {|
  os_path_isfile := isfile;
  os_path_isdir := isdir;
  os_path_islink := islink;
  os_readlink := readlink;
  os_symlink := symlink;
  CreateHardLinkW := hard_link;
  subprocess_run := run;
  IsUserAnAdmin := is_user_an_admin;
  ShellExecuteW := shell_execute;
  sys_executable := executable;
  sys_argv := argv
|}.

(** A small volume: two directories and one file. *)
Definition volume (admin : bool) (args : list str) : host :=
  {| entries :=
       [ (u "C:\data", Dir);
         (u "C:\data\shared", Dir);
         (u "C:\data\report.txt", File 1);
         (u "C:\links", Dir) ];
     elevated := admin;
     tools := true;
     executable := u "C:\Python\python.exe";
     argv := args |}.

Definition boot (h : host) : state host := {| world := h; log := [] |}.

(** Run [first], then [second] in the host state [first] leaves. *)
Definition after {A B} (first : M host A) (second : M host B) (h : host)
  : outcome B :=
  fst (second (boot (world (snd (first (boot h)))))).

End Ntfs.

(** ** Scenarios on the reference host *)

Module Scenario.

Definition data_shared : str := u "C:\data\shared".
Definition report : str := u "C:\data\report.txt".
Definition links : str := u "C:\links".
Definition shared_link : str := u "C:\links\shared_link".
Definition report_hl : str := u "C:\links\report_hl.txt".
Definition report_hl2 : str := u "C:\links\report_hl2.txt".
Definition report_sl : str := u "C:\links\report_sl.txt".
Definition missing : str := u "C:\data\missing.txt".
Definition dangling : str := u "C:\links\dangling".
Definition cloud : str := u "C:\OneDrive".

(** An elevated process on the small volume. *)
Definition plain : Ntfs.host := Ntfs.volume true [].

(** [python link_shell.py --type symlink --source ... --target ...],
    not elevated. *)
Definition symlink_argv : list str :=
  [u "link_shell.py"; u "--type"; u "symlink"; u "--source"; report;
   u "--target"; report_sl].

Definition symlink_args : Namespace :=
  {| arg_type := Some symlink;
     arg_source := Some report;
     arg_target := Some report_sl;
     arg_files := [] |}.

Definition unprivileged : Ntfs.host := Ntfs.volume false symlink_argv.

(** A folder kept by a cloud-files provider: a directory with a reparse
    point that is not a mount point. *)
Definition with_cloud_folder : Ntfs.host :=
  Ntfs.add cloud (Ntfs.Reparse Ntfs.IO_REPARSE_TAG_CLOUD_6 true) plain.

(** A host on which [fsutil] cannot be started. *)
Definition no_tools : Ntfs.host :=
  {| Ntfs.entries := Ntfs.entries plain;
     Ntfs.elevated := true;
     Ntfs.tools := false;
     Ntfs.executable := Ntfs.executable plain;
     Ntfs.argv := [] |}.

(** The volume with one link of each kind; the file has three names. *)
Definition linked : Ntfs.host :=
  Ntfs.add report_sl (Ntfs.SymlinkTo report false)
    (Ntfs.add shared_link
       (Ntfs.MountPoint (u "\??\" ++ data_shared) data_shared)
       (Ntfs.add report_hl2 (Ntfs.File 1)
          (Ntfs.add report_hl (Ntfs.File 1) plain))).

Definition form (kind source target : str) : LinkShellApp :=
  {| link_type := kind; source_path := source; target_path := target |}.

End Scenario.

(** ** A host that answers from a table

    For the classifier alone: what the three path tests answer and what the
    two [fsutil] queries give, whatever the path.  Nothing can be created on
    it. *)

Module Canned.

Record host := {
  is_symlink : bool;
  is_dir : bool;
  is_file : bool;
  reparse_query : outcome CompletedProcess;
  hardlink_list : outcome CompletedProcess
}.

Definition read_only : exn :=
  Exception (u "[WinError 19] The media is write protected").
Definition not_found : exn :=
  Exception (u "[WinError 2] The system cannot find the file specified").

Definition run (args : list str) (shell : bool) (h : host)
  : outcome CompletedProcess * host :=
  match args with
  | [tool; topic; verb; path] =>
    if Py.eqb tool (u "fsutil") && Py.eqb topic (u "reparsepoint") &&
       Py.eqb verb (u "query")
    then (reparse_query h, h)
    else if Py.eqb tool (u "fsutil") && Py.eqb topic (u "hardlink") &&
            Py.eqb verb (u "list")
    then (hardlink_list h, h)
    else (Raised not_found, h)
  | _ => (Raised not_found, h)
  end.

#[global] Instance canned_os : OS host := {|
  os_path_isfile path h := is_file h;
  os_path_isdir path h := is_dir h;
  os_path_islink path h := is_symlink h;
  os_readlink path h := Raised not_found;
  os_symlink src dst flag h := (Raised read_only, h);
  CreateHardLinkW name existing h := (Returned 0%Z, h);
  subprocess_run := run;
  IsUserAnAdmin h := Returned 0%Z;
  ShellExecuteW verb file params show h := (Returned 42%Z, h);
  sys_executable h := u "python.exe";
  sys_argv h := [u "link_shell.py"]
|}.

Definition boot (h : host) : state host := {| world := h; log := [] |}.

Definition failed (text : str) : outcome CompletedProcess :=
  Returned {| returncode := 1; stdout := text; stderr := [] |}.

(** A directory whose reparse-point query exits with status 1 after it
    has printed the first line of a report. *)
Definition broken_query : host :=
  {| is_symlink := false; is_dir := true; is_file := false;
     reparse_query :=
       failed (u "Reparse Tag Value : 0x" ++ [newline] ++
               u "Error:  The data area passed to a system call is too small."
               ++ [newline]);
     hardlink_list := Raised not_found |}.

(** A file whose hard-link query exits with status 1 after it has printed
    an error and two lines of usage. *)
Definition broken_listing : host :=
  {| is_symlink := false; is_dir := false; is_file := true;
     reparse_query := Raised not_found;
     hardlink_list :=
       failed (u "Error:  The parameter is incorrect." ++ [newline] ++
               u "Usage : fsutil hardlink list <filename>" ++ [newline] ++
               u "   Eg : fsutil hardlink list C:\foo.txt" ++ [newline]) |}.

(** A symbolic link that cannot be read. *)
Definition unreadable : host :=
  {| is_symlink := true; is_dir := false; is_file := false;
     reparse_query := Raised not_found;
     hardlink_list := Raised not_found |}.

(** A path for which both the directory test and the file test hold, with
    a reparse-point query that prints nothing and three names listed. *)
Definition both_kinds : host :=
  {| is_symlink := false; is_dir := true; is_file := true;
     reparse_query :=
       Returned {| returncode := 0; stdout := []; stderr := [] |};
     hardlink_list :=
       Returned {| returncode := 0;
                   stdout := u "\a" ++ [newline] ++ u "\b" ++ [newline] ++
                             u "\c" ++ [newline];
                   stderr := [] |} |}.

End Canned.

(** ** Readings of the specification, to be tested on the code *)

(** A query that did not succeed: it raised, or it exited with a status
    other than 0. *)
Definition query_failed (r : outcome CompletedProcess) : Prop :=
  match r with
  | Returned result => returncode result <> 0%Z
  | Raised _ => True
  end.

(** "Any unexpected or malformed metadata response (including failures
    while querying or parsing reparse/hardlink metadata) results in
    Classify returning None": when both queries fail, the answer is
    [None]. *)
Definition failed_queries_give_none : Prop :=
  forall (h : Canned.host) (path : str),
    Canned.is_symlink h = false ->
    query_failed (Canned.reparse_query h) ->
    query_failed (Canned.hardlink_list h) ->
    fst (is_link path (Canned.boot h)) = Returned None.

(** "Classify returns Junction only when the directory's reparse-point
    metadata is present and tagged as a mount/junction type", on the
    reference host. *)
Definition junction_only_for_mount_points : Prop :=
  forall (h : Ntfs.host) (path : str),
    Ntfs.islink path h = false ->
    Ntfs.isdir path h = true ->
    fst (is_link path (Ntfs.boot h)) = Returned (Some Junction) ->
    exists substitute print,
      Ntfs.lookup (Ntfs.entries h) path =
      Some (Ntfs.MountPoint substitute print).

Definition privilege_not_held : str :=
  u "[WinError 1314] A required privilege is not held by the client".

(** "A failure for lack of privilege is surfaced as a condition
    distinguishable from other failure kinds": what the caller of
    [create_symlink] receives differs between a failure for lack of
    privilege and a failure for another reason. *)
Definition privilege_failure_distinguished : Prop :=
  forall (source target : str) (is_directory : bool)
         (s1 s2 : state Ntfs.host) (w1 w2 : Ntfs.host) (other : str),
    os_symlink source target is_directory (world s1) =
    (Raised (Exception privilege_not_held), w1) ->
    os_symlink source target is_directory (world s2) =
    (Raised (Exception other), w2) ->
    other <> privilege_not_held ->
    fst (create_symlink source target is_directory s1) <>
    fst (create_symlink source target is_directory s2).

(** ** The inspection tab and the context-menu entry

    [check_link], [check_integration], [integrate_to_context_menu],
    [remove_from_context_menu] and [apply_settings] of [LinkShellApp].  They
    need more of the host (a path test that follows links, the script's own
    path, the registry) and one more piece of the form, the text widget
    that shows the result of an inspection. *)

(** An open registry key.  The keys are all under [HKEY_CLASSES_ROOT]; a
    handle is whatever the host gave for the key. *)
Definition HKEY := str.

Class Shell (W : Type) := {
  os_path_exists : str -> W -> bool;
  (* os.path.abspath(__file__) *)
  script_file : W -> str;
  (* winreg.OpenKey(HKEY_CLASSES_ROOT, sub_key) *)
  winreg_OpenKey : str -> W -> outcome HKEY;
  (* winreg.CreateKey(HKEY_CLASSES_ROOT, sub_key) *)
  winreg_CreateKey : str -> W -> outcome HKEY * W;
  (* winreg.SetValueEx(key, name, 0, REG_SZ, value) *)
  winreg_SetValueEx : HKEY -> str -> str -> W -> outcome unit * W;
  winreg_CloseKey : HKEY -> W -> outcome unit * W;
  (* winreg.DeleteKey(HKEY_CLASSES_ROOT, sub_key) *)
  winreg_DeleteKey : str -> W -> outcome unit * W
}.

(** The calls made to the registry, in order. *)
Inductive winreg_call :=
| Reg_OpenKey (sub_key : str)
| Reg_CreateKey (sub_key : str)
| Reg_SetValueEx (key : HKEY) (name value : str)
| Reg_CloseKey (key : HKEY)
| Reg_DeleteKey (sub_key : str).

(** The host together with the text widget [result_text] of the form and
    the record of the registry calls. *)
Record desk (W : Type) := {
  host : W;
  result_text : str;
  winreg_log : list winreg_call
}.
Arguments host {W} d.
Arguments result_text {W} d.
Arguments winreg_log {W} d.

(** The calls of [OS] on a state [V] that holds a host state [W]. *)
Definition lift_os {V W : Type} (get : V -> W) (put : W -> V -> V)
           (H : OS W) : OS V :=
  {| os_path_isfile p v := os_path_isfile p (get v);
     os_path_isdir p v := os_path_isdir p (get v);
     os_path_islink p v := os_path_islink p (get v);
     os_readlink p v := os_readlink p (get v);
     os_symlink a b c v :=
       let '(r, w') := os_symlink a b c (get v) in (r, put w' v);
     CreateHardLinkW a b v :=
       let '(r, w') := CreateHardLinkW a b (get v) in (r, put w' v);
     subprocess_run a b v :=
       let '(r, w') := subprocess_run a b (get v) in (r, put w' v);
     IsUserAnAdmin v := IsUserAnAdmin (get v);
     ShellExecuteW a b c d v :=
       let '(r, w') := ShellExecuteW a b c d (get v) in (r, put w' v);
     sys_executable v := sys_executable (get v);
     sys_argv v := sys_argv (get v) |}.

Definition put_host {W : Type} (w : W) (d : desk W) : desk W :=
  {| host := w; result_text := result_text d; winreg_log := winreg_log d |}.

#[global] Instance desk_os {W : Type} `{HostOS : OS W} : OS (desk W) :=
  lift_os host put_host HostOS.

Module Label.
Definition need_check_path : str := u "请指定要检查的路径".
Definition path_missing : str := u "指定的路径不存在".
Definition path_line : str := u "路径: ".
Definition kind_line : str := u "类型: ".
Definition target_line : str := u "目标: ".
Definition target_exists_line : str := u "目标存在: ".
Definition yes : str := u "是".
Definition no : str := u "否".
Definition not_link_head : str := u "路径 ".
Definition not_link_tail : str := u " 不是链接".
Definition menu_title : str := u "Python Link Shell".
Definition integrated : str := u "已成功集成到右键菜单".
Definition integrate_failed : str := u "集成到右键菜单失败: ".
Definition removed : str := u "已从右键菜单移除".
Definition remove_failed : str := u "从右键菜单移除失败: ".
End Label.

(** The four registry keys of the context-menu entry. *)
Definition file_key : str := u "*\shell\PythonLinkShell".
Definition file_command_key : str := u "*\shell\PythonLinkShell\command".
Definition directory_key : str := u "Directory\shell\PythonLinkShell".
Definition directory_command_key : str :=
  u "Directory\shell\PythonLinkShell\command".

Section Form.

Context {W : Type} `{HostOS : OS W} `{HostShell : Shell W}.

(** [os.path.exists(path)] *)
Definition path_exists (path : str) : M (desk W) bool :=
  read (fun d => os_path_exists path (host d)).

(** [self.result_text.delete(1.0, tk.END)] *)
Definition text_delete_all : M (desk W) unit :=
  fun s =>
    (Returned tt,
     {| world := {| host := host (world s);
                    result_text := [];
                    winreg_log := winreg_log (world s) |};
        log := log s |}).

(** [self.result_text.insert(tk.END, chars)] *)
Definition text_insert_end (chars : str) : M (desk W) unit :=
  fun s =>
    (Returned tt,
     {| world := {| host := host (world s);
                    result_text := result_text (world s) ++ chars;
                    winreg_log := winreg_log (world s) |};
        log := log s |}).

(** A registry call: made on the host, and recorded. *)
Definition registry {A : Type} (c : winreg_call) (f : W -> outcome A * W)
  : M (desk W) A :=
  fun s =>
    let '(r, w') := f (host (world s)) in
    (r,
     {| world := {| host := w';
                    result_text := result_text (world s);
                    winreg_log := winreg_log (world s) ++ [c] |};
        log := log s |}).

Definition OpenKey (sub_key : str) : M (desk W) HKEY :=
  registry (Reg_OpenKey sub_key) (fun w => (winreg_OpenKey sub_key w, w)).
Definition CreateKey (sub_key : str) : M (desk W) HKEY :=
  registry (Reg_CreateKey sub_key) (winreg_CreateKey sub_key).
Definition SetValueEx (key : HKEY) (name value : str) : M (desk W) unit :=
  registry (Reg_SetValueEx key name value) (winreg_SetValueEx key name value).
Definition CloseKey (key : HKEY) : M (desk W) unit :=
  registry (Reg_CloseKey key) (winreg_CloseKey key).
Definition DeleteKey (sub_key : str) : M (desk W) unit :=
  registry (Reg_DeleteKey sub_key) (winreg_DeleteKey sub_key).

(** [LinkShellApp.check_link], with the text of [check_path]. *)
Definition check_link (path : str) : M (desk W) unit :=
  if negb (Py.truthy path) then
    showerror Text.error_title Label.need_check_path
  else
  present <- path_exists path ;;
  if negb present then
    showerror Text.error_title Label.path_missing
  else
  text_delete_all ;;
  link_type <- is_link path ;;
  match given link_type with
  | Some kind =>
    target <- get_link_target path ;;
    text_insert_end (Label.path_line ++ path ++ [newline]) ;;
    text_insert_end (Label.kind_line ++ kind ++ [newline]) ;;
    match given target with
    | Some found =>
      text_insert_end (Label.target_line ++ found ++ [newline]) ;;
      target_present <- path_exists found ;;
      text_insert_end
        (Label.target_exists_line ++
         (if target_present then Label.yes else Label.no) ++ [newline])
    | None => ret tt
    end
  | None =>
    text_insert_end (Label.not_link_head ++ path ++ Label.not_link_tail)
  end.

(** [LinkShellApp.check_integration] *)
Definition check_integration : M (desk W) bool :=
  try_except
    (key <- OpenKey file_key ;;
     CloseKey key ;;
     ret true)
    any_exn
    (fun _ => ret false).

(** The command stored for the menu entry:
    [f'"{sys.executable}" "{os.path.abspath(__file__)}" --source "%1"']. *)
Definition menu_command (executable script : str) : str :=
  [dquote] ++ executable ++ [dquote] ++ u " " ++
  [dquote] ++ script ++ [dquote] ++ u " --source " ++
  [dquote] ++ u "%1" ++ [dquote].

(** The entry for one root: the key with its title and icon, then its
    [command] subkey. *)
Definition write_entry (key_name command_key_name : str) : M (desk W) unit :=
  key <- CreateKey key_name ;;
  SetValueEx key [] Label.menu_title ;;
  executable <- read sys_executable ;;
  SetValueEx key (u "Icon") executable ;;
  CloseKey key ;;
  key <- CreateKey command_key_name ;;
  executable <- read sys_executable ;;
  script <- read (fun d => script_file (host d)) ;;
  SetValueEx key [] (menu_command executable script) ;;
  CloseKey key.

(** [LinkShellApp.integrate_to_context_menu] *)
Definition integrate_to_context_menu : M (desk W) unit :=
  admin <- is_admin ;;
  if (admin =? 0)%Z then
    run_as_admin
  else
  try_except
    (write_entry file_key file_command_key ;;
     write_entry directory_key directory_command_key ;;
     showinfo Text.success_title Label.integrated)
    is_Exception
    (fun e =>
       showerror Text.error_title (Label.integrate_failed ++ str_of e)).

(** [LinkShellApp.remove_from_context_menu] *)
Definition remove_from_context_menu : M (desk W) unit :=
  admin <- is_admin ;;
  if (admin =? 0)%Z then
    run_as_admin
  else
  try_except
    (DeleteKey file_command_key ;;
     DeleteKey file_key ;;
     DeleteKey directory_command_key ;;
     DeleteKey directory_key ;;
     showinfo Text.success_title Label.removed)
    is_Exception
    (fun e =>
       showerror Text.error_title (Label.remove_failed ++ str_of e)).

(** [LinkShellApp.apply_settings], with the value of [integrate_var]. *)
Definition apply_settings (integrate : bool) : M (desk W) unit :=
  if integrate then integrate_to_context_menu
  else remove_from_context_menu.

(** A state of the form seen as a state of the host alone, and back. *)
Definition host_state (s : state (desk W)) : state W :=
  {| world := host (world s); log := log s |}.

Definition form_state (d : desk W) (s : state W) : state (desk W) :=
  {| world := put_host (world s) d; log := log s |}.

(** The registry calls made by the two settings actions, as planned. *)
Definition removal_plan : list winreg_call :=
  [Reg_DeleteKey file_command_key; Reg_DeleteKey file_key;
   Reg_DeleteKey directory_command_key; Reg_DeleteKey directory_key].

Definition writes_entry (c : winreg_call) : bool :=
  match c with
  | Reg_CreateKey sub_key =>
    Py.eqb sub_key file_key || Py.eqb sub_key file_command_key ||
    Py.eqb sub_key directory_key || Py.eqb sub_key directory_command_key
  | Reg_SetValueEx _ _ _ => true
  | Reg_CloseKey _ => true
  | Reg_OpenKey _ => false
  | Reg_DeleteKey _ => false
  end.

End Form.

(** ** The form as a whole, and [main]

    [LinkShellApp()] builds the widgets, asks [check_integration] for the
    first value of the settings box and sets the status bar; [mainloop]
    then runs the handlers as the user acts, until the window is closed.
    What the user does at the form is an input of the run, like the command
    line: a finite list of actions, in order, after which the window is
    closed.  Building and showing the widgets is an output, as the dialogs
    are. *)

Inductive dialog :=
| askdirectory
| askopenfilename
| asksaveasfilename.

(** The variables of the form, and the file dialogs it has opened. *)
Record window := {
  create_vars : LinkShellApp;
  check_path : str;
  integrate_var : bool;
  dialogs_opened : list dialog
}.

Inductive action :=
| Select_link_type (value : str)       (* one of the three radio buttons *)
| Edit_source_path (text : str)        (* typing in an entry *)
| Edit_target_path (text : str)
| Edit_check_path (text : str)
| Set_integrate (ticked : bool)        (* the box of the settings tab *)
| Click_browse_source (answer : str)   (* with what the dialog returns *)
| Click_browse_target (answer : str)
| Click_browse_check (answer : str)
| Click_create
| Click_check
| Click_apply.

Definition set_link_type (value : str) (v : window) : window :=
  {| create_vars := {| link_type := value;
                       source_path := source_path (create_vars v);
                       target_path := target_path (create_vars v) |};
     check_path := check_path v;
     integrate_var := integrate_var v;
     dialogs_opened := dialogs_opened v |}.

Definition set_source_path (text : str) (v : window) : window :=
  {| create_vars := {| link_type := link_type (create_vars v);
                       source_path := text;
                       target_path := target_path (create_vars v) |};
     check_path := check_path v;
     integrate_var := integrate_var v;
     dialogs_opened := dialogs_opened v |}.

Definition set_target_path (text : str) (v : window) : window :=
  {| create_vars := {| link_type := link_type (create_vars v);
                       source_path := source_path (create_vars v);
                       target_path := text |};
     check_path := check_path v;
     integrate_var := integrate_var v;
     dialogs_opened := dialogs_opened v |}.

Definition set_check_path (text : str) (v : window) : window :=
  {| create_vars := create_vars v;
     check_path := text;
     integrate_var := integrate_var v;
     dialogs_opened := dialogs_opened v |}.

Definition set_integrate_var (ticked : bool) (v : window) : window :=
  {| create_vars := create_vars v;
     check_path := check_path v;
     integrate_var := ticked;
     dialogs_opened := dialogs_opened v |}.

Definition open_dialog (d : dialog) (v : window) : window :=
  {| create_vars := create_vars v;
     check_path := check_path v;
     integrate_var := integrate_var v;
     dialogs_opened := dialogs_opened v ++ [d] |}.

(** [LinkShellApp.browse_source]; [answer] is what the dialog returns, the
    empty string when it is cancelled. *)
Definition browse_source (answer : str) (v : window) : window :=
  let v :=
    if Py.eqb (link_type (create_vars v)) junction
    then open_dialog askdirectory v
    else open_dialog askopenfilename v in
  if Py.truthy answer then set_source_path answer v else v.

(** [LinkShellApp.browse_target] *)
Definition browse_target (answer : str) (v : window) : window :=
  let v :=
    if Py.eqb (link_type (create_vars v)) hardlink
    then open_dialog asksaveasfilename v
    else if Py.eqb (link_type (create_vars v)) junction
         then open_dialog askdirectory v
         else open_dialog asksaveasfilename v in
  if Py.truthy answer then set_target_path answer v else v.

(** [LinkShellApp.browse_check] *)
Definition browse_check (answer : str) (v : window) : window :=
  let v := open_dialog askopenfilename v in
  if Py.truthy answer then set_check_path answer v else v.

Definition is_SystemExit (e : exn) : bool :=
  match e with SystemExit _ => true | _ => false end.

(** The first line of what Tk writes when a handler raises. *)
Definition callback_report : str := u "Exception in Tkinter callback".

Section Session.

Context {W : Type} `{HostOS : OS W} `{HostShell : Shell W}.

(** What one action of the user does: a change of a variable, or the
    handler that the widget is bound to. *)
Definition handle (a : action) (v : window) : M (desk W) window :=
  match a with
  | Select_link_type value => ret (set_link_type value v)
  | Edit_source_path text => ret (set_source_path text v)
  | Edit_target_path text => ret (set_target_path text v)
  | Edit_check_path text => ret (set_check_path text v)
  | Set_integrate ticked => ret (set_integrate_var ticked v)
  | Click_browse_source answer => ret (browse_source answer v)
  | Click_browse_target answer => ret (browse_target answer v)
  | Click_browse_check answer => ret (browse_check answer v)
  | Click_create => create_link (create_vars v) ;; ret v
  | Click_check => check_link (check_path v) ;; ret v
  | Click_apply => apply_settings (integrate_var v) ;; ret v
  end.

(** Tk calls a handler through its [CallWrapper]: [SystemExit] goes
    through and ends the loop, any other exception is reported on
    [stderr] and the loop goes on. *)
Definition callback (a : action) (v : window) : M (desk W) window :=
  try_except (handle a v)
             (fun e => negb (is_SystemExit e))
             (fun _ => print callback_report ;; ret v).

(** [self.mainloop()], for the actions the user takes before closing the
    window. *)
Fixpoint mainloop (session : list action) (v : window) : M (desk W) unit :=
  match session with
  | [] => ret tt
  | a :: rest =>
    v' <- callback a v ;;
    mainloop rest v'
  end.

(** [LinkShellApp.__init__]: [init_create_tab] selects "hardlink" and
    leaves the paths empty, [init_manage_tab] leaves the path to check
    empty, [init_settings_tab] asks [check_integration]; then the status
    bar is set. *)
Definition LinkShellApp_init : M (desk W) window :=
  integrated <- check_integration ;;
  status_set (u "就绪") ;;
  ret {| create_vars := {| link_type := hardlink;
                           source_path := [];
                           target_path := [] |};
         check_path := [];
         integrate_var := integrated;
         dialogs_opened := [] |}.

(** [app = LinkShellApp()], [app.source_path.set(...)] when there is a
    path to fill in, and [app.mainloop()].  [Out_gui] is the window coming
    up with that path. *)
Definition gui (source_prefill : option str) (session : list action)
  : M (desk W) unit :=
  app <- LinkShellApp_init ;;
  let app :=
    match source_prefill with
    | Some path => set_source_path path app
    | None => app
    end in
  emit (Out_gui source_prefill) ;;
  mainloop session app.

(** [main], after [parse_arguments]. *)
Definition main (args : Namespace) (session : list action)
  : M (desk W) unit :=
  match given (arg_source args) with
  | Some source =>
    match given (arg_type args), given (arg_target args) with
    | Some type, Some target => headless type source target
    | _, _ => gui (Some source) session
    end
  | None =>
    match arg_files args with
    | first :: _ => gui (Some first) session
    | [] => gui None session
    end
  end.

End Session.

(** ** A reference registry

    The reference host with a registry: a table from the keys under
    [HKEY_CLASSES_ROOT] to their values.  A key is created and deleted by an
    elevated process only; a key that has subkeys cannot be deleted. *)

Module Pc.

Definition values := list (str * str).

Record pc := {
  disk : Ntfs.host;
  keys : list (str * values);
  script : str
}.

Definition put_disk (h : Ntfs.host) (p : pc) : pc :=
  {| disk := h; keys := keys p; script := script p |}.

Definition put_keys (r : list (str * values)) (p : pc) : pc :=
  {| disk := disk p; keys := r; script := script p |}.

#[global] Instance pc_os : OS pc := lift_os disk put_disk Ntfs.ntfs_os.

Definition has (k : str) (r : list (str * values)) : bool :=
  existsb (fun e => Py.eqb (fst e) k) r.

Definition has_subkey (k : str) (r : list (str * values)) : bool :=
  existsb (fun e => Py.startswith (fst e) (k ++ u "\")) r.

Definition values_of (k : str) (r : list (str * values)) : option values :=
  option_map snd (find (fun e => Py.eqb (fst e) k) r).

Definition create (k : str) (r : list (str * values)) : list (str * values) :=
  if has k r then r else r ++ [(k, [])].

Definition set_value (k name value : str) (r : list (str * values))
  : list (str * values) :=
  map (fun e =>
         if Py.eqb (fst e) k
         then (fst e,
               (name, value) ::
               filter (fun nv => negb (Py.eqb (fst nv) name)) (snd e))
         else e) r.

Definition delete (k : str) (r : list (str * values)) : list (str * values) :=
  filter (fun e => negb (Py.eqb (fst e) k)) r.

Definition not_found : exn :=
  Exception (u "[WinError 2] The system cannot find the file specified").
Definition access_denied : exn :=
  Exception (u "[WinError 5] Access is denied").
Definition invalid_handle : exn :=
  Exception (u "[WinError 6] The handle is invalid").

Definition open_key (k : str) (p : pc) : outcome HKEY :=
  if has k (keys p) then Returned k else Raised not_found.

Definition create_key (k : str) (p : pc) : outcome HKEY * pc :=
  if Ntfs.elevated (disk p)
  then (Returned k, put_keys (create k (keys p)) p)
  else (Raised access_denied, p).

Definition set_value_ex (key : HKEY) (name value : str) (p : pc)
  : outcome unit * pc :=
  if has key (keys p)
  then (Returned tt, put_keys (set_value key name value (keys p)) p)
  else (Raised invalid_handle, p).

Definition close_key (key : HKEY) (p : pc) : outcome unit * pc :=
  (Returned tt, p).

Definition delete_key (k : str) (p : pc) : outcome unit * pc :=
  if negb (has k (keys p)) then (Raised not_found, p)
  else if has_subkey k (keys p) then (Raised access_denied, p)
  else if negb (Ntfs.elevated (disk p)) then (Raised access_denied, p)
  else (Returned tt, put_keys (delete k (keys p)) p).

#[global] Instance pc_shell : Shell pc := {|
  os_path_exists path p := Ntfs.exists_ path (disk p);
  script_file := script;
  winreg_OpenKey := open_key;
  winreg_CreateKey := create_key;
  winreg_SetValueEx := set_value_ex;
  winreg_CloseKey := close_key;
  winreg_DeleteKey := delete_key
|}.

(** The form as it starts: an empty text widget, no registry call made. *)
Definition start (p : pc) : state (desk pc) :=
  {| world := {| host := p; result_text := []; winreg_log := [] |};
     log := [] |}.

(** The form with some text left in the widget. *)
Definition showing (text : str) (p : pc) : state (desk pc) :=
  {| world := {| host := p; result_text := text; winreg_log := [] |};
     log := [] |}.

Definition registry_after {A : Type} (r : outcome A * state (desk pc))
  : list (str * values) :=
  keys (host (world (snd r))).

End Pc.

(** The four keys of the menu entry with their values. *)
Definition menu_entry (executable script : str) : list (str * Pc.values) :=
  [(file_key, [(u "Icon", executable); ([], Label.menu_title)]);
   (file_command_key, [([], menu_command executable script)]);
   (directory_key, [(u "Icon", executable); ([], Label.menu_title)]);
   (directory_command_key, [([], menu_command executable script)])].

Module Office.

Definition script_path : str := u "C:\tools\link_shell.py".

(** A registry that knows text files and nothing of the menu entry. *)
Definition other_keys : list (str * Pc.values) :=
  [(u ".txt", [([], u "txtfile")]); (u "Directory\shell", [])].

Definition machine (h : Ntfs.host) : Pc.pc :=
  {| Pc.disk := h; Pc.keys := other_keys; Pc.script := script_path |}.

(** A volume with a symbolic link whose target is gone. *)
Definition with_dangling : Ntfs.host :=
  Ntfs.add Scenario.dangling (Ntfs.SymlinkTo Scenario.missing false)
           Scenario.linked.

(** The registry after the entries of the file root alone were made. *)
Definition file_entries_only : Pc.pc :=
  {| Pc.disk := Scenario.plain;
     Pc.keys := other_keys ++ [(file_key, []); (file_command_key, [])];
     Pc.script := script_path |}.

(** The registry with the whole entry, as the integration leaves it. *)
Definition entry_values : Pc.values :=
  [(u "Icon", u "C:\Python\python.exe"); ([], Label.menu_title)].

Definition command_values : Pc.values :=
  [([], menu_command (u "C:\Python\python.exe") script_path)].

Definition integrated : Pc.pc :=
  {| Pc.disk := Scenario.plain;
     Pc.keys := other_keys ++
                [(file_key, entry_values);
                 (file_command_key, command_values);
                 (directory_key, entry_values);
                 (directory_command_key, command_values)];
     Pc.script := script_path |}.

End Office.

(** ** Observations on runs *)

(** No instance of [Exception] leaves the call: it returns, or it lets
    through an exception that is not an [Exception]. *)
Definition no_exception_escapes {A : Type} (r : outcome A) : Prop :=
  match r with
  | Returned _ => True
  | Raised e => is_Exception e = false
  end.

Definition is_elevation_call (e : event) : bool :=
  match e with
  | Call_IsUserAnAdmin => true
  | Call_ShellExecuteW _ _ _ _ => true
  | _ => false
  end.

Definition is_form (e : event) : bool :=
  match e with
  | Out_gui _ => true
  | _ => false
  end.

(** The privilege tests and elevation requests of a log. *)
Definition elevation_calls (l : list event) : list event :=
  filter is_elevation_call l.

(** The forms opened in a log. *)
Definition forms_opened (l : list event) : list event :=
  filter is_form l.

(** A line of [fsutil]'s report that [get_link_target] takes for the
    substitute name. *)
Definition names_substitute (line : str) : bool :=
  Py.contains (u "Substitute Name") line || Py.contains (u "替代名称") line.

Module Cases.

(** A junction whose target is written with a volume name, not a drive
    letter. *)
Definition volume_root : str := u "Volume{4c1b02c1-d990-11dc-99ae-806e6f6e6963}\".
Definition mounted : str := u "C:\mnt".

Definition with_mounted_volume : Ntfs.host :=
  Ntfs.add mounted (Ntfs.MountPoint (u "\??\" ++ volume_root) volume_root)
           (Ntfs.add volume_root Ntfs.Dir Scenario.plain).

(** Command lines: [--source] alone; [--type] and [--target] with an empty
    [--source] and two file arguments. *)
Definition source_only : Namespace :=
  {| arg_type := None; arg_source := Some Scenario.report;
     arg_target := None; arg_files := [] |}.

Definition no_source : Namespace :=
  {| arg_type := Some symlink; arg_source := Some [];
     arg_target := Some Scenario.report_sl;
     arg_files := [Scenario.report; Scenario.data_shared] |}.

(** The same words as one argument with a space and as two arguments. *)
Definition spaced_argv : list str :=
  [u "link_shell.py"; u "--source"; u "C:\My" ++ u " " ++ u "Documents"].

Definition parted_argv : list str :=
  [u "link_shell.py"; u "--source"; u "C:\My"; u "Documents"].

End Cases.

(** * Properties *)

(** ** Facts about the string operations *)

Section StringFacts.

Lemma split_nonempty : forall sep s, Py.split sep s <> [].
Proof.
  intros sep s; destruct s as [| c s']; simpl.
  - discriminate.
  - destruct (c =? sep); [discriminate |].
    destruct (Py.split sep s'); discriminate.
Qed.

(** The last field of a split holds no separator. *)
Lemma last_split_no_sep :
  forall sep s, ~ In sep (last (Py.split sep s) []).
Proof.
  intros sep s; induction s as [| c s' IH]; simpl.
  - intros [].
  - destruct (N.eqb_spec c sep) as [-> | Hne].
    + destruct (Py.split sep s') as [| h t] eqn:Hsplit.
      * exfalso; eapply split_nonempty; eauto.
      * exact IH.
    + destruct (Py.split sep s') as [| h t] eqn:Hsplit.
      * exfalso; eapply split_nonempty; eauto.
      * destruct t as [| h' t'].
        -- simpl in *. intros [Heq | Hin]; [congruence | auto].
        -- exact IH.
Qed.

Lemma lstrip_incl : forall s x, In x (Py.lstrip s) -> In x s.
Proof.
  induction s as [| c s' IH]; simpl; intros x Hin.
  - exact Hin.
  - destruct (Py.isspace c); [right; auto | exact Hin].
Qed.

Lemma strip_incl : forall s x, In x (Py.strip s) -> In x s.
Proof.
  intros s x Hin. unfold Py.strip, Py.rstrip in Hin.
  apply in_rev in Hin. apply lstrip_incl in Hin.
  apply in_rev in Hin. apply lstrip_incl in Hin. exact Hin.
Qed.

Lemma slice_from_incl : forall n s (x : N), In x (Py.slice_from n s) -> In x s.
Proof.
  intros n s x Hin. unfold Py.slice_from in Hin.
  rewrite <- (firstn_skipn n s). apply in_or_app; right; exact Hin.
Qed.

End StringFacts.


Arguments u : simpl never.
Arguments Py.contains : simpl never.
Arguments Py.split : simpl never.
Arguments Py.strip : simpl never.
Arguments Py.startswith : simpl never.

Section Facts.

Context {W : Type} `{HostOS : OS W} `{HostShell : Shell W}.

Ltac step :=
  unfold create_hardlink, create_symlink, create_junction, is_link,
    is_link_body, get_link_target, get_link_target_body, is_admin,
    run_as_admin, sys_exit, isfile, isdir, islink, readlink, symlink_call,
    hardlink_call, run, showerror, showinfo, print, status_set, read,
    bind, ret, raise, try_except, query, query_exn, call, emit;
  simpl.

Ltac tidy := repeat rewrite <- app_assoc; simpl.

(** Case analysis on the answers of the host, in the order the program
    asks for them. *)
Ltac cases :=
  repeat (simpl;
    match goal with
    | |- context [os_path_islink ?p ?w] =>
      destruct (os_path_islink p w) eqn:?
    | |- context [os_path_isdir ?p ?w] =>
      destruct (os_path_isdir p w) eqn:?
    | |- context [os_path_isfile ?p ?w] =>
      destruct (os_path_isfile p w) eqn:?
    | |- context [subprocess_run ?a ?b ?w] =>
      destruct (subprocess_run a b w) as [[? | ?] ?] eqn:?
    | |- context [os_symlink ?a ?b ?c ?w] =>
      destruct (os_symlink a b c w) as [[[] | ?] ?] eqn:?
    | |- context [CreateHardLinkW ?a ?b ?w] =>
      destruct (CreateHardLinkW a b w) as [[? | ?] ?] eqn:?
    | |- context [IsUserAnAdmin ?w] =>
      destruct (IsUserAnAdmin w) as [? | ?] eqn:?
    | |- context [ShellExecuteW ?a ?b ?c ?d ?w] =>
      destruct (ShellExecuteW a b c d w) as [[? | ?] ?] eqn:?
    | |- context [if ?b then _ else _] => destruct b eqn:?
    end); simpl.

(** C5: a wrong kind of source is refused before any link is made.  When
    [os.path.isfile(source)] is false, [create_hardlink] returns [False]
    after showing the dialog "hard links are for files only" (the NotAFile
    condition); when [os.path.isdir(source)] is false, [create_junction]
    returns [False] after showing the dialog "junctions are for
    directories only" (the NotADirectory condition).  In both runs the log
    holds the test and the dialog only, so neither [CreateHardLinkW] nor
    the [mklink] command was invoked, and the host state is unchanged. *)
Theorem creators_reject_wrong_source_kind :
  forall (source target : str) (s : state W),
    (os_path_isfile source (world s) = false ->
     create_hardlink source target s =
     (Returned false,
      {| world := world s;
         log := log s ++ [Call_isfile source;
                          Out_showerror Text.error_title
                                        Text.hardlink_files_only] |}))
    /\
    (os_path_isdir source (world s) = false ->
     create_junction source target s =
     (Returned false,
      {| world := world s;
         log := log s ++ [Call_isdir source;
                          Out_showerror Text.error_title
                                        Text.junction_dirs_only] |})).
Proof.
  intros source target s; split; intros Hkind; step; rewrite Hkind; simpl;
    tidy; reflexivity.
Qed.

(** C10: [create_symlink] makes no test of its own on the source.  Its
    first host call is [os.symlink] with the flag the caller gave, for
    every source, target and host state; and whenever that call returns,
    [create_symlink] returns [True] having made that one call and nothing
    else.  No hypothesis is put on the source, so this covers a source
    that does not exist: the link is then left dangling. *)
Theorem create_symlink_unconditional :
  forall (source target : str) (is_directory : bool) (s : state W),
    (exists rest,
        log (snd (create_symlink source target is_directory s)) =
        log s ++ Call_symlink source target is_directory :: rest)
    /\
    (forall w',
        os_symlink source target is_directory (world s) = (Returned tt, w') ->
        create_symlink source target is_directory s =
        (Returned true,
         {| world := w';
            log := log s ++ [Call_symlink source target is_directory] |})).
Proof.
  intros source target is_directory s; split.
  - step. destruct is_directory; simpl;
      match goal with
      | |- context [os_symlink ?a ?b ?c ?w] =>
        destruct (os_symlink a b c w) as [[[] | e] w']
      end; simpl;
      try (exists []; reflexivity);
      destruct (is_Exception e); simpl; tidy; eexists; reflexivity.
  - intros w' Hcall. step.
    destruct is_directory; simpl; rewrite Hcall; reflexivity.
Qed.

(** C4, amended: [is_link] never raises, and it answers [None] when
    something raises, not when a query fails.  For every host, path and
    state the call returns; whenever anything inside its [try] raises, the
    value is [None]: so when [subprocess.run] raises for the reparse-point
    query of a directory or for the hard-link query of a file (the tool
    cannot be started, its output cannot be decoded), the run ends there
    with [None].  A query that returns is read by its text alone, whatever
    its exit status and its error stream: a directory is a junction as soon
    as the text holds "Reparse" or "重解析点", and a file is a hard link
    exactly when the stripped text has more than two lines.
    [get_link_target] never raises either, and gives [None] when
    [os.readlink] or the reparse-point query raises. *)
Theorem is_link_none_when_it_raises :
  forall (path : str) (s : state W),
    (exists kind, fst (is_link path s) = Returned kind)
    /\
    (forall e, fst (is_link_body path s) = Raised e ->
               fst (is_link path s) = Returned None)
    /\
    (forall (e : exn) (w' : W),
        os_path_islink path (world s) = false ->
        os_path_isdir path (world s) = true ->
        subprocess_run [u "fsutil"; u "reparsepoint"; u "query"; path] false
                       (world s) = (Raised e, w') ->
        is_link path s =
        (Returned None,
         {| world := w';
            log := log s ++
                   [Call_islink path; Call_isdir path;
                    Call_subprocess_run
                      [u "fsutil"; u "reparsepoint"; u "query"; path]
                      false] |}))
    /\
    (forall (e : exn) (w' : W),
        os_path_islink path (world s) = false ->
        os_path_isdir path (world s) = false ->
        os_path_isfile path (world s) = true ->
        subprocess_run [u "fsutil"; u "hardlink"; u "list"; path] false
                       (world s) = (Raised e, w') ->
        is_link path s =
        (Returned None,
         {| world := w';
            log := log s ++
                   [Call_islink path; Call_isdir path; Call_isfile path;
                    Call_subprocess_run
                      [u "fsutil"; u "hardlink"; u "list"; path]
                      false] |}))
    /\
    (forall (code : Z) (text errors : str) (w' : W),
        os_path_islink path (world s) = false ->
        os_path_isdir path (world s) = true ->
        subprocess_run [u "fsutil"; u "reparsepoint"; u "query"; path] false
                       (world s) =
        (Returned {| returncode := code; stdout := text; stderr := errors |},
         w') ->
        Py.contains (u "重解析点") text || Py.contains (u "Reparse") text =
        true ->
        is_link path s =
        (Returned (Some Junction),
         {| world := w';
            log := log s ++
                   [Call_islink path; Call_isdir path;
                    Call_subprocess_run
                      [u "fsutil"; u "reparsepoint"; u "query"; path]
                      false] |}))
    /\
    (forall (code : Z) (text errors : str) (w' : W),
        os_path_islink path (world s) = false ->
        os_path_isdir path (world s) = false ->
        os_path_isfile path (world s) = true ->
        subprocess_run [u "fsutil"; u "hardlink"; u "list"; path] false
                       (world s) =
        (Returned {| returncode := code; stdout := text; stderr := errors |},
         w') ->
        is_link path s =
        (Returned (if (2 <? List.length (Py.split newline (Py.strip text)))%nat
                   then Some HardLink else None),
         {| world := w';
            log := log s ++
                   [Call_islink path; Call_isdir path; Call_isfile path;
                    Call_subprocess_run
                      [u "fsutil"; u "hardlink"; u "list"; path]
                      false] |}))
    /\
    (exists target, fst (get_link_target path s) = Returned target)
    /\
    (forall e, fst (get_link_target_body path s) = Raised e ->
               fst (get_link_target path s) = Returned None)
    /\
    (forall (e : exn),
        os_path_islink path (world s) = true ->
        os_readlink path (world s) = Raised e ->
        get_link_target path s =
        (Returned None,
         {| world := world s;
            log := log s ++ [Call_islink path; Call_readlink path] |}))
    /\
    (forall (e : exn) (w' : W),
        os_path_islink path (world s) = false ->
        os_path_isdir path (world s) = true ->
        subprocess_run [u "fsutil"; u "reparsepoint"; u "query"; path] false
                       (world s) = (Raised e, w') ->
        get_link_target path s =
        (Returned None,
         {| world := w';
            log := log s ++
                   [Call_islink path; Call_isdir path;
                    Call_subprocess_run
                      [u "fsutil"; u "reparsepoint"; u "query"; path]
                      false] |})).
Proof.
  intros path s.
  split; [| split; [| split; [| split; [| split; [| split;
    [| split; [| split; [| split]]]]]]]].
  - unfold is_link, try_except.
    destruct (is_link_body path s) as [[kind | e] s']; simpl;
      eexists; reflexivity.
  - intros e Hbody. unfold is_link, try_except.
    destruct (is_link_body path s) as [[kind | e'] s']; simpl in *.
    + discriminate.
    + reflexivity.
  - intros e w' Hsym Hdir Hrun. step.
    rewrite Hsym; simpl. rewrite Hdir; simpl. rewrite Hrun; simpl.
    tidy; reflexivity.
  - intros e w' Hsym Hdir Hfile Hrun. step.
    rewrite Hsym; simpl. rewrite Hdir; simpl. rewrite Hfile; simpl.
    rewrite Hrun; simpl. tidy; reflexivity.
  - intros code text errors w' Hsym Hdir Hrun Hmark. step.
    rewrite Hsym; simpl. rewrite Hdir; simpl. rewrite Hrun; simpl.
    rewrite Hmark; simpl. tidy; reflexivity.
  - intros code text errors w' Hsym Hdir Hfile Hrun. step.
    rewrite Hsym; simpl. rewrite Hdir; simpl. rewrite Hfile; simpl.
    rewrite Hrun; simpl.
    destruct (2 <? List.length (Py.split newline (Py.strip text)))%nat;
      simpl; tidy; reflexivity.
  - unfold get_link_target, try_except.
    destruct (get_link_target_body path s) as [[target | e] s']; simpl;
      eexists; reflexivity.
  - intros e Hbody. unfold get_link_target, try_except.
    destruct (get_link_target_body path s) as [[target | e'] s']; simpl in *.
    + discriminate.
    + reflexivity.
  - intros e Hsym Hread. step. rewrite Hsym; simpl. rewrite Hread; simpl.
    tidy; reflexivity.
  - intros e w' Hsym Hdir Hrun. step.
    rewrite Hsym; simpl. rewrite Hdir; simpl. rewrite Hrun; simpl.
    tidy; reflexivity.
Qed.

Lemma kinds_distinct :
  SymLink <> Junction /\ SymLink <> HardLink /\ Junction <> HardLink.
Proof. repeat split; intros H; vm_compute in H; discriminate. Qed.

(** C7: the order of the tests of [is_link], and the answer in every
    case.  A path for which [os.path.islink] holds is reported as a
    symbolic link after that one test and nothing else.  A junction answer
    is given only after the symbolic-link test has failed and the directory
    test has held, and it ends the run.  A hard-link answer is given only
    after the symbolic-link test has failed, with the directory test made
    before the file test.  When the three tests fail, the answer is [None].
    Hence a symbolic link is never reported as a junction or a hard link.
    When the queries return, the answer is fixed by what they print: a
    directory whose report holds a marker is a junction and no file test is
    made; a directory whose report holds none is then tested as a file, and
    is [None] when it is not one; a file is a hard link when its listing
    has more than two lines and [None] otherwise, also when it was first
    tested as a directory. *)
Theorem is_link_precedence :
  forall (path : str) (s : state W),
    (os_path_islink path (world s) = true ->
     is_link path s =
     (Returned (Some SymLink),
      {| world := world s; log := log s ++ [Call_islink path] |}))
    /\
    (fst (is_link path s) = Returned (Some Junction) ->
     os_path_islink path (world s) = false /\
     os_path_isdir path (world s) = true /\
     log (snd (is_link path s)) =
     log s ++ [Call_islink path; Call_isdir path;
               Call_subprocess_run
                 [u "fsutil"; u "reparsepoint"; u "query"; path] false])
    /\
    (fst (is_link path s) = Returned (Some HardLink) ->
     os_path_islink path (world s) = false /\
     exists junction_test,
       log (snd (is_link path s)) =
       log s ++ [Call_islink path; Call_isdir path] ++ junction_test ++
           [Call_isfile path;
            Call_subprocess_run
              [u "fsutil"; u "hardlink"; u "list"; path] false])
    /\
    (os_path_islink path (world s) = false ->
     os_path_isdir path (world s) = false ->
     os_path_isfile path (world s) = false ->
     is_link path s =
     (Returned None,
      {| world := world s;
         log := log s ++ [Call_islink path; Call_isdir path;
                          Call_isfile path] |}))
    /\
    (forall (report : CompletedProcess) (w' : W),
        os_path_islink path (world s) = false ->
        os_path_isdir path (world s) = true ->
        subprocess_run [u "fsutil"; u "reparsepoint"; u "query"; path] false
                       (world s) = (Returned report, w') ->
        Py.contains (u "重解析点") (stdout report) ||
        Py.contains (u "Reparse") (stdout report) = true ->
        is_link path s =
        (Returned (Some Junction),
         {| world := w';
            log := log s ++
                   [Call_islink path; Call_isdir path;
                    Call_subprocess_run
                      [u "fsutil"; u "reparsepoint"; u "query"; path]
                      false] |}))
    /\
    (forall (report : CompletedProcess) (w' : W),
        os_path_islink path (world s) = false ->
        os_path_isdir path (world s) = true ->
        subprocess_run [u "fsutil"; u "reparsepoint"; u "query"; path] false
                       (world s) = (Returned report, w') ->
        Py.contains (u "重解析点") (stdout report) ||
        Py.contains (u "Reparse") (stdout report) = false ->
        os_path_isfile path w' = false ->
        is_link path s =
        (Returned None,
         {| world := w';
            log := log s ++
                   [Call_islink path; Call_isdir path;
                    Call_subprocess_run
                      [u "fsutil"; u "reparsepoint"; u "query"; path] false;
                    Call_isfile path] |}))
    /\
    (forall (listing : CompletedProcess) (w' : W),
        os_path_islink path (world s) = false ->
        os_path_isdir path (world s) = false ->
        os_path_isfile path (world s) = true ->
        subprocess_run [u "fsutil"; u "hardlink"; u "list"; path] false
                       (world s) = (Returned listing, w') ->
        is_link path s =
        (Returned
           (if (2 <? List.length
                       (Py.split newline (Py.strip (stdout listing))))%nat
            then Some HardLink else None),
         {| world := w';
            log := log s ++
                   [Call_islink path; Call_isdir path; Call_isfile path;
                    Call_subprocess_run
                      [u "fsutil"; u "hardlink"; u "list"; path]
                      false] |}))
    /\
    (forall (report listing : CompletedProcess) (w' w'' : W),
        os_path_islink path (world s) = false ->
        os_path_isdir path (world s) = true ->
        subprocess_run [u "fsutil"; u "reparsepoint"; u "query"; path] false
                       (world s) = (Returned report, w') ->
        Py.contains (u "重解析点") (stdout report) ||
        Py.contains (u "Reparse") (stdout report) = false ->
        os_path_isfile path w' = true ->
        subprocess_run [u "fsutil"; u "hardlink"; u "list"; path] false
                       w' = (Returned listing, w'') ->
        is_link path s =
        (Returned
           (if (2 <? List.length
                       (Py.split newline (Py.strip (stdout listing))))%nat
            then Some HardLink else None),
         {| world := w'';
            log := log s ++
                   [Call_islink path; Call_isdir path;
                    Call_subprocess_run
                      [u "fsutil"; u "reparsepoint"; u "query"; path] false;
                    Call_isfile path;
                    Call_subprocess_run
                      [u "fsutil"; u "hardlink"; u "list"; path]
                      false] |})).
Proof.
  intros path s.
  destruct kinds_distinct as (Hsj & Hsh & Hjh).
  split; [| split; [| split; [| split; [| split; [| split; [| split]]]]]].
  - intros Hsym. step. rewrite Hsym. reflexivity.
  - step. cases; intros H; inversion H; subst; try congruence.
    repeat split; tidy; reflexivity.
  - step. cases; intros H; inversion H; subst; try congruence;
      (split; [reflexivity |]).
    + exists [Call_subprocess_run
                [u "fsutil"; u "reparsepoint"; u "query"; path] false].
      tidy; reflexivity.
    + exists []. tidy; reflexivity.
  - intros Hsym Hdir Hfile. step. rewrite Hsym; simpl.
    rewrite Hdir; simpl. rewrite Hfile; simpl. tidy; reflexivity.
  - intros report w' Hsym Hdir Hrun Hmark. step.
    rewrite Hsym; simpl. rewrite Hdir; simpl. rewrite Hrun; simpl.
    rewrite Hmark; simpl. tidy; reflexivity.
  - intros report w' Hsym Hdir Hrun Hmark Hfile. step.
    rewrite Hsym; simpl. rewrite Hdir; simpl. rewrite Hrun; simpl.
    rewrite Hmark; simpl. rewrite Hfile; simpl. tidy; reflexivity.
  - intros listing w' Hsym Hdir Hfile Hrun. step.
    rewrite Hsym; simpl. rewrite Hdir; simpl. rewrite Hfile; simpl.
    rewrite Hrun; simpl.
    destruct (2 <? List.length
                     (Py.split newline (Py.strip (stdout listing))))%nat;
      simpl; tidy; reflexivity.
  - intros report listing w' w'' Hsym Hdir Hrun Hmark Hfile Hlist. step.
    rewrite Hsym; simpl. rewrite Hdir; simpl. rewrite Hrun; simpl.
    rewrite Hmark; simpl. rewrite Hfile; simpl. rewrite Hlist; simpl.
    destruct (2 <? List.length
                     (Py.split newline (Py.strip (stdout listing))))%nat;
      simpl; tidy; reflexivity.
Qed.

(** C8: the symbolic-link operation of both front ends takes the subtype
    from one test, [os.path.isdir(source)], made just before the call.  The
    headless branch of [main] and the form's handler (in an elevated
    process) call [os.symlink] on the host with [target_is_directory]
    equal to the answer of that test, so the directory form is used exactly
    when the source is a directory.  The state of the host afterwards is
    the one that call leaves: when it returns, the front end reports the
    link as made; when it raises an [Exception], the error is shown and the
    failure reported. *)
Theorem symlink_subtype_from_isdir :
  forall (source target : str),
    (forall (args : Namespace) (session : list action) (s : state (desk W)),
        arg_type args = Some symlink ->
        given (arg_source args) = Some source ->
        given (arg_target args) = Some target ->
        (exists rest,
            log (snd (main args session s)) =
            log s ++ [Call_isdir source;
                      Call_symlink source target
                        (os_path_isdir source (host (world s)))] ++ rest)
        /\
        (forall w' : W,
            os_symlink source target
                       (os_path_isdir source (host (world s)))
                       (host (world s)) = (Returned tt, w') ->
            main args session s =
            (Returned tt,
             {| world := put_host w' (world s);
                log := log s ++
                       [Call_isdir source;
                        Call_symlink source target
                          (os_path_isdir source (host (world s)));
                        Out_print (Text.symlink_created ++ target)] |}))
        /\
        (forall (msg : str) (w' : W),
            os_symlink source target
                       (os_path_isdir source (host (world s)))
                       (host (world s)) = (Raised (Exception msg), w') ->
            main args session s =
            (Returned tt,
             {| world := put_host w' (world s);
                log := log s ++
                       [Call_isdir source;
                        Call_symlink source target
                          (os_path_isdir source (host (world s)));
                        Out_showerror Text.error_title
                                      (Text.symlink_failed ++ msg);
                        Out_print Text.symlink_not_created] |})))
    /\
    (forall (admin : Z) (s : state W),
        Py.truthy source = true ->
        Py.truthy target = true ->
        IsUserAnAdmin (world s) = Returned admin ->
        admin <> 0%Z ->
        (exists rest,
            log (snd (create_link
                        {| link_type := symlink;
                           source_path := source;
                           target_path := target |} s)) =
            log s ++ [Call_IsUserAnAdmin; Call_isdir source;
                      Call_symlink source target
                        (os_path_isdir source (world s))] ++ rest)
        /\
        (forall w' : W,
            os_symlink source target (os_path_isdir source (world s))
                       (world s) = (Returned tt, w') ->
            create_link {| link_type := symlink;
                           source_path := source;
                           target_path := target |} s =
            (Returned tt,
             {| world := w';
                log := log s ++
                       [Call_IsUserAnAdmin; Call_isdir source;
                        Call_symlink source target
                          (os_path_isdir source (world s));
                        Out_status (u "成功创建" ++ symlink ++ u "链接");
                        Out_showinfo Text.success_title
                                     (Text.link_created ++ target)] |}))
        /\
        (forall (msg : str) (w' : W),
            os_symlink source target (os_path_isdir source (world s))
                       (world s) = (Raised (Exception msg), w') ->
            create_link {| link_type := symlink;
                           source_path := source;
                           target_path := target |} s =
            (Returned tt,
             {| world := w';
                log := log s ++
                       [Call_IsUserAnAdmin; Call_isdir source;
                        Call_symlink source target
                          (os_path_isdir source (world s));
                        Out_showerror Text.error_title
                                      (Text.symlink_failed ++ msg);
                        Out_status Text.create_failed] |}))).
Proof.
  intros source target; split.
  - intros args session [[w text calls] l] Htype Hsource Htarget.
    unfold main. rewrite Hsource, Htype, Htarget. simpl.
    unfold headless, put_host. simpl. step.
    split; [| split].
    + destruct (os_path_isdir source w); simpl;
        destruct (os_symlink _ _ _ w) as [[[] | e] w']; simpl;
        try destruct (is_Exception e); simpl; tidy; eexists; reflexivity.
    + intros w' Hcall.
      destruct (os_path_isdir source w); simpl; rewrite Hcall; simpl; tidy;
        reflexivity.
    + intros msg w' Hcall.
      destruct (os_path_isdir source w); simpl; rewrite Hcall; simpl; tidy;
        reflexivity.
  - intros admin s Hsource Htarget Hadmin Hnonzero.
    apply Z.eqb_neq in Hnonzero.
    unfold create_link. simpl. rewrite Hsource, Htarget. simpl.
    step. rewrite Hadmin. simpl. rewrite Hnonzero. simpl.
    split; [| split].
    + destruct (os_path_isdir source (world s)); simpl; cases; tidy;
        eexists; reflexivity.
    + intros w' Hcall.
      destruct (os_path_isdir source (world s)); simpl; rewrite Hcall; simpl;
        tidy; reflexivity.
    + intros msg w' Hcall.
      destruct (os_path_isdir source (world s)); simpl; rewrite Hcall; simpl;
        tidy; reflexivity.
Qed.

(** C3, amended: for a directory that is not a symbolic link and whose
    reparse-point query returns, [is_link] answers junction exactly when
    the text the query printed contains "Reparse" or "重解析点".  The
    reparse tag is not inspected. *)
Theorem junction_by_report_text :
  forall (path : str) (s : state W) (report : CompletedProcess) (w' : W),
    os_path_islink path (world s) = false ->
    os_path_isdir path (world s) = true ->
    subprocess_run [u "fsutil"; u "reparsepoint"; u "query"; path] false
                   (world s) = (Returned report, w') ->
    (fst (is_link path s) = Returned (Some Junction) <->
     Py.contains (u "重解析点") (stdout report) ||
     Py.contains (u "Reparse") (stdout report) = true).
Proof.
  intros path s report w' Hsym Hdir Hrun.
  destruct kinds_distinct as (_ & _ & Hjh).
  step. rewrite Hsym; simpl. rewrite Hdir; simpl. rewrite Hrun; simpl.
  destruct (Py.contains (u "重解析点") (stdout report) ||
            Py.contains (u "Reparse") (stdout report)); simpl.
  - split; reflexivity.
  - split; [| discriminate].
    cases; intros H; inversion H; subst; congruence.
Qed.

(** C6, amended: the creators report every failure in the same way.  When
    [os.symlink] raises an exception with any message, lack of privilege
    included, [create_symlink] shows one error dialog carrying that
    message and returns [False].  When the [mklink] command returns a
    non-zero status for any reason, [create_junction] returns [False] and
    shows nothing.  No other condition is produced. *)
Theorem creators_report_failure_uniformly :
  forall (source target : str) (s : state W),
    (forall (is_directory : bool) (msg : str) (w' : W),
        os_symlink source target is_directory (world s) =
        (Raised (Exception msg), w') ->
        create_symlink source target is_directory s =
        (Returned false,
         {| world := w';
            log := log s ++
                   [Call_symlink source target is_directory;
                    Out_showerror Text.error_title
                                  (Text.symlink_failed ++ msg)] |}))
    /\
    (forall (result : CompletedProcess) (w' : W),
        os_path_isdir source (world s) = true ->
        subprocess_run [u "cmd"; u "/c"; mklink_command target source] true
                       (world s) = (Returned result, w') ->
        returncode result <> 0%Z ->
        create_junction source target s =
        (Returned false,
         {| world := w';
            log := log s ++
                   [Call_isdir source;
                    Call_subprocess_run
                      [u "cmd"; u "/c"; mklink_command target source]
                      true] |})).
Proof.
  intros source target s; split.
  - intros is_directory msg w' Hcall. step.
    destruct is_directory; simpl; rewrite Hcall; simpl; tidy; reflexivity.
  - intros result w' Hdir Hrun Hcode. step.
    rewrite Hdir; simpl. rewrite Hrun; simpl.
    apply Z.eqb_neq in Hcode. rewrite Hcode. tidy; reflexivity.
Qed.

(** X15: the threshold of the hard-link test.  For a regular file that is
    neither a symbolic link nor a directory, [is_link] answers hard link
    exactly when the listing of [fsutil hardlink list], once stripped, has
    more than two lines. *)
Lemma hardlink_threshold :
  forall (path : str) (s : state W) (listing : CompletedProcess) (w' : W),
    os_path_islink path (world s) = false ->
    os_path_isdir path (world s) = false ->
    os_path_isfile path (world s) = true ->
    subprocess_run [u "fsutil"; u "hardlink"; u "list"; path] false
                   (world s) = (Returned listing, w') ->
    (fst (is_link path s) = Returned (Some HardLink) <->
     (2 < List.length (Py.split newline (Py.strip (stdout listing))))%nat).
Proof.
  intros path s listing w' Hsym Hdir Hfile Hrun.
  step. rewrite Hsym; simpl. rewrite Hdir; simpl. rewrite Hfile; simpl.
  rewrite Hrun; simpl.
  destruct (Nat.ltb_spec 2 (List.length
              (Py.split newline (Py.strip (stdout listing))))); simpl.
  - split; auto.
  - split; [discriminate | lia].
Qed.

(** X4: the form's create button, when the process is not elevated: the
    elevation request is made and the process exits, with no link call. *)
Lemma create_link_relaunches :
  forall (self : LinkShellApp) (s : state W) (rc : Z) (w' : W),
    Py.truthy (source_path self) = true ->
    Py.truthy (target_path self) = true ->
    link_type self = symlink \/ link_type self = junction ->
    IsUserAnAdmin (world s) = Returned 0%Z ->
    ShellExecuteW (u "runas") (sys_executable (world s))
                  (Py.join (u " ") (sys_argv (world s))) 1 (world s) =
    (Returned rc, w') ->
    create_link self s =
    (Raised (SystemExit 0),
     {| world := w';
        log := log s ++
               [Call_IsUserAnAdmin; Call_IsUserAnAdmin;
                Call_ShellExecuteW (u "runas") (sys_executable (world s))
                                   (Py.join (u " ") (sys_argv (world s)))
                                   1] |}).
Proof.
  intros self s rc w' Hsource Htarget Htype Hadmin Hshell.
  unfold create_link. rewrite Hsource, Htarget. simpl.
  assert (Hneeds : Py.eqb (link_type self) symlink ||
                   Py.eqb (link_type self) junction = true).
  { destruct Htype as [-> | ->]; reflexivity. }
  rewrite Hneeds. step. rewrite Hadmin. simpl. step. rewrite Hadmin. simpl.
  rewrite Hshell. tidy. reflexivity.
Qed.

Lemma substitute_name_loop_cons :
  forall (line : str) (rest : list str),
    @substitute_name_loop W (line :: rest) =
    if Py.contains (u "Substitute Name") line ||
       Py.contains (u "替代名称") line
    then
      field <- index_last (Py.split colon line) ;;
      ret (Some (if Py.startswith (Py.strip field) (u "\??\")
                 then Py.slice_from 4 (Py.strip field)
                 else Py.strip field))
    else substitute_name_loop rest.
Proof. reflexivity. Qed.

Lemma substitute_name_loop_no_colon :
  forall (lines : list str) (s s' : state W) (target : str),
    substitute_name_loop lines s = (Returned (Some target), s') ->
    ~ In colon target.
Proof.
  induction lines as [| line rest IH]; intros s s' target.
  - simpl. step. discriminate.
  - rewrite substitute_name_loop_cons.
    destruct (Py.contains (u "Substitute Name") line ||
              Py.contains (u "替代名称") line).
    + unfold index_last.
      destruct (Py.split colon line) as [| h t] eqn:Hsplit.
      * unfold bind, raise. discriminate.
      * assert (Hfield : ~ In colon (last (h :: t) [])).
        { rewrite <- Hsplit. apply last_split_no_sep. }
        remember (last (h :: t) []) as field eqn:Hlast. clear Hlast.
        unfold bind, ret.
        intros Hrun Hin. injection Hrun as Htarget _. subst target.
        apply Hfield. apply strip_incl.
        destruct (Py.startswith (Py.strip field) (u "\??\")).
        -- exact (slice_from_incl 4 (Py.strip field) colon Hin).
        -- exact Hin.
    + apply IH.
Qed.

(** X12: whatever [fsutil] prints, the target [get_link_target] reads from it
    holds no colon: it is never a path with a drive letter. *)
Lemma resolved_target_has_no_colon :
  forall (path : str) (s : state W) (target : str),
    os_path_islink path (world s) = false ->
    fst (get_link_target path s) = Returned (Some target) ->
    ~ In colon target.
Proof.
  intros path s target Hsym. step. rewrite Hsym; simpl.
  destruct (os_path_isdir path (world s)); simpl; [| discriminate].
  destruct (subprocess_run _ _ _) as [[result | e] w']; simpl;
    [| discriminate].
  match goal with
  | |- context [substitute_name_loop ?l ?st] =>
    destruct (substitute_name_loop l st) as [[[found |] | e] s'] eqn:Hloop
  end; simpl; try discriminate.
  intros H; inversion H; subst.
  eapply substitute_name_loop_no_colon; exact Hloop.
Qed.

End Facts.

(** ** Runs on the reference host *)

Module Runs.

Import Scenario.

Ltac run_all :=
  repeat match goal with |- _ /\ _ => split end; vm_compute; reflexivity.

(** C1: a junction made by [create_junction] for the directory
    [C:\data\shared] is classified as a junction, [fsutil] prints its
    substitute name as [\??\C:\data\shared], and [get_link_target]
    returns [\data\shared]: the field is cut at the last colon of the
    line, which is the colon of the drive, so the prefix is never seen and
    the drive is lost.  The result is not the path of the source. *)
Theorem junction_target_loses_drive :
  fst (create_junction data_shared shared_link (Ntfs.boot plain)) =
  Returned true
  /\
  Py.split newline
    (stdout (Ntfs.fsutil_reparsepoint_query shared_link
       (world (snd (create_junction data_shared shared_link
                                    (Ntfs.boot plain)))))) =
  [ u "Reparse Tag Value : 0xa0000003";
    u "Tag value: Microsoft";
    u "Tag value: Name Surrogate";
    u "Tag value: Mount Point";
    u "Substitute Name:       \??\C:\data\shared";
    u "Print Name:            C:\data\shared";
    [] ]
  /\
  Ntfs.after (create_junction data_shared shared_link)
             (is_link shared_link) plain = Returned (Some Junction)
  /\
  Ntfs.after (create_junction data_shared shared_link)
             (get_link_target shared_link) plain =
  Returned (Some (u "\data\shared"))
  /\
  Py.eqb (u "\data\shared") data_shared = false.
Proof. run_all. Qed.

(** C2: after [create_hardlink] has given the file [C:\data\report.txt]
    a second name, [fsutil hardlink list] prints two lines and [is_link]
    answers [None] for both names: the test asks for more than two lines.
    With a third name it answers hard link. *)
Theorem two_names_not_hardlink :
  fst (create_hardlink report report_hl (Ntfs.boot plain)) = Returned true
  /\
  stdout (Ntfs.fsutil_hardlink_list report_hl
            (world (snd (create_hardlink report report_hl
                                         (Ntfs.boot plain))))) =
  Ntfs.lines [u "\data\report.txt"; u "\links\report_hl.txt"]
  /\
  Ntfs.after (create_hardlink report report_hl) (is_link report_hl) plain =
  Returned None
  /\
  Ntfs.after (create_hardlink report report_hl) (is_link report) plain =
  Returned None
  /\
  stdout (Ntfs.fsutil_hardlink_list report linked) =
  Ntfs.lines [u "\data\report.txt"; u "\links\report_hl.txt";
              u "\links\report_hl2.txt"]
  /\
  fst (is_link report (Ntfs.boot linked)) = Returned (Some HardLink).
Proof. run_all. Qed.

(** C9: the headless branch of [main], asked for a symbolic link in a
    process that is not elevated, makes no privilege test and no elevation
    request: it calls [os.symlink] itself, which fails for lack of
    privilege, shows the error, prints the failure line and returns.  No
    form is opened, so what the user would do at one plays no part, and the
    registry is not touched. *)
Theorem headless_symlink_no_elevation :
  Ntfs.elevated unprivileged = false
  /\
  forall session : list action,
    main symlink_args session (Pc.start (Office.machine unprivileged)) =
    (Returned tt,
     {| world := {| host := Office.machine unprivileged;
                    result_text := [];
                    winreg_log := [] |};
        log := [Call_isdir report;
                Call_symlink report report_sl false;
                Out_showerror Text.error_title
                              (Text.symlink_failed ++ privilege_not_held);
                Out_print Text.symlink_not_created] |}).
Proof.
  split; [vm_compute; reflexivity |].
  intros session. vm_compute. reflexivity.
Qed.

(** The parameter string of the elevation request does not determine the
    arguments: a path with a space and two separate arguments give the
    same string. *)
Lemma relaunch_parameters_ambiguous :
  [u "link_shell.py"; u "--source"; u "C:\My Documents"] <>
  [u "link_shell.py"; u "--source"; u "C:\My"; u "Documents"]
  /\
  Py.join (u " ") [u "link_shell.py"; u "--source"; u "C:\My Documents"] =
  Py.join (u " ") [u "link_shell.py"; u "--source"; u "C:\My"; u "Documents"].
Proof.
  split; [intros H; vm_compute in H; discriminate | vm_compute; reflexivity].
Qed.

(** C3, as stated: refuted by a folder with a reparse point of another tag. *)
Lemma junction_tag_not_checked : ~ junction_only_for_mount_points.
Proof.
  intros Hclaim.
  destruct (Hclaim with_cloud_folder cloud) as (substitute & print & Hnode);
    try (vm_compute; reflexivity).
  vm_compute in Hnode. discriminate.
Qed.

(** C6, as stated: refuted by two failures of [create_symlink], one for
    lack of privilege and one for an existing target, which give the caller
    the same result. *)
Lemma privilege_failure_not_distinguished : ~ privilege_failure_distinguished.
Proof.
  intros Hclaim.
  apply (Hclaim report links false
                (Ntfs.boot unprivileged) (Ntfs.boot plain)
                unprivileged plain
                (u "[WinError 183] Cannot create a file when that file already exists")).
  - vm_compute; reflexivity.
  - vm_compute; reflexivity.
  - intros H; vm_compute in H; discriminate.
  - vm_compute; reflexivity.
Qed.

(** C4, as stated: refuted by a directory whose reparse-point query exits
    with status 1 after printing a line that holds "Reparse": the answer is
    junction, not [None]. *)
Lemma failed_query_still_classified : ~ failed_queries_give_none.
Proof.
  intros Hclaim.
  assert (Hnone : fst (is_link (u "D:\photos") (Canned.boot Canned.broken_query))
                  = Returned None).
  { apply Hclaim.
    - reflexivity.
    - intros Hcode; vm_compute in Hcode; discriminate.
    - exact I. }
  vm_compute in Hnone. discriminate.
Qed.

(** The same for a file: a hard-link query that exits with status 1 after
    printing three lines gives hard link. *)
Lemma failed_listing_still_classified :
  query_failed (Canned.hardlink_list Canned.broken_listing)
  /\
  fst (is_link (u "D:\notes.txt") (Canned.boot Canned.broken_listing)) =
  Returned (Some HardLink).
Proof.
  split; [intros Hcode; vm_compute in Hcode; discriminate |].
  vm_compute; reflexivity.
Qed.

(** *** Symbolic links on the reference host, for every source *)

Lemma eqb_same : forall p : str, Py.eqb p p = true.
Proof.
  intros p. unfold Py.eqb.
  destruct (list_eq_dec N.eq_dec p p); [reflexivity | congruence].
Qed.

Lemma lookup_added :
  forall (l : list (str * Ntfs.node)) (p : str) (n : Ntfs.node),
    Ntfs.lookup l p = None ->
    Ntfs.lookup (l ++ [(p, n)]) p = Some n.
Proof.
  induction l as [| [q m] r IH]; intros p n Hfresh; simpl in *.
  - rewrite eqb_same. reflexivity.
  - destruct (Py.eqb q p); [discriminate | auto].
Qed.

(** On the reference host an elevated process makes a symbolic link at any
    free target, whatever the source is: [create_symlink] returns [True]
    and the target then is a symbolic link that stores the source. *)
Lemma symlink_made_for_any_source :
  forall (h : Ntfs.host) (source target : str) (is_directory : bool),
    Ntfs.elevated h = true ->
    Ntfs.lookup (Ntfs.entries h) target = None ->
    let after := create_symlink source target is_directory (Ntfs.boot h) in
    fst after = Returned true /\
    Ntfs.islink target (world (snd after)) = true /\
    Ntfs.readlink target (world (snd after)) = Returned source.
Proof.
  intros h source target is_directory Helev Hfresh.
  assert (Hcall : Ntfs.symlink source target is_directory h =
                  (Returned tt,
                   Ntfs.add target (Ntfs.SymlinkTo source is_directory) h)).
  { unfold Ntfs.symlink. rewrite Helev, Hfresh. reflexivity. }
  pose proof (lookup_added (Ntfs.entries h) target
                           (Ntfs.SymlinkTo source is_directory) Hfresh)
    as Hlook.
  cbv zeta.
  unfold create_symlink, symlink_call, try_except, bind, call, ret.
  destruct is_directory; simpl; rewrite Hcall; simpl;
    unfold Ntfs.islink, Ntfs.readlink; simpl; rewrite Hlook; auto.
Qed.

(** *** The general statements at concrete inputs *)

Ltac by_run := vm_compute; reflexivity.

Lemma creators_reject_wrong_source_kind_witness :
  (Ntfs.isfile data_shared plain = false /\
   create_hardlink data_shared report_hl (Ntfs.boot plain) =
   (Returned false,
    {| world := plain;
       log := [Call_isfile data_shared;
               Out_showerror Text.error_title Text.hardlink_files_only] |}))
  /\
  (Ntfs.isdir report plain = false /\
   create_junction report shared_link (Ntfs.boot plain) =
   (Returned false,
    {| world := plain;
       log := [Call_isdir report;
               Out_showerror Text.error_title Text.junction_dirs_only] |})).
Proof.
  split; (split; [by_run |]).
  - exact (proj1 (creators_reject_wrong_source_kind (HostOS := Ntfs.ntfs_os)
                    data_shared report_hl (Ntfs.boot plain))
                 ltac:(by_run)).
  - exact (proj2 (creators_reject_wrong_source_kind (HostOS := Ntfs.ntfs_os)
                    report shared_link (Ntfs.boot plain))
                 ltac:(by_run)).
Defined.

Lemma create_symlink_unconditional_witness :
  Ntfs.exists_ missing plain = false
  /\
  create_symlink missing dangling false (Ntfs.boot plain) =
  (Returned true,
   {| world := Ntfs.add dangling (Ntfs.SymlinkTo missing false) plain;
      log := [Call_symlink missing dangling false] |})
  /\
  Ntfs.islink dangling
    (Ntfs.add dangling (Ntfs.SymlinkTo missing false) plain) = true
  /\
  Ntfs.exists_ dangling
    (Ntfs.add dangling (Ntfs.SymlinkTo missing false) plain) = false.
Proof.
  split; [by_run |]. split; [| split; by_run].
  exact (proj2 (create_symlink_unconditional (HostOS := Ntfs.ntfs_os)
                  missing dangling false (Ntfs.boot plain))
               (Ntfs.add dangling (Ntfs.SymlinkTo missing false) plain)
               ltac:(by_run)).
Defined.

Lemma is_link_none_when_it_raises_witness :
  (fst (is_link_body data_shared (Ntfs.boot no_tools)) =
   Raised (Exception (u "[WinError 2] The system cannot find the file specified"))
   /\
   fst (is_link data_shared (Ntfs.boot no_tools)) = Returned None)
  /\
  is_link data_shared (Ntfs.boot no_tools) =
  (Returned None,
   {| world := no_tools;
      log := [Call_islink data_shared; Call_isdir data_shared;
              Call_subprocess_run
                [u "fsutil"; u "reparsepoint"; u "query"; data_shared]
                false] |})
  /\
  is_link report (Ntfs.boot no_tools) =
  (Returned None,
   {| world := no_tools;
      log := [Call_islink report; Call_isdir report; Call_isfile report;
              Call_subprocess_run
                [u "fsutil"; u "hardlink"; u "list"; report] false] |})
  /\
  (query_failed (Canned.reparse_query Canned.broken_query) /\
   is_link cloud (Canned.boot Canned.broken_query) =
   (Returned (Some Junction),
    {| world := Canned.broken_query;
       log := [Call_islink cloud; Call_isdir cloud;
               Call_subprocess_run
                 [u "fsutil"; u "reparsepoint"; u "query"; cloud]
                 false] |}))
  /\
  (query_failed (Canned.hardlink_list Canned.broken_listing) /\
   is_link report (Canned.boot Canned.broken_listing) =
   (Returned (Some HardLink),
    {| world := Canned.broken_listing;
       log := [Call_islink report; Call_isdir report; Call_isfile report;
               Call_subprocess_run
                 [u "fsutil"; u "hardlink"; u "list"; report] false] |}))
  /\
  fst (get_link_target data_shared (Ntfs.boot no_tools)) = Returned None
  /\
  get_link_target report_sl (Canned.boot Canned.unreadable) =
  (Returned None,
   {| world := Canned.unreadable;
      log := [Call_islink report_sl; Call_readlink report_sl] |})
  /\
  get_link_target data_shared (Ntfs.boot no_tools) =
  (Returned None,
   {| world := no_tools;
      log := [Call_islink data_shared; Call_isdir data_shared;
              Call_subprocess_run
                [u "fsutil"; u "reparsepoint"; u "query"; data_shared]
                false] |}).
Proof.
  pose proof (is_link_none_when_it_raises (HostOS := Ntfs.ntfs_os)
                data_shared (Ntfs.boot no_tools))
    as (_ & Hbody & Hquery & _ & _ & _ & _ & Htarget & _ & Hreport).
  pose proof (is_link_none_when_it_raises (HostOS := Ntfs.ntfs_os)
                report (Ntfs.boot no_tools))
    as (_ & _ & _ & Hlist & _).
  pose proof (is_link_none_when_it_raises (HostOS := Canned.canned_os)
                cloud (Canned.boot Canned.broken_query))
    as (_ & _ & _ & _ & Hmark & _).
  pose proof (is_link_none_when_it_raises (HostOS := Canned.canned_os)
                report (Canned.boot Canned.broken_listing))
    as (_ & _ & _ & _ & _ & Hlines & _).
  pose proof (is_link_none_when_it_raises (HostOS := Canned.canned_os)
                report_sl (Canned.boot Canned.unreadable))
    as (_ & _ & _ & _ & _ & _ & _ & _ & Hread & _).
  split; [split; [by_run |] | split; [| split; [| split; [| split;
    [| split; [| split]]]]]].
  - exact (Hbody (Exception (u "[WinError 2] The system cannot find the file specified"))
                 ltac:(by_run)).
  - exact (Hquery (Exception (u "[WinError 2] The system cannot find the file specified"))
                  no_tools ltac:(by_run) ltac:(by_run) ltac:(by_run)).
  - exact (Hlist (Exception (u "[WinError 2] The system cannot find the file specified"))
                 no_tools ltac:(by_run) ltac:(by_run) ltac:(by_run)
                 ltac:(by_run)).
  - split; [intros Hcode; vm_compute in Hcode; discriminate |].
    exact (Hmark 1%Z
                 (u "Reparse Tag Value : 0x" ++ [newline] ++
                  u "Error:  The data area passed to a system call is too small."
                  ++ [newline])
                 [] Canned.broken_query
                 ltac:(by_run) ltac:(by_run) ltac:(by_run) ltac:(by_run)).
  - split; [intros Hcode; vm_compute in Hcode; discriminate |].
    pose proof (Hlines 1%Z
                 (u "Error:  The parameter is incorrect." ++ [newline] ++
                  u "Usage : fsutil hardlink list <filename>" ++ [newline] ++
                  u "   Eg : fsutil hardlink list C:\foo.txt" ++ [newline])
                 [] Canned.broken_listing
                 ltac:(by_run) ltac:(by_run) ltac:(by_run) ltac:(by_run))
      as Hrun.
    vm_compute in Hrun. vm_compute. exact Hrun.
  - exact (Htarget (Exception (u "[WinError 2] The system cannot find the file specified"))
                   ltac:(by_run)).
  - exact (Hread Canned.not_found ltac:(by_run) ltac:(by_run)).
  - exact (Hreport (Exception (u "[WinError 2] The system cannot find the file specified"))
                   no_tools ltac:(by_run) ltac:(by_run) ltac:(by_run)).
Defined.

Lemma is_link_precedence_witness :
  is_link report_sl (Ntfs.boot linked) =
  (Returned (Some SymLink),
   {| world := linked; log := [Call_islink report_sl] |})
  /\
  (Ntfs.islink shared_link linked = false /\
   Ntfs.isdir shared_link linked = true /\
   log (snd (is_link shared_link (Ntfs.boot linked))) =
   [Call_islink shared_link; Call_isdir shared_link;
    Call_subprocess_run
      [u "fsutil"; u "reparsepoint"; u "query"; shared_link] false])
  /\
  (Ntfs.islink report_hl linked = false /\
   exists junction_test,
     log (snd (is_link report_hl (Ntfs.boot linked))) =
     [Call_islink report_hl; Call_isdir report_hl] ++ junction_test ++
     [Call_isfile report_hl;
      Call_subprocess_run [u "fsutil"; u "hardlink"; u "list"; report_hl]
                          false])
  /\
  is_link missing (Ntfs.boot linked) =
  (Returned None,
   {| world := linked;
      log := [Call_islink missing; Call_isdir missing;
              Call_isfile missing] |})
  /\
  is_link shared_link (Ntfs.boot linked) =
  (Returned (Some Junction),
   {| world := linked;
      log := [Call_islink shared_link; Call_isdir shared_link;
              Call_subprocess_run
                [u "fsutil"; u "reparsepoint"; u "query"; shared_link]
                false] |})
  /\
  is_link data_shared (Ntfs.boot linked) =
  (Returned None,
   {| world := linked;
      log := [Call_islink data_shared; Call_isdir data_shared;
              Call_subprocess_run
                [u "fsutil"; u "reparsepoint"; u "query"; data_shared]
                false;
              Call_isfile data_shared] |})
  /\
  is_link report_hl (Ntfs.boot linked) =
  (Returned (Some HardLink),
   {| world := linked;
      log := [Call_islink report_hl; Call_isdir report_hl;
              Call_isfile report_hl;
              Call_subprocess_run
                [u "fsutil"; u "hardlink"; u "list"; report_hl] false] |})
  /\
  is_link report (Ntfs.boot plain) =
  (Returned None,
   {| world := plain;
      log := [Call_islink report; Call_isdir report; Call_isfile report;
              Call_subprocess_run
                [u "fsutil"; u "hardlink"; u "list"; report] false] |})
  /\
  is_link cloud (Canned.boot Canned.both_kinds) =
  (Returned (Some HardLink),
   {| world := Canned.both_kinds;
      log := [Call_islink cloud; Call_isdir cloud;
              Call_subprocess_run
                [u "fsutil"; u "reparsepoint"; u "query"; cloud] false;
              Call_isfile cloud;
              Call_subprocess_run
                [u "fsutil"; u "hardlink"; u "list"; cloud] false] |}).
Proof.
  pose proof (is_link_precedence (HostOS := Ntfs.ntfs_os)
                shared_link (Ntfs.boot linked))
    as (_ & Honly_dir & _ & _ & Hmark & _).
  pose proof (is_link_precedence (HostOS := Ntfs.ntfs_os)
                data_shared (Ntfs.boot linked))
    as (_ & _ & _ & _ & _ & Hplain & _).
  pose proof (is_link_precedence (HostOS := Ntfs.ntfs_os)
                report_hl (Ntfs.boot linked))
    as (_ & _ & Honly_file & _ & _ & _ & Hthree & _).
  pose proof (is_link_precedence (HostOS := Ntfs.ntfs_os)
                report (Ntfs.boot plain))
    as (_ & _ & _ & _ & _ & _ & Hone & _).
  pose proof (is_link_precedence (HostOS := Canned.canned_os)
                cloud (Canned.boot Canned.both_kinds))
    as (_ & _ & _ & _ & _ & _ & _ & Hboth).
  split; [| split; [| split; [| split; [| split; [| split; [| split;
    [| split]]]]]]].
  - exact (proj1 (is_link_precedence (HostOS := Ntfs.ntfs_os) report_sl
                                     (Ntfs.boot linked))
                 ltac:(by_run)).
  - exact (Honly_dir ltac:(by_run)).
  - exact (Honly_file ltac:(by_run)).
  - exact (proj1 (proj2 (proj2 (proj2 (is_link_precedence
                                         (HostOS := Ntfs.ntfs_os) missing
                                         (Ntfs.boot linked)))))
                 ltac:(by_run) ltac:(by_run) ltac:(by_run)).
  - exact (Hmark (Ntfs.fsutil_reparsepoint_query shared_link linked) linked
                 ltac:(by_run) ltac:(by_run) ltac:(by_run) ltac:(by_run)).
  - exact (Hplain (Ntfs.fsutil_reparsepoint_query data_shared linked) linked
                  ltac:(by_run) ltac:(by_run) ltac:(by_run) ltac:(by_run)
                  ltac:(by_run)).
  - pose proof (Hthree (Ntfs.fsutil_hardlink_list report_hl linked) linked
                       ltac:(by_run) ltac:(by_run) ltac:(by_run)
                       ltac:(by_run)) as Hrun.
    vm_compute in Hrun. vm_compute. exact Hrun.
  - pose proof (Hone (Ntfs.fsutil_hardlink_list report plain) plain
                     ltac:(by_run) ltac:(by_run) ltac:(by_run)
                     ltac:(by_run)) as Hrun.
    vm_compute in Hrun. vm_compute. exact Hrun.
  - pose proof (Hboth
                  {| returncode := 0; stdout := []; stderr := [] |}
                  {| returncode := 0;
                     stdout := u "\a" ++ [newline] ++ u "\b" ++ [newline] ++
                               u "\c" ++ [newline];
                     stderr := [] |}
                  Canned.both_kinds Canned.both_kinds
                  ltac:(by_run) ltac:(by_run) ltac:(by_run) ltac:(by_run)
                  ltac:(by_run) ltac:(by_run)) as Hrun.
    vm_compute in Hrun. vm_compute. exact Hrun.
Defined.

Lemma symlink_subtype_from_isdir_witness :
  (Ntfs.isdir report unprivileged = false /\
   exists rest,
     log (snd (main symlink_args [] (Pc.start (Office.machine unprivileged))))
     = [Call_isdir report; Call_symlink report report_sl false] ++ rest)
  /\
  main symlink_args [] (Pc.start (Office.machine plain)) =
  (Returned tt,
   {| world :=
        {| host := Office.machine
                     (Ntfs.add report_sl (Ntfs.SymlinkTo report false) plain);
           result_text := [];
           winreg_log := [] |};
      log := [Call_isdir report;
              Call_symlink report report_sl false;
              Out_print (Text.symlink_created ++ report_sl)] |})
  /\
  main symlink_args [] (Pc.start (Office.machine unprivileged)) =
  (Returned tt,
   {| world := {| host := Office.machine unprivileged;
                  result_text := [];
                  winreg_log := [] |};
      log := [Call_isdir report;
              Call_symlink report report_sl false;
              Out_showerror Text.error_title
                            (Text.symlink_failed ++ privilege_not_held);
              Out_print Text.symlink_not_created] |})
  /\
  (Ntfs.isdir data_shared plain = true /\
   exists rest,
     log (snd (create_link (form symlink data_shared shared_link)
                           {| world := Office.machine plain; log := [] |})) =
     [Call_IsUserAnAdmin; Call_isdir data_shared;
      Call_symlink data_shared shared_link true] ++ rest)
  /\
  create_link (form symlink data_shared shared_link)
              {| world := Office.machine plain; log := [] |} =
  (Returned tt,
   {| world := Office.machine
                 (Ntfs.add shared_link (Ntfs.SymlinkTo data_shared true)
                           plain);
      log := [Call_IsUserAnAdmin; Call_isdir data_shared;
              Call_symlink data_shared shared_link true;
              Out_status (u "成功创建" ++ symlink ++ u "链接");
              Out_showinfo Text.success_title
                           (Text.link_created ++ shared_link)] |})
  /\
  create_link (form symlink report links)
              {| world := Office.machine plain; log := [] |} =
  (Returned tt,
   {| world := Office.machine plain;
      log := [Call_IsUserAnAdmin; Call_isdir report;
              Call_symlink report links false;
              Out_showerror
                Text.error_title
                (Text.symlink_failed ++
                 u "[WinError 183] Cannot create a file when that file already exists");
              Out_status Text.create_failed] |}).
Proof.
  pose proof (proj1 (symlink_subtype_from_isdir
                       (HostOS := Pc.pc_os) (HostShell := Pc.pc_shell)
                       report report_sl)
                    symlink_args [] (Pc.start (Office.machine unprivileged))
                    eq_refl ltac:(by_run) ltac:(by_run))
    as (Hlog & _ & Hdenied).
  pose proof (proj1 (symlink_subtype_from_isdir
                       (HostOS := Pc.pc_os) (HostShell := Pc.pc_shell)
                       report report_sl)
                    symlink_args [] (Pc.start (Office.machine plain))
                    eq_refl ltac:(by_run) ltac:(by_run))
    as (_ & Hmade & _).
  pose proof (proj2 (symlink_subtype_from_isdir
                       (HostOS := Pc.pc_os) (HostShell := Pc.pc_shell)
                       data_shared shared_link)
                    1%Z {| world := Office.machine plain; log := [] |}
                    ltac:(by_run) ltac:(by_run) ltac:(by_run)
                    ltac:(discriminate))
    as (Hform_log & Hform_made & _).
  pose proof (proj2 (symlink_subtype_from_isdir
                       (HostOS := Pc.pc_os) (HostShell := Pc.pc_shell)
                       report links)
                    1%Z {| world := Office.machine plain; log := [] |}
                    ltac:(by_run) ltac:(by_run) ltac:(by_run)
                    ltac:(discriminate))
    as (_ & _ & Hform_failed).
  split; [split; [by_run | exact Hlog] |].
  split.
  { pose proof (Hmade (Office.machine
                         (Ntfs.add report_sl (Ntfs.SymlinkTo report false)
                                   plain))
                      ltac:(by_run)) as Hrun.
    vm_compute in Hrun. vm_compute. exact Hrun. }
  split.
  { pose proof (Hdenied privilege_not_held (Office.machine unprivileged)
                        ltac:(by_run)) as Hrun.
    vm_compute in Hrun. vm_compute. exact Hrun. }
  split; [split; [by_run | exact Hform_log] |].
  split.
  { pose proof (Hform_made
                  (Office.machine
                     (Ntfs.add shared_link (Ntfs.SymlinkTo data_shared true)
                               plain))
                  ltac:(by_run)) as Hrun.
    vm_compute in Hrun. vm_compute. exact Hrun. }
  pose proof (Hform_failed
                (u "[WinError 183] Cannot create a file when that file already exists")
                (Office.machine plain) ltac:(by_run)) as Hrun.
  vm_compute in Hrun. vm_compute. exact Hrun.
Defined.

Lemma junction_by_report_text_witness :
  Ntfs.lookup (Ntfs.entries with_cloud_folder) cloud =
  Some (Ntfs.Reparse Ntfs.IO_REPARSE_TAG_CLOUD_6 true)
  /\
  (fst (is_link cloud (Ntfs.boot with_cloud_folder)) =
   Returned (Some Junction) <->
   Py.contains (u "重解析点")
     (stdout (Ntfs.fsutil_reparsepoint_query cloud with_cloud_folder)) ||
   Py.contains (u "Reparse")
     (stdout (Ntfs.fsutil_reparsepoint_query cloud with_cloud_folder)) =
   true).
Proof.
  split; [by_run |].
  exact (junction_by_report_text (HostOS := Ntfs.ntfs_os)
           cloud (Ntfs.boot with_cloud_folder)
           (Ntfs.fsutil_reparsepoint_query cloud with_cloud_folder)
           with_cloud_folder
           ltac:(by_run) ltac:(by_run) ltac:(by_run)).
Defined.

Lemma creators_report_failure_uniformly_witness :
  create_symlink report links false (Ntfs.boot unprivileged) =
  (Returned false,
   {| world := unprivileged;
      log := [Call_symlink report links false;
              Out_showerror Text.error_title
                            (Text.symlink_failed ++ privilege_not_held)] |})
  /\
  create_junction data_shared links (Ntfs.boot plain) =
  (Returned false,
   {| world := plain;
      log := [Call_isdir data_shared;
              Call_subprocess_run
                [u "cmd"; u "/c"; mklink_command links data_shared]
                true] |}).
Proof.
  split.
  - exact (proj1 (creators_report_failure_uniformly (HostOS := Ntfs.ntfs_os)
                    report links (Ntfs.boot unprivileged))
                 false privilege_not_held unprivileged ltac:(by_run)).
  - exact (proj2 (creators_report_failure_uniformly (HostOS := Ntfs.ntfs_os)
                    data_shared links (Ntfs.boot plain))
                 (fst (Ntfs.mklink_J links data_shared plain)) plain
                 ltac:(by_run) ltac:(by_run)
                 ltac:(vm_compute; discriminate)).
Defined.

(** *** The string operations on samples *)

Example utf8_literal : u "替代名称" = [26367; 20195; 21517; 31216].
Proof. reflexivity. Qed.

Example split_fields :
  Py.split colon (u "Print Name: C:\Users") =
  [u "Print Name"; u " C"; u "\Users"].
Proof. reflexivity. Qed.

Example strip_blanks : Py.strip (u "  a b  ") = u "a b".
Proof. reflexivity. Qed.

Example mklink_line :
  mklink_command (u "T") (u "S") = u "mklink /J " ++ [34; 84; 34; 32; 34; 83; 34].
Proof. reflexivity. Qed.

End Runs.

(** * Further properties of the creators, the classifier and the front ends *)

Section MoreFacts.

Context {W : Type} `{HostOS : OS W}.

Ltac step :=
  unfold create_hardlink, create_symlink, create_junction, is_link,
    is_link_body, get_link_target, get_link_target_body, is_admin,
    run_as_admin, sys_exit, isfile, isdir, islink, readlink, symlink_call,
    hardlink_call, run, showerror, showinfo, print, status_set, read,
    bind, ret, raise, try_except, query, query_exn, call, emit;
  simpl.

Ltac tidy := repeat rewrite <- app_assoc; simpl.

Ltac cases :=
  repeat (simpl;
    match goal with
    | |- context [os_path_islink ?p ?w] =>
      destruct (os_path_islink p w) eqn:?
    | |- context [os_path_isdir ?p ?w] =>
      destruct (os_path_isdir p w) eqn:?
    | |- context [os_path_isfile ?p ?w] =>
      destruct (os_path_isfile p w) eqn:?
    | |- context [os_readlink ?p ?w] =>
      destruct (os_readlink p w) as [? | ?] eqn:?
    | |- context [subprocess_run ?a ?b ?w] =>
      destruct (subprocess_run a b w) as [[? | ?] ?] eqn:?
    | |- context [os_symlink ?a ?b ?c ?w] =>
      destruct (os_symlink a b c w) as [[[] | ?] ?] eqn:?
    | |- context [CreateHardLinkW ?a ?b ?w] =>
      destruct (CreateHardLinkW a b w) as [[? | ?] ?] eqn:?
    | |- context [IsUserAnAdmin ?w] =>
      destruct (IsUserAnAdmin w) as [? | ?] eqn:?
    | |- context [ShellExecuteW ?a ?b ?c ?d ?w] =>
      destruct (ShellExecuteW a b c d w) as [[? | ?] ?] eqn:?
    | |- context [is_Exception ?e] => destruct (is_Exception e) eqn:?
    | |- context [if ?b then _ else _] => destruct b eqn:?
    end); simpl.

(** X1: no [Exception] leaves a creator.  Whatever the host does,
    [create_hardlink], [create_symlink] and [create_junction] return a
    boolean or let through an exception that is not an [Exception] (a
    keyboard interrupt, an exit request). *)
Theorem creators_never_raise_exception :
  forall (source target : str) (is_directory : bool) (s : state W),
    no_exception_escapes (fst (create_hardlink source target s)) /\
    no_exception_escapes (fst (create_symlink source target is_directory s)) /\
    no_exception_escapes (fst (create_junction source target s)).
Proof.
  intros source target is_directory s.
  repeat match goal with |- _ /\ _ => split end;
    step; cases; auto; destruct is_directory; cases; auto.
Qed.

(** X2: a creator answers [True] only after the host has made the link.
    [create_hardlink] returns [True] only if the source is a file and
    [CreateHardLinkW(target, source)] returned a non-zero value;
    [create_symlink] only if [os.symlink] returned; [create_junction] only if
    the source is a directory and the [mklink] command ended with status 0.
    The host state after the call is the one that call left. *)
Theorem creators_true_only_on_success :
  forall (source target : str) (is_directory : bool) (s : state W),
    (fst (create_hardlink source target s) = Returned true ->
     os_path_isfile source (world s) = true /\
     exists (result : Z) (w' : W),
       CreateHardLinkW target source (world s) = (Returned result, w') /\
       result <> 0%Z /\
       world (snd (create_hardlink source target s)) = w')
    /\
    (fst (create_symlink source target is_directory s) = Returned true ->
     exists w' : W,
       os_symlink source target is_directory (world s) = (Returned tt, w') /\
       world (snd (create_symlink source target is_directory s)) = w')
    /\
    (fst (create_junction source target s) = Returned true ->
     os_path_isdir source (world s) = true /\
     exists (result : CompletedProcess) (w' : W),
       subprocess_run [u "cmd"; u "/c"; mklink_command target source] true
                      (world s) = (Returned result, w') /\
       returncode result = 0%Z /\
       world (snd (create_junction source target s)) = w').
Proof.
  intros source target is_directory s.
  split; [| split].
  - step. cases; intros H; inversion H; subst; clear H.
    split; [reflexivity |]. eexists; eexists. split; [reflexivity |].
    split; [| reflexivity].
    intros Hzero; subst. discriminate.
  - step. destruct is_directory; cases; intros H; inversion H; subst;
      eexists; split; reflexivity.
  - step. cases; intros H; inversion H; subst; clear H.
    split; [reflexivity |]. eexists; eexists. split; [reflexivity |].
    split; [| reflexivity].
    apply Z.eqb_eq; assumption.
Qed.

(** X3: a failed [CreateHardLinkW] is silent.  For a source that is a file,
    the answer of [create_hardlink] is decided by the value the call
    returns, and no dialog is shown: when the call returns 0 the creator
    returns [False] without any message. *)
Theorem create_hardlink_silent_on_zero :
  forall (source target : str) (s : state W) (result : Z) (w' : W),
    os_path_isfile source (world s) = true ->
    CreateHardLinkW target source (world s) = (Returned result, w') ->
    create_hardlink source target s =
    (Returned (negb (result =? 0)%Z),
     {| world := w';
        log := log s ++ [Call_isfile source;
                         Call_CreateHardLinkW target source] |}).
Proof.
  intros source target s result w' Hfile Hcall.
  step. rewrite Hfile; simpl. rewrite Hcall; simpl. tidy. reflexivity.
Qed.

(** X5: the form's handler wants both paths.  With an empty source or an
    empty target it shows one error dialog and returns: no host call is
    made, not even the privilege test. *)
Theorem create_link_needs_both_paths :
  forall (self : LinkShellApp) (s : state W),
    source_path self = [] \/ target_path self = [] ->
    create_link self s =
    (Returned tt,
     {| world := world s;
        log := log s ++ [Out_showerror Text.error_title Text.need_paths] |}).
Proof.
  intros self s Hempty. unfold create_link.
  assert (Hguard : negb (Py.truthy (source_path self)) ||
                   negb (Py.truthy (target_path self)) = true).
  { destruct Hempty as [-> | ->]; simpl; [reflexivity |].
    apply orb_true_r. }
  rewrite Hguard. reflexivity.
Qed.

Lemma elevation_calls_app :
  forall l1 l2, elevation_calls (l1 ++ l2) = elevation_calls l1 ++ elevation_calls l2.
Proof. intros; unfold elevation_calls; apply filter_app. Qed.

Lemma forms_opened_app :
  forall l1 l2, forms_opened (l1 ++ l2) = forms_opened l1 ++ forms_opened l2.
Proof. intros; unfold forms_opened; apply filter_app. Qed.

Ltac count :=
  repeat rewrite elevation_calls_app; repeat rewrite forms_opened_app;
  simpl; repeat rewrite app_nil_r; auto.

(** X6: the headless branch never asks about privilege and never opens the
    form.  For every link type, source, target and host, the run of
    [headless] adds to the log no [IsUserAnAdmin] call, no [ShellExecuteW]
    call and no form; the same holds for the form's handler when the link
    type is [hardlink]. *)
Theorem headless_never_elevates :
  forall (type source target : str) (s : state W),
    (elevation_calls (log (snd (headless type source target s))) =
     elevation_calls (log s) /\
     forms_opened (log (snd (headless type source target s))) =
     forms_opened (log s))
    /\
    elevation_calls
      (log (snd (create_link {| link_type := hardlink;
                                source_path := source;
                                target_path := target |} s))) =
    elevation_calls (log s).
Proof.
  intros type source target s. split.
  - unfold headless.
    destruct (Py.eqb type hardlink); [| destruct (Py.eqb type symlink);
                                        [| destruct (Py.eqb type junction)]];
      step; cases; split; count.
  - unfold create_link. simpl.
    destruct (negb (Py.truthy source) || negb (Py.truthy target)).
    + step; count.
    + step; cases; count.
Qed.

(** X10: for a symbolic link [get_link_target] gives what [os.readlink]
    gives, unchanged: the two calls made are [islink] and [readlink], no
    [fsutil] is run and no prefix is cut.  When [os.readlink] raises, the
    answer is [None]. *)
Theorem get_link_target_of_symlink :
  forall (path : str) (s : state W),
    os_path_islink path (world s) = true ->
    get_link_target path s =
    (match os_readlink path (world s) with
     | Returned target => Returned (Some target)
     | Raised _ => Returned None
     end,
     {| world := world s;
        log := log s ++ [Call_islink path; Call_readlink path] |}).
Proof.
  intros path s Hsym. step. rewrite Hsym; simpl.
  destruct (os_readlink path (world s)); simpl; tidy; reflexivity.
Qed.

(** X11: a path that is neither a symbolic link nor a directory has no
    target.  [get_link_target] answers [None] after the two tests, without
    running [fsutil]: a hard link never has a target to show. *)
Theorem get_link_target_of_file :
  forall (path : str) (s : state W),
    os_path_islink path (world s) = false ->
    os_path_isdir path (world s) = false ->
    get_link_target path s =
    (Returned None,
     {| world := world s;
        log := log s ++ [Call_islink path; Call_isdir path] |}).
Proof.
  intros path s Hsym Hdir. step. rewrite Hsym; simpl. rewrite Hdir; simpl.
  tidy; reflexivity.
Qed.

(** X8: [run_as_admin] comes back only in an elevated process.  When
    [IsUserAnAdmin] returns a non-zero value it returns at once with no
    other call.  When [IsUserAnAdmin] returns 0 or raises, it never returns
    to its caller: it asks for elevation and, whatever [ShellExecuteW]
    returns (also when the request was declined), leaves with
    [SystemExit(0)]; if [ShellExecuteW] raises, that exception leaves. *)
Theorem run_as_admin_returns_only_when_elevated :
  forall (s : state W),
    (forall admin : Z,
        IsUserAnAdmin (world s) = Returned admin ->
        admin <> 0%Z ->
        run_as_admin s =
        (Returned tt,
         {| world := world s; log := log s ++ [Call_IsUserAnAdmin] |}))
    /\
    (IsUserAnAdmin (world s) = Returned 0%Z \/
     (exists e, IsUserAnAdmin (world s) = Raised e) ->
     (exists e, fst (run_as_admin s) = Raised e) /\
     (forall (code : Z) (w' : W),
         ShellExecuteW (u "runas") (sys_executable (world s))
                       (Py.join (u " ") (sys_argv (world s))) 1 (world s) =
         (Returned code, w') ->
         run_as_admin s =
         (Raised (SystemExit 0),
          {| world := w';
             log := log s ++
                    [Call_IsUserAnAdmin;
                     Call_ShellExecuteW (u "runas") (sys_executable (world s))
                                        (Py.join (u " ") (sys_argv (world s)))
                                        1] |}))).
Proof.
  intros s; split.
  - intros admin Hadmin Hnonzero. step; step. rewrite Hadmin; simpl.
    apply Z.eqb_neq in Hnonzero. rewrite Hnonzero. reflexivity.
  - intros Hnot. split.
    + step; step. destruct Hnot as [H0 | [e He]].
      * rewrite H0; simpl. cases; eexists; reflexivity.
      * rewrite He; simpl. cases; eexists; reflexivity.
    + intros code w' Hshell. step; step.
      destruct Hnot as [H0 | [e He]].
      * rewrite H0; simpl. rewrite Hshell; simpl. tidy; reflexivity.
      * rewrite He; simpl. rewrite Hshell; simpl. tidy; reflexivity.
Qed.

(** *** Fields, blanks and prefixes *)

Lemma split_nil : forall sep, Py.split sep [] = [[]].
Proof. reflexivity. Qed.

Lemma split_cons :
  forall sep c s,
    Py.split sep (c :: s) =
    if c =? sep then [] :: Py.split sep s
    else match Py.split sep s with
         | [] => [[c]]
         | h :: t => (c :: h) :: t
         end.
Proof. reflexivity. Qed.

Lemma split_without_sep :
  forall sep b, ~ In sep b -> Py.split sep b = [b].
Proof.
  intros sep b; induction b as [| c b IH]; intros Hno.
  - apply split_nil.
  - rewrite split_cons.
    destruct (N.eqb_spec c sep) as [-> | Hne].
    + exfalso; apply Hno; left; reflexivity.
    + rewrite IH; [reflexivity |].
      intros Hin; apply Hno; right; exact Hin.
Qed.

Lemma split_at_last_sep :
  forall sep a b,
    ~ In sep b ->
    exists h t, Py.split sep (a ++ sep :: b) = h :: t /\
                t <> [] /\ last t [] = b.
Proof.
  intros sep a b Hno; induction a as [| c a IH].
  - exists [], [b]. simpl app. rewrite split_cons, N.eqb_refl.
    rewrite split_without_sep by assumption.
    repeat split; [discriminate].
  - destruct IH as (h & t & Hsplit & Hne & Hlast).
    simpl app. rewrite split_cons, Hsplit.
    destruct (c =? sep).
    + exists [], (h :: t). repeat split; [discriminate |].
      destruct t; [congruence | exact Hlast].
    + exists (c :: h), t. repeat split; assumption.
Qed.

Lemma last_field :
  forall sep a b,
    ~ In sep b -> last (Py.split sep (a ++ sep :: b)) [] = b.
Proof.
  intros sep a b Hno.
  destruct (split_at_last_sep sep a b Hno) as (h & t & -> & Hne & Hlast).
  destruct t; [congruence | exact Hlast].
Qed.

Lemma startswith_nil : forall s, Py.startswith s [] = true.
Proof. intros [| ? ?]; reflexivity. Qed.

Lemma startswith_cons :
  forall a p b s,
    Py.startswith (b :: s) (a :: p) = (a =? b) && Py.startswith s p.
Proof. reflexivity. Qed.

Lemma startswith_app :
  forall p s x, Py.startswith s p = true -> Py.startswith (s ++ x) p = true.
Proof.
  induction p as [| a p IH]; intros s x H.
  - apply startswith_nil.
  - destruct s as [| b s]; [discriminate |].
    simpl app. rewrite startswith_cons in *.
    apply andb_true_iff in H; destruct H as [Hab Hrest].
    rewrite Hab, (IH _ _ Hrest). reflexivity.
Qed.

Lemma startswith_same :
  forall p x, Py.startswith (p ++ x) p = true.
Proof.
  induction p as [| a p IH]; intros x.
  - apply startswith_nil.
  - simpl app. rewrite startswith_cons, N.eqb_refl, IH. reflexivity.
Qed.

Lemma contains_unfold :
  forall sub s,
    Py.contains sub s =
    Py.startswith s sub ||
    match s with [] => false | _ :: s' => Py.contains sub s' end.
Proof. intros sub [| ? ?]; reflexivity. Qed.

Lemma contains_app :
  forall sub s x, Py.contains sub s = true -> Py.contains sub (s ++ x) = true.
Proof.
  intros sub s; induction s as [| c s IH]; intros x H.
  - rewrite contains_unfold in H. rewrite orb_false_r in H.
    rewrite contains_unfold. rewrite (startswith_app _ [] x H). reflexivity.
  - rewrite contains_unfold in H. simpl app. rewrite contains_unfold.
    apply orb_true_iff in H; destruct H as [H | H].
    + pose proof (startswith_app _ (c :: s) x H) as Hs. simpl app in Hs.
      rewrite Hs. reflexivity.
    + rewrite (IH x H). apply orb_true_r.
Qed.

Lemma lstrip_blanks :
  forall pad x, forallb Py.isspace pad = true -> Py.lstrip (pad ++ x) = Py.lstrip x.
Proof.
  induction pad as [| c pad IH]; intros x H; simpl in *.
  - reflexivity.
  - apply andb_true_iff in H; destruct H as [Hc Hpad].
    rewrite Hc. apply IH; exact Hpad.
Qed.

Lemma lstrip_before_mark :
  forall x c z, Py.isspace c = false -> Py.lstrip (x ++ c :: z) = Py.lstrip x ++ c :: z.
Proof.
  induction x as [| d x IH]; intros c z Hc; simpl.
  - rewrite Hc. reflexivity.
  - destruct (Py.isspace d); [apply IH; exact Hc | reflexivity].
Qed.

Lemma rstrip_after_mark :
  forall p c r, Py.isspace c = false ->
                Py.rstrip ((p ++ [c]) ++ r) = (p ++ [c]) ++ Py.rstrip r.
Proof.
  intros p c r Hc. unfold Py.rstrip.
  rewrite rev_app_distr, rev_app_distr. simpl.
  rewrite lstrip_before_mark by exact Hc.
  rewrite rev_app_distr. simpl. rewrite rev_involutive.
  rewrite <- app_assoc. reflexivity.
Qed.

Lemma nt_prefix : u "\??\" = [92; 63; 63] ++ [92].
Proof. reflexivity. Qed.

(** A field made of blanks, the prefix and a rest is stripped to the prefix
    and the rest without its trailing blanks. *)
Lemma strip_padded_target :
  forall pad rest,
    forallb Py.isspace pad = true ->
    Py.strip (pad ++ u "\??\" ++ rest) = u "\??\" ++ Py.rstrip rest.
Proof.
  intros pad rest Hpad. unfold Py.strip.
  rewrite lstrip_blanks by exact Hpad.
  rewrite nt_prefix.
  replace (Py.lstrip (([92; 63; 63] ++ [92]) ++ rest))
    with (([92; 63; 63] ++ [92]) ++ rest) by reflexivity.
  apply rstrip_after_mark. reflexivity.
Qed.

Lemma loop_skips :
  forall (before rest : list str) (s : state W),
    forallb (fun line => negb (names_substitute line)) before = true ->
    substitute_name_loop (before ++ rest) s = substitute_name_loop rest s.
Proof.
  induction before as [| line before IH]; intros rest s H.
  - reflexivity.
  - simpl in H. apply andb_true_iff in H; destruct H as [Hline Hbefore].
    simpl app. rewrite substitute_name_loop_cons.
    unfold names_substitute in Hline. apply negb_true_iff in Hline.
    rewrite Hline. apply IH; exact Hbefore.
Qed.

Lemma colon_free :
  forall l, forallb (fun c => negb (c =? colon)) l = true -> ~ In colon l.
Proof.
  induction l as [| c l IH]; simpl; intros H.
  - intros [].
  - apply andb_true_iff in H; destruct H as [Hc Hl].
    intros [Heq | Hin]; [| exact (IH Hl Hin)].
    subst c. rewrite N.eqb_refl in Hc. discriminate.
Qed.

Lemma blanks_colon_free :
  forall pad, forallb Py.isspace pad = true -> ~ In colon pad.
Proof.
  induction pad as [| c pad IH]; simpl; intros H.
  - intros [].
  - apply andb_true_iff in H; destruct H as [Hc Hpad].
    intros [Heq | Hin]; [| exact (IH Hpad Hin)].
    subst c. vm_compute in Hc. discriminate.
Qed.

(** X13: when the prefix is seen, it is cut.  If the first line of
    [fsutil]'s report that names the substitute has, after its last colon,
    blanks, the prefix [\??\] and a rest with no colon (a target written
    with a volume name), [get_link_target] returns the rest, without the
    prefix and without trailing blanks; the lines after it do not count. *)
Theorem get_link_target_cuts_prefix :
  forall (path : str) (s : state W) (report : CompletedProcess) (w' : W)
         (before after : list str) (label pad rest : str),
    os_path_islink path (world s) = false ->
    os_path_isdir path (world s) = true ->
    subprocess_run [u "fsutil"; u "reparsepoint"; u "query"; path] false
                   (world s) = (Returned report, w') ->
    Py.split newline (stdout report) =
    before ++ (label ++ colon :: pad ++ u "\??\" ++ rest) :: after ->
    forallb (fun line => negb (names_substitute line)) before = true ->
    names_substitute label = true ->
    forallb Py.isspace pad = true ->
    forallb (fun c => negb (c =? colon)) rest = true ->
    fst (get_link_target path s) = Returned (Some (Py.rstrip rest)).
Proof.
  intros path s report w' before after label pad rest
         Hsym Hdir Hrun Hlines Hbefore Hlabel Hpad Hrest.
  assert (Hvalue : ~ In colon (pad ++ u "\??\" ++ rest)).
  { intros Hin. apply in_app_or in Hin. destruct Hin as [Hin | Hin].
    - exact (blanks_colon_free pad Hpad Hin).
    - apply in_app_or in Hin. destruct Hin as [Hin | Hin].
      + vm_compute in Hin. intuition discriminate.
      + exact (colon_free rest Hrest Hin). }
  assert (Hline : names_substitute
                    (label ++ colon :: pad ++ u "\??\" ++ rest) = true).
  { unfold names_substitute in *.
    apply orb_true_iff in Hlabel. apply orb_true_iff.
    destruct Hlabel as [H | H]; [left | right]; apply contains_app; exact H. }
  step. rewrite Hsym; simpl. rewrite Hdir; simpl. rewrite Hrun; simpl.
  rewrite Hlines. rewrite loop_skips by exact Hbefore.
  rewrite substitute_name_loop_cons.
  unfold names_substitute in Hline. rewrite Hline.
  unfold index_last.
  pose proof (split_nonempty colon
                (label ++ colon :: pad ++ u "\??\" ++ rest)) as Hne.
  pose proof (last_field colon label _ Hvalue) as Hlast.
  destruct (Py.split colon (label ++ colon :: pad ++ u "\??\" ++ rest))
    as [| h t] eqn:Hsplit; [congruence |].
  unfold bind, ret. rewrite Hlast.
  rewrite strip_padded_target by exact Hpad.
  rewrite startswith_same.
  rewrite nt_prefix. reflexivity.
Qed.

(** X14: a report that does not name a substitute gives no target.  For a
    directory that is not a symbolic link, when no line of [fsutil]'s
    report contains "Substitute Name" or "替代名称" (as for a directory that
    is not a reparse point), [get_link_target] returns [None]. *)
Theorem get_link_target_without_name_line :
  forall (path : str) (s : state W) (report : CompletedProcess) (w' : W),
    os_path_islink path (world s) = false ->
    os_path_isdir path (world s) = true ->
    subprocess_run [u "fsutil"; u "reparsepoint"; u "query"; path] false
                   (world s) = (Returned report, w') ->
    forallb (fun line => negb (names_substitute line))
            (Py.split newline (stdout report)) = true ->
    get_link_target path s =
    (Returned None,
     {| world := w';
        log := log s ++
               [Call_islink path; Call_isdir path;
                Call_subprocess_run
                  [u "fsutil"; u "reparsepoint"; u "query"; path] false] |}).
Proof.
  intros path s report w' Hsym Hdir Hrun Hnone.
  step. rewrite Hsym; simpl. rewrite Hdir; simpl. rewrite Hrun; simpl.
  rewrite <- (app_nil_r (Py.split newline (stdout report))).
  rewrite loop_skips by exact Hnone.
  simpl. unfold ret. simpl. tidy. reflexivity.
Qed.

Lemma join_cons :
  forall (sep p : str) (l : list str),
    l <> [] -> Py.join sep (p :: l) = p ++ sep ++ Py.join sep l.
Proof. intros sep p [| q l] H; [congruence | reflexivity]. Qed.

Lemma join_last_pair :
  forall (sep : str) (pre : list str) (a b : str),
    Py.join sep (pre ++ [a ++ sep ++ b]) = Py.join sep (pre ++ [a; b]).
Proof.
  intros sep pre a b; induction pre as [| p pre IH].
  - reflexivity.
  - simpl app.
    rewrite !join_cons by (intros H; apply app_eq_nil in H;
                           destruct H; discriminate).
    rewrite IH. reflexivity.
Qed.

(** X9: the elevation request does not keep the arguments apart.
    [run_as_admin] passes the arguments joined by single spaces, unquoted:
    a process whose last argument is [a b] (with a space) and a process
    whose last two arguments are [a] and [b] make the same request. *)
Theorem relaunch_request_joins_arguments :
  forall (s1 s2 : state W) (pre : list str) (a b : str),
    log s1 = log s2 ->
    IsUserAnAdmin (world s1) = Returned 0%Z ->
    IsUserAnAdmin (world s2) = Returned 0%Z ->
    sys_executable (world s1) = sys_executable (world s2) ->
    sys_argv (world s1) = pre ++ [a ++ u " " ++ b] ->
    sys_argv (world s2) = pre ++ [a; b] ->
    log (snd (run_as_admin s1)) = log (snd (run_as_admin s2)) /\
    log (snd (run_as_admin s1)) =
    log s1 ++ [Call_IsUserAnAdmin;
               Call_ShellExecuteW (u "runas") (sys_executable (world s1))
                                  (Py.join (u " ") (pre ++ [a; b])) 1].
Proof.
  intros s1 s2 pre a b Hlog Hadmin1 Hadmin2 Hexe Hargv1 Hargv2.
  assert (H1 : log (snd (run_as_admin s1)) =
               log s1 ++ [Call_IsUserAnAdmin;
                          Call_ShellExecuteW (u "runas")
                            (sys_executable (world s1))
                            (Py.join (u " ") (pre ++ [a; b])) 1]).
  { step; step. rewrite Hadmin1; simpl. rewrite Hargv1, join_last_pair.
    cases; tidy; reflexivity. }
  split; [| exact H1].
  rewrite H1. step; step. rewrite Hadmin2; simpl.
  rewrite Hargv2, <- Hexe, <- Hlog.
  cases; tidy; reflexivity.
Qed.

End MoreFacts.

(** ** The further properties at concrete inputs *)

Module MoreRuns.

Import Scenario.

Ltac by_run := vm_compute; reflexivity.

Lemma creators_true_only_on_success_witness :
  (Ntfs.isfile report plain = true /\
   exists (result : Z) (w' : Ntfs.host),
     Ntfs.hard_link report_hl report plain = (Returned result, w') /\
     result <> 0%Z /\
     world (snd (create_hardlink report report_hl (Ntfs.boot plain))) = w')
  /\
  (exists w' : Ntfs.host,
      Ntfs.symlink report report_sl false plain = (Returned tt, w') /\
      world (snd (create_symlink report report_sl false (Ntfs.boot plain))) =
      w')
  /\
  (Ntfs.isdir data_shared plain = true /\
   exists (result : CompletedProcess) (w' : Ntfs.host),
     Ntfs.run [u "cmd"; u "/c"; mklink_command shared_link data_shared] true
              plain = (Returned result, w') /\
     returncode result = 0%Z /\
     world (snd (create_junction data_shared shared_link (Ntfs.boot plain))) =
     w').
Proof.
  split; [| split].
  - exact (proj1 (creators_true_only_on_success (HostOS := Ntfs.ntfs_os)
                    report report_hl false (Ntfs.boot plain))
                 ltac:(by_run)).
  - exact (proj1 (proj2 (creators_true_only_on_success
                           (HostOS := Ntfs.ntfs_os)
                           report report_sl false (Ntfs.boot plain)))
                 ltac:(by_run)).
  - exact (proj2 (proj2 (creators_true_only_on_success
                           (HostOS := Ntfs.ntfs_os)
                           data_shared shared_link false (Ntfs.boot plain)))
                 ltac:(by_run)).
Defined.

Lemma create_hardlink_silent_on_zero_witness :
  Ntfs.hard_link links report plain = (Returned 0%Z, plain)
  /\
  create_hardlink report links (Ntfs.boot plain) =
  (Returned false,
   {| world := plain;
      log := [Call_isfile report; Call_CreateHardLinkW links report] |}).
Proof.
  split; [by_run |].
  exact (create_hardlink_silent_on_zero (HostOS := Ntfs.ntfs_os)
           report links (Ntfs.boot plain) 0%Z plain
           ltac:(by_run) ltac:(by_run)).
Defined.

Lemma create_link_needs_both_paths_witness :
  create_link (form symlink [] report_sl) (Ntfs.boot unprivileged) =
  (Returned tt,
   {| world := unprivileged;
      log := [Out_showerror Text.error_title Text.need_paths] |}).
Proof.
  exact (create_link_needs_both_paths (HostOS := Ntfs.ntfs_os)
           (form symlink [] report_sl) (Ntfs.boot unprivileged)
           (or_introl eq_refl)).
Defined.

Lemma create_link_relaunches_witness :
  create_link (form junction data_shared shared_link) (Ntfs.boot unprivileged) =
  (Raised (SystemExit 0),
   {| world := unprivileged;
      log := [Call_IsUserAnAdmin; Call_IsUserAnAdmin;
              Call_ShellExecuteW (u "runas") (Ntfs.executable unprivileged)
                                 (Py.join (u " ") symlink_argv) 1] |}).
Proof.
  exact (create_link_relaunches (HostOS := Ntfs.ntfs_os)
           (form junction data_shared shared_link) (Ntfs.boot unprivileged)
           42%Z unprivileged
           ltac:(by_run) ltac:(by_run) (or_intror eq_refl)
           ltac:(by_run) ltac:(by_run)).
Defined.

Lemma get_link_target_of_symlink_witness :
  Ntfs.islink report_sl linked = true
  /\
  get_link_target report_sl (Ntfs.boot linked) =
  (Returned (Some report),
   {| world := linked;
      log := [Call_islink report_sl; Call_readlink report_sl] |}).
Proof.
  split; [by_run |].
  exact (get_link_target_of_symlink (HostOS := Ntfs.ntfs_os)
           report_sl (Ntfs.boot linked) ltac:(by_run)).
Defined.

Lemma get_link_target_of_file_witness :
  fst (is_link report_hl (Ntfs.boot linked)) = Returned (Some HardLink)
  /\
  get_link_target report_hl (Ntfs.boot linked) =
  (Returned None,
   {| world := linked;
      log := [Call_islink report_hl; Call_isdir report_hl] |}).
Proof.
  split; [by_run |].
  exact (get_link_target_of_file (HostOS := Ntfs.ntfs_os)
           report_hl (Ntfs.boot linked) ltac:(by_run) ltac:(by_run)).
Defined.

Lemma resolved_target_has_no_colon_witness :
  fst (get_link_target shared_link (Ntfs.boot linked)) =
  Returned (Some (u "\data\shared"))
  /\
  ~ In colon (u "\data\shared").
Proof.
  split; [by_run |].
  exact (resolved_target_has_no_colon (HostOS := Ntfs.ntfs_os)
           shared_link (Ntfs.boot linked) (u "\data\shared")
           ltac:(by_run) ltac:(by_run)).
Defined.

Lemma hardlink_threshold_witness :
  (fst (is_link report (Ntfs.boot linked)) = Returned (Some HardLink) <->
   (2 < List.length
          (Py.split newline
             (Py.strip (stdout (Ntfs.fsutil_hardlink_list report linked)))))%nat)
  /\
  List.length
    (Py.split newline
       (Py.strip (stdout (Ntfs.fsutil_hardlink_list report linked)))) = 3%nat.
Proof.
  split; [| by_run].
  exact (hardlink_threshold (HostOS := Ntfs.ntfs_os)
           report (Ntfs.boot linked)
           (Ntfs.fsutil_hardlink_list report linked) linked
           ltac:(by_run) ltac:(by_run) ltac:(by_run) ltac:(by_run)).
Defined.

Lemma get_link_target_cuts_prefix_witness :
  In (u "Substitute Name:       \??\Volume{4c1b02c1-d990-11dc-99ae-806e6f6e6963}\")
     (Py.split newline
        (stdout (Ntfs.fsutil_reparsepoint_query
                   Cases.mounted Cases.with_mounted_volume)))
  /\
  fst (get_link_target Cases.mounted (Ntfs.boot Cases.with_mounted_volume)) =
  Returned (Some Cases.volume_root).
Proof.
  split; [vm_compute; tauto |].
  exact (get_link_target_cuts_prefix (HostOS := Ntfs.ntfs_os)
           Cases.mounted (Ntfs.boot Cases.with_mounted_volume)
           (Ntfs.fsutil_reparsepoint_query
              Cases.mounted Cases.with_mounted_volume)
           Cases.with_mounted_volume
           [u "Reparse Tag Value : 0xa0000003"; u "Tag value: Microsoft";
            u "Tag value: Name Surrogate"; u "Tag value: Mount Point"]
           [u "Print Name:            " ++ Cases.volume_root; []]
           (u "Substitute Name") (u "       ") Cases.volume_root
           ltac:(by_run) ltac:(by_run) ltac:(by_run) ltac:(by_run)
           ltac:(by_run) ltac:(by_run) ltac:(by_run) ltac:(by_run)).
Defined.

Lemma get_link_target_without_name_line_witness :
  stdout (Ntfs.fsutil_reparsepoint_query data_shared plain) =
  Ntfs.lines [u "Error:  The file or directory is not a reparse point."]
  /\
  get_link_target data_shared (Ntfs.boot plain) =
  (Returned None,
   {| world := plain;
      log := [Call_islink data_shared; Call_isdir data_shared;
              Call_subprocess_run
                [u "fsutil"; u "reparsepoint"; u "query"; data_shared]
                false] |}).
Proof.
  split; [by_run |].
  exact (get_link_target_without_name_line (HostOS := Ntfs.ntfs_os)
           data_shared (Ntfs.boot plain)
           (Ntfs.fsutil_reparsepoint_query data_shared plain) plain
           ltac:(by_run) ltac:(by_run) ltac:(by_run) ltac:(by_run)).
Defined.

Lemma run_as_admin_returns_only_when_elevated_witness :
  run_as_admin (Ntfs.boot plain) =
  (Returned tt, {| world := plain; log := [Call_IsUserAnAdmin] |})
  /\
  (exists e, fst (run_as_admin (Ntfs.boot unprivileged)) = Raised e)
  /\
  run_as_admin (Ntfs.boot unprivileged) =
  (Raised (SystemExit 0),
   {| world := unprivileged;
      log := [Call_IsUserAnAdmin;
              Call_ShellExecuteW (u "runas") (Ntfs.executable unprivileged)
                                 (Py.join (u " ") symlink_argv) 1] |}).
Proof.
  split; [| split].
  - exact (proj1 (run_as_admin_returns_only_when_elevated
                    (HostOS := Ntfs.ntfs_os) (Ntfs.boot plain))
                 1%Z ltac:(by_run) ltac:(discriminate)).
  - exact (proj1 (proj2 (run_as_admin_returns_only_when_elevated
                           (HostOS := Ntfs.ntfs_os) (Ntfs.boot unprivileged))
                        (or_introl eq_refl))).
  - exact (proj2 (proj2 (run_as_admin_returns_only_when_elevated
                           (HostOS := Ntfs.ntfs_os) (Ntfs.boot unprivileged))
                        (or_introl eq_refl))
                 42%Z unprivileged ltac:(by_run)).
Defined.

Lemma relaunch_request_joins_arguments_witness :
  Cases.spaced_argv <> Cases.parted_argv
  /\
  log (snd (run_as_admin (Ntfs.boot (Ntfs.volume false Cases.spaced_argv)))) =
  log (snd (run_as_admin (Ntfs.boot (Ntfs.volume false Cases.parted_argv)))).
Proof.
  split; [intros H; vm_compute in H; discriminate |].
  exact (proj1 (relaunch_request_joins_arguments (HostOS := Ntfs.ntfs_os)
                  (Ntfs.boot (Ntfs.volume false Cases.spaced_argv))
                  (Ntfs.boot (Ntfs.volume false Cases.parted_argv))
                  [u "link_shell.py"; u "--source"] (u "C:\My") (u "Documents")
                  eq_refl ltac:(by_run) ltac:(by_run) eq_refl
                  eq_refl eq_refl)).
Defined.

End MoreRuns.

(** * The inspection tab and the settings tab *)

Section FormFacts.

Context {W : Type} `{HostOS : OS W} `{HostShell : Shell W}.

Ltac step :=
  unfold check_link, check_integration, integrate_to_context_menu,
    remove_from_context_menu, apply_settings, write_entry,
    OpenKey, CreateKey, SetValueEx, CloseKey, DeleteKey, registry,
    path_exists, text_delete_all, text_insert_end,
    create_hardlink, create_symlink, create_junction, is_link,
    is_link_body, get_link_target, get_link_target_body, is_admin,
    run_as_admin, sys_exit, isfile, isdir, islink, readlink, symlink_call,
    hardlink_call, run, showerror, showinfo, print, status_set, read,
    bind, ret, raise, try_except, query, query_exn, call, emit;
  simpl.

Ltac tidy := repeat rewrite <- app_assoc; simpl.

Ltac cases :=
  repeat (simpl;
    match goal with
    | |- context [os_path_islink ?p ?w] =>
      destruct (os_path_islink p w) eqn:?
    | |- context [os_path_isdir ?p ?w] =>
      destruct (os_path_isdir p w) eqn:?
    | |- context [os_path_isfile ?p ?w] =>
      destruct (os_path_isfile p w) eqn:?
    | |- context [os_readlink ?p ?w] =>
      destruct (os_readlink p w) as [? | ?] eqn:?
    | |- context [subprocess_run ?a ?b ?w] =>
      destruct (subprocess_run a b w) as [[? | ?] ?] eqn:?
    | |- context [IsUserAnAdmin ?w] =>
      destruct (IsUserAnAdmin w) as [? | ?] eqn:?
    | |- context [ShellExecuteW ?a ?b ?c ?d ?w] =>
      destruct (ShellExecuteW a b c d w) as [[? | ?] ?] eqn:?
    | |- context [winreg_OpenKey ?k ?w] =>
      destruct (winreg_OpenKey k w) as [? | ?] eqn:?
    | |- context [winreg_CreateKey ?k ?w] =>
      destruct (winreg_CreateKey k w) as [[? | ?] ?] eqn:?
    | |- context [winreg_SetValueEx ?k ?n ?v ?w] =>
      destruct (winreg_SetValueEx k n v w) as [[[] | ?] ?] eqn:?
    | |- context [winreg_CloseKey ?k ?w] =>
      destruct (winreg_CloseKey k w) as [[[] | ?] ?] eqn:?
    | |- context [winreg_DeleteKey ?k ?w] =>
      destruct (winreg_DeleteKey k w) as [[[] | ?] ?] eqn:?
    | |- context [is_Exception ?e] => destruct (is_Exception e) eqn:?
    | |- context [if ?b then _ else _] => destruct b eqn:?
    end); simpl.

Lemma host_of_form_state :
  forall (d : desk W) (s : state W), host_state (form_state d s) = s.
Proof. intros d [w l]; reflexivity. Qed.

(** The loop over the report reads no state and leaves it as it is. *)
Lemma loop_leaves_state :
  forall (V : Type) (lines : list str) (s : state W) (v : state V),
    substitute_name_loop lines v = (fst (substitute_name_loop lines s), v).
Proof.
  intros V lines s v; induction lines as [| line rest IH].
  - reflexivity.
  - rewrite !substitute_name_loop_cons.
    destruct (Py.contains (u "Substitute Name") line ||
              Py.contains (u "替代名称") line); [| exact IH].
    unfold index_last.
    destruct (Py.split colon line); reflexivity.
Qed.

(** The classifier and the resolver see the host only: on the form they
    run as on the host, and leave the text widget and the registry record as
    they were. *)
Lemma is_link_on_form :
  forall (path : str) (s : state (desk W)),
    is_link path s =
    (fst (is_link path (host_state s)),
     form_state (world s) (snd (is_link path (host_state s)))).
Proof.
  intros path [[w text calls] l]. unfold host_state, form_state, put_host.
  step. cases; reflexivity.
Qed.

Lemma get_link_target_on_form :
  forall (path : str) (s : state (desk W)),
    get_link_target path s =
    (fst (get_link_target path (host_state s)),
     form_state (world s) (snd (get_link_target path (host_state s)))).
Proof.
  intros path [[w text calls] l]. unfold host_state, form_state, put_host.
  step. cases; try reflexivity.
  match goal with
  | |- context [substitute_name_loop ?lines ?v] =>
    match type of v with
    | state W =>
      match goal with
      | |- context [substitute_name_loop lines ?d] =>
        match type of d with
        | state (desk W) =>
          pose proof (loop_leaves_state W lines v v) as Hbase;
          rewrite (loop_leaves_state (desk W) lines v d);
          destruct (substitute_name_loop lines v) as [r sr]
        end
      end
    end
  end.
  simpl in Hbase. injection Hbase as Hsr. subst sr.
  destruct r as [[target |] | e]; reflexivity.
Qed.

(** The values [is_link] returns are the three names of the kinds. *)
Lemma is_link_names :
  forall (path : str) (s : state W) (kind : str),
    fst (is_link path s) = Returned (Some kind) ->
    kind = SymLink \/ kind = Junction \/ kind = HardLink.
Proof.
  intros path s kind. step.
  cases; intros H; inversion H; subst; auto.
Qed.

(** X16: the inspection refuses an empty path and a path the host does not
    find.  With an empty path, and with a path for which [os.path.exists]
    is false (a symbolic link whose target is gone is such a path), it shows
    one error dialog and returns: the path is not classified, and the text
    widget keeps what it showed. *)
Theorem check_link_rejects :
  forall (s : state (desk W)),
    check_link [] s =
    (Returned tt,
     {| world := world s;
        log := log s ++
               [Out_showerror Text.error_title Label.need_check_path] |})
    /\
    (forall path : str,
        path <> [] ->
        os_path_exists path (host (world s)) = false ->
        check_link path s =
        (Returned tt,
         {| world := world s;
            log := log s ++
                   [Out_showerror Text.error_title Label.path_missing] |})).
Proof.
  intros s; split.
  - reflexivity.
  - intros path Hpath Hmissing. unfold check_link.
    destruct path as [| c path]; [congruence |].
    replace (negb (Py.truthy (c :: path))) with false by reflexivity.
    unfold bind, path_exists, read. rewrite Hmissing.
    reflexivity.
Qed.

(** X17: the inspection never raises.  For every path, host and state of
    the form, [check_link] returns. *)
Theorem check_link_returns :
  forall (path : str) (s : state (desk W)),
    fst (check_link path s) = Returned tt.
Proof.
  intros path s. unfold check_link.
  destruct (negb (Py.truthy path)); [reflexivity |].
  unfold bind at 1. unfold path_exists at 1, read at 1.
  destruct (negb (os_path_exists path (host (world s)))); [reflexivity |].
  unfold bind at 1. unfold text_delete_all at 1.
  unfold bind at 1. rewrite is_link_on_form.
  destruct (fst (is_link path _)) as [kind | e] eqn:Hkind.
  2:{ exfalso. revert Hkind. unfold is_link, try_except.
      destruct (is_link_body path _) as [[k | e'] s']; discriminate. }
  destruct (given kind) as [name |]; [| reflexivity].
  unfold bind at 1. rewrite get_link_target_on_form.
  destruct (fst (get_link_target path _)) as [target | e] eqn:Htarget.
  2:{ exfalso. revert Htarget. unfold get_link_target, try_except.
      destruct (get_link_target_body path _) as [[k | e'] s']; discriminate. }
  unfold bind, text_insert_end, path_exists, read, ret.
  destruct (given target); reflexivity.
Qed.

(** X18: what the inspection shows.  For a path the host finds, the text
    widget is emptied first, so what it shows afterwards does not depend on
    what it showed before: the line "not a link" when [is_link] on the host
    answers [None]; the path and the kind when it answers a kind and
    [get_link_target] answers [None]; and, when a target is found, also the
    target and whether [os.path.exists] holds for it. *)
Theorem check_link_shows :
  forall (path : str) (s : state (desk W)),
    path <> [] ->
    os_path_exists path (host (world s)) = true ->
    (fst (is_link path (host_state s)) = Returned None ->
     result_text (world (snd (check_link path s))) =
     Label.not_link_head ++ path ++ Label.not_link_tail)
    /\
    (forall kind : str,
        fst (is_link path (host_state s)) = Returned (Some kind) ->
        fst (get_link_target path (snd (is_link path (host_state s)))) =
        Returned None ->
        result_text (world (snd (check_link path s))) =
        (Label.path_line ++ path ++ [newline]) ++
        (Label.kind_line ++ kind ++ [newline]))
    /\
    (forall kind target : str,
        fst (is_link path (host_state s)) = Returned (Some kind) ->
        fst (get_link_target path (snd (is_link path (host_state s)))) =
        Returned (Some target) ->
        target <> [] ->
        result_text (world (snd (check_link path s))) =
        (Label.path_line ++ path ++ [newline]) ++
        (Label.kind_line ++ kind ++ [newline]) ++
        (Label.target_line ++ target ++ [newline]) ++
        (Label.target_exists_line ++
         (if os_path_exists target
               (world (snd (get_link_target path
                              (snd (is_link path (host_state s))))))
          then Label.yes else Label.no) ++ [newline])).
Proof.
  intros path s Hpath Hpresent.
  assert (Hrun :
    check_link path s =
    (let cleared := {| world := {| host := host (world s);
                                   result_text := [];
                                   winreg_log := winreg_log (world s) |};
                       log := log s |} in
     bind (is_link path)
          (fun link_type =>
             match given link_type with
             | Some kind =>
               target <- get_link_target path ;;
               text_insert_end (Label.path_line ++ path ++ [newline]) ;;
               text_insert_end (Label.kind_line ++ kind ++ [newline]) ;;
               match given target with
               | Some found =>
                 text_insert_end (Label.target_line ++ found ++ [newline]) ;;
                 target_present <- path_exists found ;;
                 text_insert_end
                   (Label.target_exists_line ++
                    (if target_present then Label.yes else Label.no) ++
                    [newline])
               | None => ret tt
               end
             | None =>
               text_insert_end
                 (Label.not_link_head ++ path ++ Label.not_link_tail)
             end) cleared)).
  { unfold check_link. destruct path as [| c path]; [congruence |].
    replace (negb (Py.truthy (c :: path))) with false by reflexivity.
    unfold bind at 1. unfold path_exists at 1, read at 1.
    rewrite Hpresent. simpl negb. cbv iota.
    unfold bind at 1. unfold text_delete_all at 1. reflexivity. }
  assert (Hsame :
    host_state {| world := {| host := host (world s);
                              result_text := [];
                              winreg_log := winreg_log (world s) |};
                  log := log s |} = host_state s) by reflexivity.
  split; [| split].
  - intros Hnone. rewrite Hrun. cbv zeta.
    unfold bind at 1. rewrite is_link_on_form, Hsame, Hnone.
    reflexivity.
  - intros kind Hkind Htarget. rewrite Hrun. cbv zeta.
    unfold bind at 1. rewrite is_link_on_form, Hsame, Hkind.
    assert (Hname : given (Some kind) = Some kind).
    { destruct (is_link_names path (host_state s) kind Hkind)
        as [-> | [-> | ->]]; reflexivity. }
    rewrite Hname.
    unfold bind at 1. rewrite get_link_target_on_form.
    rewrite host_of_form_state. rewrite Htarget.
    reflexivity.
  - intros kind target Hkind Htarget Hfound. rewrite Hrun. cbv zeta.
    unfold bind at 1. rewrite is_link_on_form, Hsame, Hkind.
    assert (Hname : given (Some kind) = Some kind).
    { destruct (is_link_names path (host_state s) kind Hkind)
        as [-> | [-> | ->]]; reflexivity. }
    rewrite Hname.
    unfold bind at 1. rewrite get_link_target_on_form.
    rewrite host_of_form_state. rewrite Htarget.
    assert (Hgiven : given (Some target) = Some target).
    { destruct target; [congruence | reflexivity]. }
    rewrite Hgiven.
    unfold bind, text_insert_end, path_exists, read, form_state, put_host.
    simpl. repeat (rewrite <- app_assoc; simpl). reflexivity.
Qed.

(** X19: the test for the menu entry never raises and looks at the file
    root only.  [check_integration] always returns a boolean; it returns
    [True] only if the key of the file root could be opened; and the only
    registry calls it makes are the opening of that key and the closing of
    what was opened: the key of the directory root is never consulted. *)
Theorem check_integration_file_root_only :
  forall (s : state (desk W)),
    (exists present, fst (check_integration s) = Returned present)
    /\
    (fst (check_integration s) = Returned true ->
     exists key, winreg_OpenKey file_key (host (world s)) = Returned key)
    /\
    (exists closing,
        winreg_log (world (snd (check_integration s))) =
        winreg_log (world s) ++ Reg_OpenKey file_key :: closing /\
        (closing = [] \/ exists key, closing = [Reg_CloseKey key])).
Proof.
  intros s. split; [| split].
  - step. cases; eexists; reflexivity.
  - step. cases; intros H; inversion H; eexists; reflexivity.
  - step. cases; eexists; (split; [tidy; reflexivity |]); eauto.
Qed.

(** X20: without elevation the settings tab leaves the registry alone.  In a
    process that is not elevated, [apply_settings] (for either position of
    the box, so both [integrate_to_context_menu] and
    [remove_from_context_menu]) makes no registry call and shows no dialog;
    it asks for elevation and does not return: once [ShellExecuteW] has
    returned, it leaves with [SystemExit(0)]. *)
Theorem settings_need_elevation :
  forall (integrate : bool) (s : state (desk W)),
    IsUserAnAdmin (host (world s)) = Returned 0%Z ->
    winreg_log (world (snd (apply_settings integrate s))) =
    winreg_log (world s)
    /\
    (exists e, fst (apply_settings integrate s) = Raised e)
    /\
    (forall (code : Z) (w' : W),
        ShellExecuteW (u "runas") (sys_executable (host (world s)))
                      (Py.join (u " ") (sys_argv (host (world s)))) 1
                      (host (world s)) = (Returned code, w') ->
        fst (apply_settings integrate s) = Raised (SystemExit 0) /\
        log (snd (apply_settings integrate s)) =
        log s ++
        [Call_IsUserAnAdmin; Call_IsUserAnAdmin;
         Call_ShellExecuteW (u "runas") (sys_executable (host (world s)))
                            (Py.join (u " ") (sys_argv (host (world s))))
                            1]).
Proof.
  intros integrate s Hadmin.
  split; [| split].
  - destruct integrate; step; step; rewrite Hadmin; simpl;
      step; rewrite ?Hadmin; simpl; cases; reflexivity.
  - destruct integrate; step; step; rewrite Hadmin; simpl;
      step; rewrite ?Hadmin; simpl; cases; eexists; reflexivity.
  - intros code w' Hshell.
    destruct integrate; step; step; rewrite Hadmin; simpl;
      step; rewrite ?Hadmin; simpl; rewrite Hshell; simpl; tidy;
      split; reflexivity.
Qed.

(** X21: the removal deletes the four keys in a fixed order and stops at
    the first failure.  Whatever the host does, the registry calls of
    [remove_from_context_menu] are a beginning of the plan: the command key
    of the file root, the key of the file root, the command key of the
    directory root, the key of the directory root (each subkey before its
    parent).  The success dialog is shown only after all four calls. *)
Theorem removal_follows_plan :
  forall (s : state (desk W)),
    (exists n,
        winreg_log (world (snd (remove_from_context_menu s))) =
        winreg_log (world s) ++ firstn n removal_plan)
    /\
    (exists shown,
        log (snd (remove_from_context_menu s)) = log s ++ shown /\
        (In (Out_showinfo Text.success_title Label.removed) shown ->
         winreg_log (world (snd (remove_from_context_menu s))) =
         winreg_log (world s) ++ removal_plan)).
Proof.
  intros s. split.
  - step; step. cases;
      first [ exists 0%nat; simpl; rewrite app_nil_r; reflexivity
            | exists 1%nat; tidy; reflexivity
            | exists 2%nat; tidy; reflexivity
            | exists 3%nat; tidy; reflexivity
            | exists 4%nat; tidy; reflexivity ].
  - step; step. cases; eexists; (split; [tidy; reflexivity |]);
      simpl; intros Hin;
      repeat match goal with
             | H : _ \/ _ |- _ => destruct H
             | H : False |- _ => destruct H
             | H : _ = Out_showinfo _ _ |- _ => try discriminate H; clear H
             end;
      tidy; reflexivity.
Qed.

(** X22: the integration only writes the entry.  Whatever the host does,
    every registry call of [integrate_to_context_menu] creates one of the
    four keys of the entry, sets a value or closes a key: it never deletes
    and never opens another key. *)
Theorem integration_only_writes :
  forall (s : state (desk W)),
    exists calls,
      winreg_log (world (snd (integrate_to_context_menu s))) =
      winreg_log (world s) ++ calls /\
      forallb writes_entry calls = true.
Proof.
  intros s. step; step. cases;
    first [ exists []; split; [rewrite app_nil_r; reflexivity | reflexivity]
          | eexists; split; [tidy; reflexivity | vm_compute; reflexivity] ].
Qed.

(** X23: the removal is not undone when it fails half way.  In an elevated
    process, if the two keys of the file root are deleted and the deletion
    of the command key of the directory root raises an error, then
    [remove_from_context_menu] shows that error and returns; the fourth key
    is not tried, and the host is left as the two deletions made it. *)
Theorem removal_stops_half_way :
  forall (s : state (desk W)) (admin : Z) (w1 w2 w3 : W) (msg : str),
    IsUserAnAdmin (host (world s)) = Returned admin ->
    admin <> 0%Z ->
    winreg_DeleteKey file_command_key (host (world s)) = (Returned tt, w1) ->
    winreg_DeleteKey file_key w1 = (Returned tt, w2) ->
    winreg_DeleteKey directory_command_key w2 = (Raised (Exception msg), w3) ->
    remove_from_context_menu s =
    (Returned tt,
     {| world := {| host := w3;
                    result_text := result_text (world s);
                    winreg_log := winreg_log (world s) ++
                                  firstn 3 removal_plan |};
        log := log s ++
               [Call_IsUserAnAdmin;
                Out_showerror Text.error_title
                              (Label.remove_failed ++ msg)] |}).
Proof.
  intros s admin w1 w2 w3 msg Hadmin Hnonzero Hd1 Hd2 Hd3.
  apply Z.eqb_neq in Hnonzero.
  step; step. rewrite Hadmin; simpl. rewrite Hnonzero; simpl.
  rewrite Hd1; simpl. rewrite Hd2; simpl. rewrite Hd3; simpl.
  tidy. reflexivity.
Qed.

End FormFacts.

(** ** The inspection and the settings at concrete inputs *)

Module FormRuns.

Import Scenario.

Ltac by_run := vm_compute; reflexivity.

Lemma check_link_rejects_witness :
  Ntfs.islink dangling Office.with_dangling = true
  /\
  check_link dangling
             (Pc.showing (u "old") (Office.machine Office.with_dangling)) =
  (Returned tt,
   {| world := {| host := Office.machine Office.with_dangling;
                  result_text := u "old";
                  winreg_log := [] |};
      log := [Out_showerror Text.error_title Label.path_missing] |}).
Proof.
  split; [by_run |].
  exact (proj2 (check_link_rejects (HostOS := Pc.pc_os)
                  (HostShell := Pc.pc_shell)
                  (Pc.showing (u "old")
                              (Office.machine Office.with_dangling)))
               dangling ltac:(vm_compute; discriminate) ltac:(by_run)).
Defined.

Lemma check_link_shows_witness :
  result_text
    (world (snd (check_link data_shared
                            (Pc.showing (u "old") (Office.machine linked))))) =
  Label.not_link_head ++ data_shared ++ Label.not_link_tail
  /\
  result_text
    (world (snd (check_link report_hl
                            (Pc.showing (u "old") (Office.machine linked))))) =
  (Label.path_line ++ report_hl ++ [newline]) ++
  (Label.kind_line ++ HardLink ++ [newline])
  /\
  result_text
    (world (snd (check_link report_sl
                            (Pc.showing (u "old") (Office.machine linked))))) =
  (Label.path_line ++ report_sl ++ [newline]) ++
  (Label.kind_line ++ SymLink ++ [newline]) ++
  (Label.target_line ++ report ++ [newline]) ++
  (Label.target_exists_line ++ Label.yes ++ [newline]).
Proof.
  split; [| split].
  - exact (proj1 (check_link_shows (HostOS := Pc.pc_os)
                    (HostShell := Pc.pc_shell)
                    data_shared
                    (Pc.showing (u "old") (Office.machine linked))
                    ltac:(vm_compute; discriminate) ltac:(by_run))
                 ltac:(by_run)).
  - exact (proj1 (proj2 (check_link_shows (HostOS := Pc.pc_os)
                           (HostShell := Pc.pc_shell)
                           report_hl
                           (Pc.showing (u "old") (Office.machine linked))
                           ltac:(vm_compute; discriminate) ltac:(by_run)))
                 HardLink ltac:(by_run) ltac:(by_run)).
  - pose proof (proj2 (proj2 (check_link_shows (HostOS := Pc.pc_os)
                                (HostShell := Pc.pc_shell)
                                report_sl
                                (Pc.showing (u "old") (Office.machine linked))
                                ltac:(vm_compute; discriminate)
                                ltac:(by_run)))
                      SymLink report ltac:(by_run) ltac:(by_run)
                      ltac:(vm_compute; discriminate)) as Hshown.
    vm_compute in Hshown. vm_compute. exact Hshown.
Defined.

Lemma check_integration_file_root_only_witness :
  fst (check_integration (Pc.start Office.file_entries_only)) = Returned true
  /\
  exists key,
    Pc.open_key file_key Office.file_entries_only = Returned key.
Proof.
  split; [by_run |].
  exact (proj1 (proj2 (check_integration_file_root_only
                         (HostShell := Pc.pc_shell)
                         (Pc.start Office.file_entries_only)))
               ltac:(by_run)).
Defined.

Lemma settings_need_elevation_witness :
  winreg_log (world (snd (apply_settings
                            true
                            (Pc.start (Office.machine unprivileged))))) = []
  /\
  fst (apply_settings false (Pc.start (Office.machine unprivileged))) =
  Raised (SystemExit 0).
Proof.
  split.
  - exact (proj1 (settings_need_elevation (HostOS := Pc.pc_os)
                    (HostShell := Pc.pc_shell)
                    true (Pc.start (Office.machine unprivileged))
                    ltac:(by_run))).
  - exact (proj1 (proj2 (proj2 (settings_need_elevation
                                  (HostOS := Pc.pc_os)
                                  (HostShell := Pc.pc_shell)
                                  false
                                  (Pc.start (Office.machine unprivileged))
                                  ltac:(by_run)))
                        42%Z (Office.machine unprivileged) ltac:(by_run))).
Defined.

Lemma removal_follows_plan_witness :
  winreg_log (world (snd (remove_from_context_menu
                            (Pc.start Office.integrated)))) =
  [] ++ removal_plan.
Proof.
  destruct (proj2 (removal_follows_plan (HostOS := Pc.pc_os)
                     (HostShell := Pc.pc_shell)
                     (Pc.start Office.integrated)))
    as (shown & Hlog & Hall).
  apply Hall.
  change (log (Pc.start Office.integrated) ++ shown) with shown in Hlog.
  rewrite <- Hlog. vm_compute. tauto.
Defined.

Lemma removal_stops_half_way_witness :
  remove_from_context_menu (Pc.start Office.file_entries_only) =
  (Returned tt,
   {| world := {| host := Office.machine plain;
                  result_text := [];
                  winreg_log := [] ++ firstn 3 removal_plan |};
      log := [] ++
             [Call_IsUserAnAdmin;
              Out_showerror Text.error_title
                (Label.remove_failed ++
                 u "[WinError 2] The system cannot find the file specified")] |}).
Proof.
  exact (removal_stops_half_way (HostOS := Pc.pc_os)
           (HostShell := Pc.pc_shell)
           (Pc.start Office.file_entries_only) 1%Z
           (Pc.put_keys (Office.other_keys ++ [(file_key, [])])
                        Office.file_entries_only)
           (Office.machine plain) (Office.machine plain)
           (u "[WinError 2] The system cannot find the file specified")
           ltac:(by_run) ltac:(discriminate)
           ltac:(by_run) ltac:(by_run) ltac:(by_run)).
Defined.

End FormRuns.

(** * The form as a whole *)

Section WindowFacts.

Context {W : Type} `{HostOS : OS W} `{HostShell : Shell W}.

Ltac tidy := repeat rewrite <- app_assoc; simpl.

(** The test for the menu entry returns and writes nothing to the log of
    calls and outputs: its calls are registry calls. *)
Lemma check_integration_quiet :
  forall (s : state (desk W)),
    (exists present, fst (check_integration s) = Returned present) /\
    log (snd (check_integration s)) = log s.
Proof.
  intros s.
  unfold check_integration, OpenKey, CloseKey, registry, try_except, bind,
    ret.
  simpl.
  destruct (winreg_OpenKey file_key (host (world s))) as [key | e]; simpl.
  - destruct (winreg_CloseKey key (host (world s))) as [[[] | e] w']; simpl;
      split; try reflexivity; eexists; reflexivity.
  - split; [eexists |]; reflexivity.
Qed.

Lemma main_to_form :
  forall (args : Namespace) (prefill : option str) (session : list action),
    (given (arg_source args) = None /\ prefill = hd_error (arg_files args)) \/
    (exists source,
        given (arg_source args) = Some source /\ prefill = Some source /\
        (given (arg_type args) = None \/ given (arg_target args) = None)) ->
    main args session = gui prefill session.
Proof.
  intros args prefill session [[Hsource ->] | (source & Hsource & -> & Hmiss)];
    unfold main; rewrite Hsource.
  - destruct (arg_files args); reflexivity.
  - destruct Hmiss as [Hm | Hm]; rewrite Hm.
    + reflexivity.
    + destruct (given (arg_type args)); reflexivity.
Qed.

Ltac run_form :=
  cbv beta iota zeta fix delta
    [status_set emit bind ret mainloop callback handle try_except
     create_link showerror showinfo print create_hardlink isfile query];
  simpl.

Ltac open_form s :=
  let r := fresh "r" in
  let s1 := fresh "s" in
  let Hret := fresh "Hret" in
  let Hlog := fresh "Hlog" in
  let present := fresh "present" in
  destruct (check_integration_quiet s) as [[present Hret] Hlog];
  unfold gui, LinkShellApp_init;
  unfold bind at 1; unfold bind at 1;
  destruct (check_integration s) as [r s1];
  simpl in Hret, Hlog; subst r;
  destruct s1 as [w1 l1]; simpl in Hlog; subst l1.

(** X7: [main] makes a link of its own only from a complete command line.
    When [--source] is missing or empty, the form is opened with the first
    file argument (if any) in its source field, also when [--type] and
    [--target] were given; when [--source] is given but [--type] or
    [--target] is missing or empty, the form is opened with the source.
    Opening the form makes the registry test of [check_integration], sets
    the status bar and shows the window; after that, only what the user does
    has an effect.  When the window is closed at once, nothing else has
    happened.  A click on the create button right away is refused, the
    target being empty.  Once a target is typed in, the click makes the
    attempt with the path that was filled in as the source and with the
    kind selected from the start, a hard link: for a source that is not a
    file, the creator refuses it. *)
Theorem main_opens_form_unless_complete :
  forall (args : Namespace) (prefill : option str) (s : state (desk W)),
    (given (arg_source args) = None /\ prefill = hd_error (arg_files args)) \/
    (exists source,
        given (arg_source args) = Some source /\ prefill = Some source /\
        (given (arg_type args) = None \/ given (arg_target args) = None)) ->
    main args [] s =
    (Returned tt,
     {| world := world (snd (check_integration s));
        log := log s ++ [Out_status (u "就绪"); Out_gui prefill] |})
    /\
    main args [Click_create] s =
    (Returned tt,
     {| world := world (snd (check_integration s));
        log := log s ++
               [Out_status (u "就绪"); Out_gui prefill;
                Out_showerror Text.error_title Text.need_paths] |})
    /\
    (forall source target : str,
        prefill = Some source ->
        Py.truthy source = true ->
        Py.truthy target = true ->
        os_path_isfile source (host (world (snd (check_integration s)))) =
        false ->
        main args [Edit_target_path target; Click_create] s =
        (Returned tt,
         {| world := world (snd (check_integration s));
            log := log s ++
                   [Out_status (u "就绪"); Out_gui (Some source);
                    Call_isfile source;
                    Out_showerror Text.error_title Text.hardlink_files_only;
                    Out_status Text.create_failed] |})).
Proof.
  intros args prefill s Hargs.
  split; [| split]; [| | intros source target Hfill Hsource Htarget];
    rewrite (main_to_form args prefill _ Hargs).
  - open_form s. run_form. tidy. reflexivity.
  - open_form s. run_form.
    destruct prefill as [path |]; simpl;
      rewrite ?orb_true_r; simpl; tidy; reflexivity.
  - subst prefill. open_form s. simpl.
    intros Hfile. run_form.
    rewrite Hsource, Htarget. simpl.
    rewrite Hfile. simpl. tidy. reflexivity.
Qed.

End WindowFacts.

Module WindowRuns.

Import Scenario.

Ltac by_run := vm_compute; reflexivity.

Lemma main_opens_form_unless_complete_witness :
  main Cases.no_source [] (Pc.start (Office.machine plain)) =
  (Returned tt,
   {| world := {| host := Office.machine plain;
                  result_text := [];
                  winreg_log := [Reg_OpenKey file_key] |};
      log := [Out_status (u "就绪"); Out_gui (Some report)] |})
  /\
  main Cases.source_only [Click_create] (Pc.start Office.integrated) =
  (Returned tt,
   {| world := {| host := Office.integrated;
                  result_text := [];
                  winreg_log := [Reg_OpenKey file_key;
                                 Reg_CloseKey file_key] |};
      log := [Out_status (u "就绪"); Out_gui (Some report);
              Out_showerror Text.error_title Text.need_paths] |})
  /\
  main {| arg_type := None; arg_source := Some data_shared;
          arg_target := None; arg_files := [] |}
       [Edit_target_path report_hl; Click_create]
       (Pc.start (Office.machine plain)) =
  (Returned tt,
   {| world := {| host := Office.machine plain;
                  result_text := [];
                  winreg_log := [Reg_OpenKey file_key] |};
      log := [Out_status (u "就绪"); Out_gui (Some data_shared);
              Call_isfile data_shared;
              Out_showerror Text.error_title Text.hardlink_files_only;
              Out_status Text.create_failed] |}).
Proof.
  pose proof (main_opens_form_unless_complete
                (HostOS := Pc.pc_os) (HostShell := Pc.pc_shell)
                Cases.no_source (Some report)
                (Pc.start (Office.machine plain))
                (or_introl (conj eq_refl eq_refl)))
    as (Hclosed & _ & _).
  pose proof (main_opens_form_unless_complete
                (HostOS := Pc.pc_os) (HostShell := Pc.pc_shell)
                Cases.source_only (Some report)
                (Pc.start Office.integrated)
                (or_intror
                   (ex_intro _ report
                      (conj eq_refl (conj eq_refl (or_introl eq_refl))))))
    as (_ & Hclick & _).
  pose proof (main_opens_form_unless_complete
                (HostOS := Pc.pc_os) (HostShell := Pc.pc_shell)
                {| arg_type := None; arg_source := Some data_shared;
                   arg_target := None; arg_files := [] |}
                (Some data_shared)
                (Pc.start (Office.machine plain))
                (or_intror
                   (ex_intro _ data_shared
                      (conj eq_refl (conj eq_refl (or_introl eq_refl))))))
    as (_ & _ & Hfilled).
  split; [| split].
  - vm_compute in Hclosed. vm_compute. exact Hclosed.
  - vm_compute in Hclick. vm_compute. exact Hclick.
  - pose proof (Hfilled data_shared report_hl eq_refl
                        ltac:(by_run) ltac:(by_run) ltac:(by_run)) as Hrun.
    vm_compute in Hrun. vm_compute. exact Hrun.
Defined.

End WindowRuns.

(** * The menu entry on the reference registry *)

Arguments Pc.has : simpl never.
Arguments Pc.has_subkey : simpl never.
Arguments Pc.create : simpl never.
Arguments Pc.set_value : simpl never.
Arguments Pc.delete : simpl never.
Arguments Pc.values_of : simpl never.

Section RegistryFacts.

Variable r : list (str * Pc.values).

Lemma eqb_true : forall a b : str, Py.eqb a b = true -> a = b.
Proof.
  intros a b. unfold Py.eqb.
  destruct (list_eq_dec N.eq_dec a b); [auto | discriminate].
Qed.

Lemma startswith_trans :
  forall s q pre,
    Py.startswith s q = true -> Py.startswith q pre = true ->
    Py.startswith s pre = true.
Proof.
  intros s q pre; revert s q; induction pre as [| a pre IH]; intros s q Hsq Hq.
  - apply startswith_nil.
  - destruct q as [| b q]; [discriminate |].
    destruct s as [| c s]; [discriminate |].
    rewrite startswith_cons in *.
    apply andb_true_iff in Hsq; destruct Hsq as [Hbc Hsq].
    apply andb_true_iff in Hq; destruct Hq as [Hab Hq].
    apply N.eqb_eq in Hbc. apply N.eqb_eq in Hab. subst.
    rewrite N.eqb_refl. simpl. eapply IH; eauto.
Qed.

Lemma has_frame :
  forall k t, Pc.has k r = false -> Pc.has k (r ++ t) = Pc.has k t.
Proof.
  intros k t H. unfold Pc.has in *. rewrite existsb_app, H. reflexivity.
Qed.

Lemma has_subkey_frame :
  forall k t,
    Pc.has_subkey k r = false -> Pc.has_subkey k (r ++ t) = Pc.has_subkey k t.
Proof.
  intros k t H. unfold Pc.has_subkey in *. rewrite existsb_app, H.
  reflexivity.
Qed.

Lemma set_value_absent :
  forall k name value (l : list (str * Pc.values)),
    Pc.has k l = false -> Pc.set_value k name value l = l.
Proof.
  intros k name value l; induction l as [| e l IH]; intros H.
  - reflexivity.
  - unfold Pc.has, Pc.values in *. cbn [existsb] in H.
    apply orb_false_iff in H.
    destruct H as [He Hl]. unfold Pc.set_value in *. cbn [map]. unfold Pc.values in *. rewrite He.
    f_equal. apply IH. exact Hl.
Qed.

Lemma set_value_frame :
  forall k name value t,
    Pc.has k r = false ->
    Pc.set_value k name value (r ++ t) = r ++ Pc.set_value k name value t.
Proof.
  intros k name value t H.
  rewrite <- (set_value_absent k name value r H) at 2.
  unfold Pc.set_value. apply map_app.
Qed.

Lemma delete_absent :
  forall k (l : list (str * Pc.values)),
    Pc.has k l = false -> Pc.delete k l = l.
Proof.
  intros k l; induction l as [| e l IH]; intros H.
  - reflexivity.
  - unfold Pc.has, Pc.values in *. cbn [existsb] in H.
    apply orb_false_iff in H.
    destruct H as [He Hl]. unfold Pc.delete in *. cbn [filter]. unfold Pc.values in *. rewrite He.
    cbn [negb]. f_equal. apply IH. exact Hl.
Qed.

Lemma delete_frame :
  forall k t,
    Pc.has k r = false -> Pc.delete k (r ++ t) = r ++ Pc.delete k t.
Proof.
  intros k t H.
  rewrite <- (delete_absent k r H) at 2.
  unfold Pc.delete. apply filter_app.
Qed.

Lemma create_frame :
  forall k t,
    Pc.has k r = false -> Pc.create k (r ++ t) = r ++ Pc.create k t.
Proof.
  intros k t H. unfold Pc.create. rewrite has_frame by exact H.
  destruct (Pc.has k t); [reflexivity | symmetry; apply app_assoc].
Qed.

Lemma values_of_frame :
  forall k t,
    Pc.has k r = false -> Pc.values_of k (r ++ t) = Pc.values_of k t.
Proof.
  intros k t H. unfold Pc.values_of. f_equal.
  unfold Pc.has, Pc.values in *. clear - H.
  induction r as [| e l IH]; cbn [existsb find app] in *.
  - reflexivity.
  - apply orb_false_iff in H. destruct H as [He Hl]. rewrite He. auto.
Qed.

(** No key of the table is a key of the entry or below one. *)
Hypothesis Hfree :
  forallb (fun e => negb (Py.startswith (fst e) file_key) &&
                    negb (Py.startswith (fst e) directory_key)) r = true.

Lemma free_of :
  forall e, In e r ->
            Py.startswith (fst e) file_key = false /\
            Py.startswith (fst e) directory_key = false.
Proof.
  intros e Hin. rewrite forallb_forall in Hfree.
  specialize (Hfree e Hin). apply andb_true_iff in Hfree.
  destruct Hfree as [H1 H2].
  apply negb_true_iff in H1. apply negb_true_iff in H2. auto.
Qed.

Lemma key_absent :
  forall k,
    Py.startswith k file_key = true \/ Py.startswith k directory_key = true ->
    Pc.has k r = false.
Proof.
  intros k Hk. unfold Pc.has.
  destruct (existsb (fun e => Py.eqb (fst e) k) r) eqn:Hex; [| reflexivity].
  apply existsb_exists in Hex. destruct Hex as (e & Hin & Heq).
  apply eqb_true in Heq. destruct (free_of e Hin) as [H1 H2].
  rewrite Heq in H1, H2. destruct Hk; congruence.
Qed.

Lemma subkey_absent :
  forall k,
    Py.startswith k file_key = true \/ Py.startswith k directory_key = true ->
    Pc.has_subkey k r = false.
Proof.
  intros k Hk. unfold Pc.has_subkey.
  destruct (existsb (fun e => Py.startswith (fst e) (k ++ u "\")) r) eqn:Hex;
    [| reflexivity].
  apply existsb_exists in Hex. destruct Hex as (e & Hin & Hsub).
  destruct (free_of e Hin) as [H1 H2].
  assert (Hk' : Py.startswith (fst e) k = true).
  { eapply startswith_trans; [exact Hsub | apply startswith_same]. }
  destruct Hk as [Hk | Hk].
  - rewrite (startswith_trans _ _ _ Hk' Hk) in H1. discriminate.
  - rewrite (startswith_trans _ _ _ Hk' Hk) in H2. discriminate.
Qed.

End RegistryFacts.

Section Reference.

Variable p : Pc.pc.
Hypothesis Helevated : Ntfs.elevated (Pc.disk p) = true.
Hypothesis Hfree :
  forallb (fun e => negb (Py.startswith (fst e) file_key) &&
                    negb (Py.startswith (fst e) directory_key))
          (Pc.keys p) = true.

Ltac by_run := vm_compute; reflexivity.

Ltac facts :=
  pose proof (key_absent (Pc.keys p) Hfree file_key
                (or_introl (startswith_same file_key []))) as Hk1;
  pose proof (key_absent (Pc.keys p) Hfree file_command_key
                (or_introl (startswith_same file_key (u "\command")))) as Hk2;
  pose proof (key_absent (Pc.keys p) Hfree directory_key
                (or_intror (startswith_same directory_key []))) as Hk3;
  pose proof (key_absent (Pc.keys p) Hfree directory_command_key
                (or_intror (startswith_same directory_key (u "\command"))))
    as Hk4;
  pose proof (subkey_absent (Pc.keys p) Hfree file_key
                (or_introl (startswith_same file_key []))) as Hs1;
  pose proof (subkey_absent (Pc.keys p) Hfree file_command_key
                (or_introl (startswith_same file_key (u "\command")))) as Hs2;
  pose proof (subkey_absent (Pc.keys p) Hfree directory_key
                (or_intror (startswith_same directory_key []))) as Hs3;
  pose proof (subkey_absent (Pc.keys p) Hfree directory_command_key
                (or_intror (startswith_same directory_key (u "\command"))))
    as Hs4.

Ltac frame :=
  repeat first
    [ rewrite has_frame by assumption
    | rewrite has_subkey_frame by assumption
    | rewrite set_value_frame by assumption
    | rewrite create_frame by assumption
    | rewrite delete_frame by assumption ].

Ltac tail :=
  repeat match goal with
  | |- context [Pc.has ?k ?t] =>
    lazymatch t with
    | _ ++ _ => fail
    | Pc.keys _ => fail
    | _ => let v := eval vm_compute in (Pc.has k t) in
           change (Pc.has k t) with v
    end
  | |- context [Pc.has_subkey ?k ?t] =>
    lazymatch t with
    | _ ++ _ => fail
    | Pc.keys _ => fail
    | _ => let v := eval vm_compute in (Pc.has_subkey k t) in
           change (Pc.has_subkey k t) with v
    end
  | |- context [Pc.create ?k ?t] =>
    lazymatch t with
    | _ ++ _ => fail
    | Pc.keys _ => fail
    | _ => let v := eval vm_compute in (Pc.create k t) in
           change (Pc.create k t) with v
    end
  | |- context [Pc.set_value ?k ?n ?x ?t] =>
    lazymatch t with
    | _ ++ _ => fail
    | Pc.keys _ => fail
    | _ => let v := eval vm_compute in (Pc.set_value k n x t) in
           change (Pc.set_value k n x t) with v
    end
  | |- context [Pc.delete ?k ?t] =>
    lazymatch t with
    | _ ++ _ => fail
    | Pc.keys _ => fail
    | _ => let v := eval vm_compute in (Pc.delete k t) in
           change (Pc.delete k t) with v
    end
  end.

Lemma create_fresh :
  forall k (l : list (str * Pc.values)),
    Pc.has k l = false -> Pc.create k l = l ++ [(k, [])].
Proof. intros k l H. unfold Pc.create. rewrite H. reflexivity. Qed.

Ltac run_registry :=
  repeat (progress (unfold Pc.create_key, Pc.set_value_ex, Pc.close_key,
                      Pc.delete_key, Pc.open_key;
                    simpl;
                    rewrite ?Helevated;
                    rewrite ?create_fresh by assumption;
                    frame; tail; simpl)).

Ltac open_run :=
  unfold check_integration, integrate_to_context_menu,
    remove_from_context_menu, write_entry, is_admin, run_as_admin,
    OpenKey, CreateKey, SetValueEx, CloseKey, DeleteKey, registry,
    showinfo, showerror, read, bind, ret, try_except, query_exn, emit.

Lemma check_integration_on_reference :
  forall (s : state (desk Pc.pc)),
    fst (check_integration s) =
    Returned (Pc.has file_key (Pc.keys (host (world s)))).
Proof.
  intros s. open_run. simpl. unfold Pc.open_key.
  destruct (Pc.has file_key (Pc.keys (host (world s)))); reflexivity.
Qed.

Lemma integrate_on_reference :
  forall (text : str),
    exists calls shown,
      integrate_to_context_menu (Pc.showing text p) =
      (Returned tt,
       {| world :=
            {| host :=
                 Pc.put_keys
                   (Pc.keys p ++
                    menu_entry (Ntfs.executable (Pc.disk p)) (Pc.script p))
                   p;
               result_text := text;
               winreg_log := calls |};
          log := shown |}).
Proof.
  intros text. facts. open_run. run_registry.
  eexists; eexists. unfold Pc.put_keys. simpl.
  reflexivity.
Qed.

Lemma remove_on_reference :
  forall (text : str) (calls : list winreg_call) (shown : list event),
    exists calls' shown',
      remove_from_context_menu
        {| world :=
             {| host :=
                  Pc.put_keys
                    (Pc.keys p ++
                     menu_entry (Ntfs.executable (Pc.disk p)) (Pc.script p))
                    p;
                result_text := text;
                winreg_log := calls |};
           log := shown |} =
      (Returned tt,
       {| world := {| host := p; result_text := text; winreg_log := calls' |};
          log := shown' |}).
Proof.
  intros text calls shown. facts. open_run. run_registry.
  eexists; eexists. unfold Pc.put_keys. simpl. rewrite ?app_nil_r.
  destruct p; reflexivity.
Qed.

(** X24: on the reference registry the entry is made, seen and taken away.
    In an elevated process, on a registry that holds no key at or below the
    two keys of the entry: [check_integration] first answers [False]; after
    [integrate_to_context_menu] the registry holds the four keys with the
    title, the icon and the command ["exe" "script" --source "%1"], and
    [check_integration] answers [True]; after [remove_from_context_menu]
    the host is as it was at the start and [check_integration] answers
    [False] again. *)
Theorem integrate_then_remove_restores :
  forall (text : str),
    let before := Pc.showing text p in
    let integrated := snd (integrate_to_context_menu before) in
    let removed := snd (remove_from_context_menu integrated) in
    fst (check_integration before) = Returned false /\
    Pc.keys (host (world integrated)) =
    Pc.keys p ++ menu_entry (Ntfs.executable (Pc.disk p)) (Pc.script p) /\
    fst (check_integration integrated) = Returned true /\
    host (world removed) = p /\
    fst (check_integration removed) = Returned false.
Proof.
  intros text. cbv zeta. facts.
  destruct (integrate_on_reference text) as (calls & shown & Hint).
  rewrite Hint. simpl snd.
  destruct (remove_on_reference text calls shown) as (calls' & shown' & Hrem).
  rewrite Hrem. simpl snd.
  rewrite !check_integration_on_reference. simpl.
  rewrite has_frame by assumption. rewrite Hk1.
  repeat match goal with |- _ /\ _ => split end; reflexivity.
Qed.

End Reference.

Module RegistryRuns.

Lemma integrate_then_remove_restores_witness :
  fst (check_integration (Pc.showing [] (Office.machine Scenario.plain))) =
  Returned false
  /\
  Pc.keys (host (world (snd (integrate_to_context_menu
                               (Pc.showing [] (Office.machine Scenario.plain))))))
  = Pc.keys Office.integrated
  /\
  host (world (snd (remove_from_context_menu
                      (snd (integrate_to_context_menu
                              (Pc.showing [] (Office.machine Scenario.plain)))))))
  = Office.machine Scenario.plain.
Proof.
  pose proof (integrate_then_remove_restores
                (Office.machine Scenario.plain)
                ltac:(vm_compute; reflexivity) ltac:(vm_compute; reflexivity)
                []) as (Hbefore & Hkeys & _ & Hback & _).
  split; [exact Hbefore |]. split; [| exact Hback].
  rewrite Hkeys. vm_compute. reflexivity.
Defined.

End RegistryRuns.

(** * What the front ends tell and what plain paths give *)

Section ReportFacts.

Context {W : Type} `{HostOS : OS W}.

Ltac step :=
  unfold create_hardlink, create_symlink, create_junction, is_link,
    is_link_body, get_link_target, get_link_target_body, is_admin,
    run_as_admin, sys_exit, isfile, isdir, islink, readlink, symlink_call,
    hardlink_call, run, showerror, showinfo, print, status_set, read,
    bind, ret, raise, try_except, query, query_exn, call, emit;
  simpl.

Ltac tidy := repeat rewrite <- app_assoc; simpl.

(** X25: the front ends tell what the creator answered.  For a source that
    is a file, the form's handler with link type [hardlink] makes the one
    call [CreateHardLinkW(target, source)]; on a non-zero return it sets the
    status and shows the success dialog naming the target, and on a zero
    return it only sets the status to "creation failed": no dialog tells of
    the failure.  For a source that is a directory, the headless branch with
    type [junction] runs the [mklink] command and prints the success line
    with the target when the status is 0, the failure line otherwise. *)
Theorem front_ends_tell_the_answer :
  forall (source target : str) (s : state W),
    (forall (result : Z) (w' : W),
        source <> [] ->
        target <> [] ->
        os_path_isfile source (world s) = true ->
        CreateHardLinkW target source (world s) = (Returned result, w') ->
        create_link {| link_type := hardlink;
                       source_path := source;
                       target_path := target |} s =
        (Returned tt,
         {| world := w';
            log := log s ++
                   [Call_isfile source; Call_CreateHardLinkW target source] ++
                   (if (result =? 0)%Z
                    then [Out_status Text.create_failed]
                    else [Out_status (u "成功创建" ++ hardlink ++ u "链接");
                          Out_showinfo Text.success_title
                                       (Text.link_created ++ target)]) |}))
    /\
    (forall (result : CompletedProcess) (w' : W),
        os_path_isdir source (world s) = true ->
        subprocess_run [u "cmd"; u "/c"; mklink_command target source] true
                       (world s) = (Returned result, w') ->
        headless junction source target s =
        (Returned tt,
         {| world := w';
            log := log s ++
                   [Call_isdir source;
                    Call_subprocess_run
                      [u "cmd"; u "/c"; mklink_command target source] true;
                    Out_print (if (returncode result =? 0)%Z
                               then Text.junction_created ++ target
                               else Text.junction_not_created)] |})).
Proof.
  intros source target s; split.
  - intros result w' Hsource Htarget Hfile Hcall.
    unfold create_link. simpl.
    destruct source as [| c source]; [congruence |].
    destruct target as [| d target]; [congruence |].
    replace (negb (Py.truthy (c :: source)) || negb (Py.truthy (d :: target)))
      with false by reflexivity.
    step. rewrite Hfile; simpl. rewrite Hcall; simpl.
    destruct (result =? 0)%Z; simpl; tidy; reflexivity.
  - intros result w' Hdir Hrun.
    unfold headless.
    replace (Py.eqb junction hardlink) with false by reflexivity.
    replace (Py.eqb junction symlink) with false by reflexivity.
    replace (Py.eqb junction junction) with true by reflexivity.
    step. rewrite Hdir; simpl. rewrite Hrun; simpl.
    destruct (returncode result =? 0)%Z; simpl; tidy; reflexivity.
Qed.

(** X26: plain paths are not links.  A directory that is not a symbolic
    link, whose report holds neither "Reparse" nor "重解析点" and which is not
    a file, gets [None]; so does a regular file that is neither a symbolic
    link nor a directory and whose listing has at most two lines.  In both
    cases exactly one [fsutil] query is run. *)
Theorem is_link_of_plain_path :
  forall (path : str) (s : state W) (printed : CompletedProcess) (w' : W),
    os_path_islink path (world s) = false ->
    (os_path_isdir path (world s) = true ->
     subprocess_run [u "fsutil"; u "reparsepoint"; u "query"; path] false
                    (world s) = (Returned printed, w') ->
     Py.contains (u "重解析点") (stdout printed) ||
     Py.contains (u "Reparse") (stdout printed) = false ->
     os_path_isfile path w' = false ->
     is_link path s =
     (Returned None,
      {| world := w';
         log := log s ++
                [Call_islink path; Call_isdir path;
                 Call_subprocess_run
                   [u "fsutil"; u "reparsepoint"; u "query"; path] false;
                 Call_isfile path] |}))
    /\
    (os_path_isdir path (world s) = false ->
     os_path_isfile path (world s) = true ->
     subprocess_run [u "fsutil"; u "hardlink"; u "list"; path] false
                    (world s) = (Returned printed, w') ->
     (List.length (Py.split newline (Py.strip (stdout printed))) <= 2)%nat ->
     is_link path s =
     (Returned None,
      {| world := w';
         log := log s ++
                [Call_islink path; Call_isdir path; Call_isfile path;
                 Call_subprocess_run
                   [u "fsutil"; u "hardlink"; u "list"; path] false] |})).
Proof.
  intros path s printed w' Hsym; split.
  - intros Hdir Hrun Hmark Hfile.
    step. rewrite Hsym; simpl. rewrite Hdir; simpl. rewrite Hrun; simpl.
    rewrite Hmark; simpl. rewrite Hfile; simpl. tidy; reflexivity.
  - intros Hdir Hfile Hrun Hlines.
    step. rewrite Hsym; simpl. rewrite Hdir; simpl. rewrite Hfile; simpl.
    rewrite Hrun; simpl.
    destruct (Nat.ltb_spec 2 (List.length
                (Py.split newline (Py.strip (stdout printed))))); [lia |].
    simpl. tidy; reflexivity.
Qed.

End ReportFacts.

Module ReportRuns.

Import Scenario.

Ltac by_run := vm_compute; reflexivity.

Lemma front_ends_tell_the_answer_witness :
  create_link (form hardlink report links) (Ntfs.boot plain) =
  (Returned tt,
   {| world := plain;
      log := [] ++
             [Call_isfile report; Call_CreateHardLinkW links report] ++
             [Out_status Text.create_failed] |})
  /\
  headless junction data_shared shared_link (Ntfs.boot plain) =
  (Returned tt,
   {| world := Ntfs.add shared_link
                 (Ntfs.MountPoint (u "\??\" ++ data_shared) data_shared)
                 plain;
      log := [] ++
             [Call_isdir data_shared;
              Call_subprocess_run
                [u "cmd"; u "/c"; mklink_command shared_link data_shared]
                true;
              Out_print (Text.junction_created ++ shared_link)] |}).
Proof.
  split.
  - exact (proj1 (front_ends_tell_the_answer (HostOS := Ntfs.ntfs_os)
                    report links (Ntfs.boot plain))
                 0%Z plain
                 ltac:(vm_compute; discriminate)
                 ltac:(vm_compute; discriminate)
                 ltac:(by_run) ltac:(by_run)).
  - pose proof (proj2 (front_ends_tell_the_answer (HostOS := Ntfs.ntfs_os)
                         data_shared shared_link (Ntfs.boot plain))
                      (fst (Ntfs.mklink_J shared_link data_shared plain))
                      (Ntfs.add shared_link
                         (Ntfs.MountPoint (u "\??\" ++ data_shared)
                                          data_shared)
                         plain)
                      ltac:(by_run) ltac:(by_run)) as Htold.
    vm_compute in Htold. vm_compute. exact Htold.
Defined.

Lemma is_link_of_plain_path_witness :
  is_link data_shared (Ntfs.boot plain) =
  (Returned None,
   {| world := plain;
      log := [] ++
             [Call_islink data_shared; Call_isdir data_shared;
              Call_subprocess_run
                [u "fsutil"; u "reparsepoint"; u "query"; data_shared] false;
              Call_isfile data_shared] |})
  /\
  is_link report (Ntfs.boot plain) =
  (Returned None,
   {| world := plain;
      log := [] ++
             [Call_islink report; Call_isdir report; Call_isfile report;
              Call_subprocess_run
                [u "fsutil"; u "hardlink"; u "list"; report] false] |}).
Proof.
  split.
  - exact (proj1 (is_link_of_plain_path (HostOS := Ntfs.ntfs_os)
                    data_shared (Ntfs.boot plain)
                    (Ntfs.fsutil_reparsepoint_query data_shared plain) plain
                    ltac:(by_run))
                 ltac:(by_run) ltac:(by_run) ltac:(by_run) ltac:(by_run)).
  - exact (proj2 (is_link_of_plain_path (HostOS := Ntfs.ntfs_os)
                    report (Ntfs.boot plain)
                    (Ntfs.fsutil_hardlink_list report plain) plain
                    ltac:(by_run))
                 ltac:(by_run) ltac:(by_run) ltac:(by_run)
                 ltac:(vm_compute; lia)).
Defined.

End ReportRuns.
